(** * Temporal: calendar weeks, the cache Builder and the readers

  A shallow embedding of [temporal/__init__.py] and the properties its
  specification states about it.

  The file is organised as the Python module is:
  - [Datetime]: the part of the standard [datetime] library the module
    relies on (proleptic Gregorian ordinals, [date], [timedelta] arithmetic,
    [strftime] fields), with its range errors;
  - [TDate], [Internals]: the week-number algorithm;
  - [Redis]: the key-value cache;
  - [Builder]: the three build phases;
  - the readers ([get_week_by_weeknum], [get_week_by_anydate],
    [get_weeks_as_dict], [week_generator]). *)

From Stdlib Require Import ZArith Lia Bool List Ascii String.
From stdpp Require Import base option list gmap strings pretty.

Local Open Scope Z_scope.

(** ** Exceptions

  Python code either returns a value or raises.  [OutOfFuel] is not a Python
  exception: it marks a loop model that was given too little fuel, and the
  development proves it is never produced. *)

Inductive exn : Type :=
| TypeError
| ValueError
| OverflowError
| KeyError
| Exception
| OutOfFuel.

Inductive result (A : Type) : Type :=
| Ok (a : A)
| Raise (e : exn).

Arguments Ok {A} a.
Arguments Raise {A} e.

Global Instance result_ret : MRet result := fun A a => Ok a.

Global Instance result_bind : MBind result := fun A B k r =>
match r with
| Ok a => k a
| Raise e => Raise e
end.

(** ** The [datetime] library *)

Module Datetime.

Definition MINYEAR : Z := 1.
Definition MAXYEAR : Z := 9999.
Definition MAXORDINAL : Z := 3652059.

Definition is_leap (year : Z) : bool :=
  (year mod 4 =? 0) && (negb (year mod 100 =? 0) || (year mod 400 =? 0)).

(** year -> number of days before January 1st of year. *)
Definition days_before_year (year : Z) : Z :=
  let y := year - 1 in
  y * 365 + y / 4 - y / 100 + y / 400.

Definition DAYS_IN_MONTH (month : Z) : Z :=
  match month with
  | 1 => 31 | 2 => 28 | 3 => 31 | 4 => 30 | 5 => 31 | 6 => 30
  | 7 => 31 | 8 => 31 | 9 => 30 | 10 => 31 | 11 => 30 | 12 => 31
  | _ => -1
  end.

Definition DAYS_BEFORE_MONTH (month : Z) : Z :=
  match month with
  | 1 => 0 | 2 => 31 | 3 => 59 | 4 => 90 | 5 => 120 | 6 => 151
  | 7 => 181 | 8 => 212 | 9 => 243 | 10 => 273 | 11 => 304 | 12 => 334
  | _ => -1
  end.

Definition days_in_month (year month : Z) : Z :=
  if (month =? 2) && is_leap year then 29 else DAYS_IN_MONTH month.

Definition days_before_month (year month : Z) : Z :=
  DAYS_BEFORE_MONTH month + (if (month >? 2) && is_leap year then 1 else 0).

Definition ymd2ord (year month day : Z) : Z :=
  days_before_year year + days_before_month year month + day.

Definition DI400Y : Z := 146097.
Definition DI100Y : Z := 36524.
Definition DI4Y : Z := 1461.

(** ordinal -> (year, month, day), considering 01-Jan-0001 as day 1. *)
Definition ord2ymd (n : Z) : Z * Z * Z :=
  let n := n - 1 in
  let n400 := n / DI400Y in
  let n := n mod DI400Y in
  let year := n400 * 400 + 1 in
  let n100 := n / DI100Y in
  let n := n mod DI100Y in
  let n4 := n / DI4Y in
  let n := n mod DI4Y in
  let n1 := n / 365 in
  let n := n mod 365 in
  let year := year + n100 * 100 + n4 * 4 + n1 in
  if (n1 =? 4) || (n100 =? 4) then (year - 1, 12, 31)
  else
    let leapyear := (n1 =? 3) && (negb (n4 =? 24) || (n100 =? 3)) in
    let month := Z.shiftr (n + 50) 5 in
    let preceding :=
      DAYS_BEFORE_MONTH month + (if (month >? 2) && leapyear then 1 else 0) in
    if preceding >? n then
      let month := month - 1 in
      let preceding :=
        preceding
        - (DAYS_IN_MONTH month + (if (month =? 2) && leapyear then 1 else 0)) in
      (year, month, n - preceding + 1)
    else (year, month, n - preceding + 1).

(** The last step of [ord2ymd]: the month and the day of the [n]-th day
    (counted from 0) of a year. *)
Definition month_day_of (leapyear : bool) (n : Z) : Z * Z :=
  let month := Z.shiftr (n + 50) 5 in
  let preceding :=
    DAYS_BEFORE_MONTH month + (if (month >? 2) && leapyear then 1 else 0) in
  if preceding >? n then
    let month := month - 1 in
    let preceding :=
      preceding
      - (DAYS_IN_MONTH month + (if (month =? 2) && leapyear then 1 else 0)) in
    (month, n - preceding + 1)
  else (month, n - preceding + 1).

Definition month_day_ok (leapyear : bool) (n : Z) : bool :=
  let '(m, d) := month_day_of leapyear n in
  (1 <=? m) && (m <=? 12) && (1 <=? d)
  && (d <=? DAYS_IN_MONTH m + (if (m =? 2) && leapyear then 1 else 0))
  && (DAYS_BEFORE_MONTH m + (if (m >? 2) && leapyear then 1 else 0) + d =? n + 1).

Record date : Type := mkdate { year : Z; month : Z; day : Z }.

(** The invariant of every [date] object: the check of its constructor. *)
Definition check_date_fields (y m d : Z) : bool :=
  (MINYEAR <=? y) && (y <=? MAXYEAR) && (1 <=? m) && (m <=? 12)
  && (1 <=? d) && (d <=? days_in_month y m).

Definition valid_date (d : date) : Prop :=
  check_date_fields (year d) (month d) (day d) = true.

(** [date(year, month, day)] *)
Definition new_date (y m d : Z) : result date :=
  if check_date_fields y m d then Ok (mkdate y m d) else Raise ValueError.

Definition toordinal (d : date) : Z := ymd2ord (year d) (month d) (day d).

Definition fromordinal (n : Z) : date :=
  let '(y, m, d) := ord2ymd n in mkdate y m d.

(** [d + timedelta(days=n)] *)
Definition add_days (d : date) (n : Z) : result date :=
  let o := toordinal d + n in
  if (0 <? o) && (o <=? MAXORDINAL) then Ok (fromordinal o)
  else Raise OverflowError.

(** [(d1 - d2).days] *)
Definition sub_days (d1 d2 : date) : Z := toordinal d1 - toordinal d2.

(** Comparison of dates is the comparison of the (year, month, day)
    triples. *)
Definition date_compare (a b : date) : comparison :=
  match year a ?= year b with
  | Eq => match month a ?= month b with
          | Eq => day a ?= day b
          | c => c
          end
  | c => c
  end.

Definition date_leb (a b : date) : bool :=
  match date_compare a b with Gt => false | _ => true end.
Definition date_ltb (a b : date) : bool :=
  match date_compare a b with Lt => true | _ => false end.
Definition date_eqb (a b : date) : bool :=
  match date_compare a b with Eq => true | _ => false end.

(** [d.weekday()]: Monday is 0, Sunday is 6. *)
Definition weekday (d : date) : Z := (toordinal d + 6) mod 7.

(** The number [strftime("%w")] prints: Sunday is 0, Saturday is 6. *)
Definition strftime_w (d : date) : Z := (weekday d + 1) mod 7.

(** The number [strftime("%j")] prints: the day of the year, from 1. *)
Definition yday (d : date) : Z := days_before_month (year d) (month d) + day d.

End Datetime.

(** ** Strings: the formatting helpers of Python the module uses *)

Module Str.

Local Open Scope nat_scope.

Definition ascii_upper (c : ascii) : ascii :=
  let n := nat_of_ascii c in
  if (97 <=? n) && (n <=? 122) then ascii_of_nat (n - 32) else c.

(** [s.upper()] *)
Fixpoint upper (s : string) : string :=
  match s with
  | EmptyString => EmptyString
  | String c s' => String (ascii_upper c) (upper s')
  end.

Fixpoint zeros (n : nat) : string :=
  match n with
  | O => EmptyString
  | S n' => String "0" (zeros n')
  end.

(** [s.zfill(width)]: pad with zeros on the left, after a leading sign. *)
Definition zfill (width : nat) (s : string) : string :=
  let pad := zeros (width - String.length s) in
  match s with
  | String "+" rest => String "+" (pad +:+ rest)
  | String "-" rest => String "-" (pad +:+ rest)
  | _ => pad +:+ s
  end.

(** [str(n)] for an integer. *)
Definition str (n : Z) : string := pretty n.

End Str.

(** ** [strftime] *)

Module Strftime.

Import Datetime.

(** Names by [weekday()]: Monday is 0. *)
Definition day_name (wd : Z) : string :=
  match wd with
  | 0 => "Monday" | 1 => "Tuesday" | 2 => "Wednesday" | 3 => "Thursday"
  | 4 => "Friday" | 5 => "Saturday" | _ => "Sunday"
  end.

Definition day_abbr (wd : Z) : string :=
  match wd with
  | 0 => "Mon" | 1 => "Tue" | 2 => "Wed" | 3 => "Thu"
  | 4 => "Fri" | 5 => "Sat" | _ => "Sun"
  end.

Definition month_name (m : Z) : string :=
  match m with
  | 1 => "January" | 2 => "February" | 3 => "March" | 4 => "April"
  | 5 => "May" | 6 => "June" | 7 => "July" | 8 => "August"
  | 9 => "September" | 10 => "October" | 11 => "November" | _ => "December"
  end.

(** ["%A"], ["%a"], ["%B"] *)
Definition fmt_A (d : date) : string := day_name (weekday d).
Definition fmt_a (d : date) : string := day_abbr (weekday d).
Definition fmt_B (d : date) : string := month_name (month d).

(** ["%Y"], ["%m"], ["%d"], ["%j"], ["%w"] *)
Definition fmt_Y (d : date) : string := Str.str (year d).
Definition fmt_m (d : date) : string := Str.zfill 2 (Str.str (month d)).
Definition fmt_d (d : date) : string := Str.zfill 2 (Str.str (day d)).
Definition fmt_j (d : date) : string := Str.zfill 3 (Str.str (yday d)).
Definition fmt_w (d : date) : string := Str.str (strftime_w d).

(** ["%Y-%m-%d"] *)
Definition fmt_Y_m_d (d : date) : string :=
  fmt_Y d +:+ "-" +:+ fmt_m d +:+ "-" +:+ fmt_d d.

(** ["%m/%d/%Y"] *)
Definition fmt_m_d_Y (d : date) : string :=
  fmt_m d +:+ "/" +:+ fmt_d d +:+ "/" +:+ fmt_Y d.

End Strftime.

(** ** [dateutil.relativedelta] *)

Module Dateutil.

Import Datetime.

(** [dateutil.rrule.SU]: weekdays count from Monday = 0. *)
Definition SU : Z := 6.

(** [d + relativedelta(weekday=wd)]: the first day on or after [d] whose
    weekday is [wd]. *)
Definition add_relativedelta_weekday (d : date) (wd : Z) : result date :=
  ret ← add_days d 0;
  let jumpdays := (7 - weekday ret + wd) mod 7 in
  add_days ret jumpdays.

End Dateutil.

(** ** Constants of the module *)

Definition EPOCH_START_YEAR : Z := 2020.
Definition EPOCH_END_YEAR : Z := 2050.

Definition MIN_YEAR : Z := 2000.
Definition MAX_YEAR : Z := 2201.

Record weekday_entry : Type :=
  mk_weekday { pos : Z; name_short : string; name_long : string }.

Definition WEEKDAYS_SUN0 : list weekday_entry :=
  [ mk_weekday 0 "SUN" "Sunday";
    mk_weekday 1 "MON" "Monday";
    mk_weekday 2 "TUE" "Tuesday";
    mk_weekday 3 "WED" "Wednesday";
    mk_weekday 4 "THU" "Thursday";
    mk_weekday 5 "FRI" "Friday";
    mk_weekday 6 "SAT" "Saturday" ].

Definition WEEKDAYS_MON0 : list weekday_entry :=
  [ mk_weekday 0 "MON" "Monday";
    mk_weekday 1 "TUE" "Tuesday";
    mk_weekday 2 "WED" "Wednesday";
    mk_weekday 3 "THU" "Thursday";
    mk_weekday 4 "FRI" "Friday";
    mk_weekday 5 "SAT" "Saturday";
    mk_weekday 6 "SUN" "Sunday" ].

(** [x in range(lo, hi)] for an integer [x]. *)
Definition in_range (x lo hi : Z) : bool := (lo <=? x) && (x <? hi).

(** ** class [TDate] *)

Module TDate.

Import Datetime.

Record t : Type := Make { as_date : date }.

(** [self - other], as a number of days. *)
Definition sub (self other : t) : Z := sub_days (as_date self) (as_date other).

(** An integer for the day of the week, beginning with Sunday. *)
Definition day_of_week_int (self : t) (zero_based : bool) : Z :=
  if zero_based then toordinal (as_date self) mod 7
  else toordinal (as_date self) mod 7 + 1.

Definition day_of_month (self : t) : Z := day (as_date self).

(** [int(self.date.strftime("%j"))] *)
Definition day_of_year (self : t) : Z := yday (as_date self).

Definition month_of_year (self : t) : Z := month (as_date self).

Definition year (self : t) : Z := Datetime.year (as_date self).

Definition jan1 (self : t) : result t :=
  d ← new_date (Datetime.year (as_date self)) 1 1; mret (Make d).

Definition jan1_next_year (self : t) : result t :=
  d ← new_date (Datetime.year (as_date self) + 1) 1 1; mret (Make d).

End TDate.

(** ** class [Internals] *)

Module Internals.

Import Datetime.

(** Given a calendar date, return the corresponding (year, week number).
    [verbose] only selects diagnostic printing, which is not modelled.
    [int(delta / 7)] is a float division followed by truncation toward
    zero: [Z.quot]. *)
Definition date_to_week_tuple (any_date : date) (verbose : bool) : result (Z * Z) :=
  let any_date := TDate.Make any_date in
  let this_year := TDate.year any_date in
  let next_year := this_year + 1 in
  jan1 ← TDate.jan1 any_date;
  jan1_next ← TDate.jan1_next_year any_date;
  (* SCENARIO 1: January 1st *)
  if (TDate.day_of_month any_date =? 1) && (TDate.month_of_year any_date =? 1)
  then mret (TDate.year any_date, 1)
  (* SCENARIO 2A: Week 1, after January 1st *)
  else if (TDate.day_of_week_int any_date false >? TDate.day_of_week_int jan1 false)
          && in_range (TDate.sub any_date jan1) 1 7
  then mret (TDate.year any_date, 1)
  (* SCENARIO 2B: Week 1, before NEXT YEAR'S January 1st *)
  else if (TDate.day_of_week_int any_date false <? TDate.day_of_week_int jan1_next false)
          && in_range (TDate.sub jan1_next any_date) 1 7
  then mret (TDate.year any_date + 1, 1)
  (* SCENARIO 3: Find the first Sunday, then modulus 7. *)
  else
    d ← Dateutil.add_relativedelta_weekday (TDate.as_date jan1) Dateutil.SU;
    let first_sundays_date := TDate.Make d in
    let first_sundays_day_of_year := TDate.day_of_year first_sundays_date in
    let first_full_week := if first_sundays_day_of_year =? 1 then 1 else 2 in
    let delta := TDate.day_of_year any_date - first_sundays_day_of_year in
    let week_number := Z.quot delta 7 + first_full_week in
    mret (TDate.year jan1, week_number).

End Internals.

(** [date_range(start_date, end_date)]: the generator of an inclusive range
    of dates.  Each element is computed when the consumer asks for it, and
    computing it may raise. *)
Definition date_range (start_date end_date : Datetime.date) : list (result Datetime.date) :=
  (fun number_of_days => Datetime.add_days start_date number_of_days)
    <$> seqZ 0 (Datetime.sub_days end_date start_date + 1).

(** [list(generator)]: run the generator to its end, or to the first
    exception. *)
Fixpoint collect {A : Type} (g : list (result A)) : result (list A) :=
  match g with
  | [] => mret []
  | r :: g' => x ← r; l ← collect g'; mret (x :: l)
  end.

(** ** The records the Builder writes *)

Record week_dict : Type := mk_week_dict {
  wk_year : Z;
  wk_week_number : Z;
  wk_week_start : Datetime.date;
  wk_week_end : Datetime.date;
  wk_week_dates : list Datetime.date }.

Record year_dict : Type := mk_year_dict {
  yr_year : Z;
  yr_date_start : string;
  yr_date_end : string;
  yr_days_in_year : Z;
  yr_jan_one_dayname : string;
  yr_jan_one_weekpos : Z;
  yr_max_week_number : Z }.

Record day_dict : Type := mk_day_dict {
  dy_date : Datetime.date;
  dy_date_as_string : string;
  dy_weekday_name : string;
  dy_weekday_name_short : string;
  dy_day_of_month : string;
  dy_month_in_year_int : string;
  dy_month_in_year_str : string;
  dy_year : Z;
  dy_day_of_year : string;
  dy_week_year : Z;
  dy_week_number : Z;
  dy_index_in_week : Z }.

(** ** The world the module runs in

    The settings of the 'Temporal Manager' document, the cache, and a count
    of the calls of [Builder.build_all] (kept only to state how often a
    reader rebuilds). *)

Record temporal_manager : Type := mk_temporal_manager {
  tm_debug_mode : bool;
  tm_start_year : option Z;
  tm_end_year : option Z }.

Record cache : Type := mk_cache {
  days : gmap string day_dict;
  weeks : gmap (Z * Z) week_dict;
  years : gmap Z year_dict;
  all_years : option (list Z) }.

Record world : Type := mk_world {
  db : temporal_manager;
  redis : cache;
  build_all_calls : nat }.

(** Computations that read and write the world and may raise.  What was
    written before an exception stays written. *)
Definition io (A : Type) : Type := world -> result A * world.

Global Instance io_ret : MRet io := fun A a w => (Ok a, w).

Global Instance io_bind : MBind io := fun A B k m w =>
  match m w with
  | (Ok a, w') => k a w'
  | (Raise e, w') => (Raise e, w')
  end.

Definition raise {A : Type} (e : exn) : io A := fun w => (Raise e, w).

Definition lift {A : Type} (r : result A) : io A := fun w => (r, w).

(** [for x in l: body(x)] *)
Fixpoint for_each {A : Type} (l : list A) (body : A -> io unit) : io unit :=
  match l with
  | [] => mret tt
  | x :: l' => body x;; for_each l' body
  end.

(** [frappe.db.get_single_value('Temporal Manager', field)] *)
Module Frappe.

Definition get_debug_mode : io bool := fun w => (Ok (tm_debug_mode (db w)), w).
Definition get_start_year : io (option Z) := fun w => (Ok (tm_start_year (db w)), w).
Definition get_end_year : io (option Z) := fun w => (Ok (tm_end_year (db w)), w).

End Frappe.

(** [date_to_datekey(any_date)] *)
Definition date_to_datekey (any_date : Datetime.date) : string :=
  "temporal/day/" +:+ Strftime.fmt_Y_m_d any_date.

(** ** The cache ([temporal.redis]) *)

Module Redis.

Definition update (f : cache -> cache) : io unit :=
  fun w => (Ok tt, mk_world (db w) (f (redis w)) (build_all_calls w)).

(** Modelled from the spec: [temporal.redis.write_single_day] (the module
    [temporal/redis.py] is not part of the sources).  Section 4.2: a Day
    record is stored whole under the key of its calendar date in ISO format,
    the key [date_to_datekey] builds for the readers. *)
Definition write_single_day (d : day_dict) : io unit :=
  update (fun c =>
    mk_cache (<[ ("temporal/day/" +:+ dy_date_as_string d)%string := d ]> (days c))
             (weeks c) (years c) (all_years c)).

(** Modelled from the spec: [temporal.redis.read_single_day], a read of the
    Day record under a day key, or [None]. *)
Definition read_single_day (key : string) : io (option day_dict) :=
  fun w => (Ok (days (redis w) !! key), w).

(** Modelled from the spec: [temporal.redis.write_single_week].  Section
    4.2: a Week record is stored whole under the key of its
    (week_year, week_number). *)
Definition write_single_week (wd : week_dict) : io unit :=
  update (fun c =>
    mk_cache (days c) (<[ (wk_year wd, wk_week_number wd) := wd ]> (weeks c))
             (years c) (all_years c)).

(** Modelled from the spec: [temporal.redis.read_single_week]. *)
Definition read_single_week (year week_number : Z) : io (option week_dict) :=
  fun w => (Ok (weeks (redis w) !! (year, week_number)), w).

(** Modelled from the spec: [temporal.redis.write_single_year].  Section
    4.2: a Year record is stored whole under the key of its calendar year.
    The debug flag only selects printing. *)
Definition write_single_year (yd : year_dict) (debug_mode : bool) : io unit :=
  update (fun c =>
    mk_cache (days c) (weeks c) (<[ yr_year yd := yd ]> (years c)) (all_years c)).

(** Modelled from the spec: [temporal.redis.read_single_year]. *)
Definition read_single_year (year : Z) : io (option year_dict) :=
  fun w => (Ok (years (redis w) !! year), w).

(** Modelled from the spec: [temporal.redis.write_years], the list of the
    calendar years behind [GetAllYears]. *)
Definition write_years (ys : list Z) (debug_mode : bool) : io unit :=
  update (fun c => mk_cache (days c) (weeks c) (years c) (Some ys)).

(** Modelled from the spec: [temporal.redis.read_years]. *)
Definition read_years : io (option (list Z)) :=
  fun w => (Ok (all_years (redis w)), w).

End Redis.

(** ** class [Builder] *)

Module Builder.

Import Datetime.

Record t : Type := Make {
  debug_mode : bool;
  epoch_year : Z;
  end_year : Z;
  years : list Z;
  weekday_names : list weekday_entry;
  week_dicts : list week_dict }.

(** [x or d] for integers. *)
Definition int_or (x d : Z) : Z := if x =? 0 then d else x.

(** [not x] for an optional integer argument: [None] and [0] are falsy. *)
Definition falsy (x : option Z) : bool :=
  match x with
  | None => true
  | Some v => v =? 0
  end.

(** [Builder(epoch_year, end_year, start_of_week)] *)
Definition init (epoch_year end_year : option Z) (start_of_week : string) : io t :=
  debug_mode ← Frappe.get_debug_mode;
  if negb (String.eqb start_of_week "SUN" || String.eqb start_of_week "MON")
  then raise ValueError
  else if negb (String.eqb start_of_week "SUN") then raise Exception
  else
    epoch_year ← (if falsy epoch_year
                  then v ← Frappe.get_start_year;
                       let gui_start_year := default 0 v in
                       mret (int_or gui_start_year EPOCH_START_YEAR)
                  else mret (default 0 epoch_year));
    end_year ← (if falsy end_year
                then v ← Frappe.get_end_year;
                     let gui_end_year := default 0 v in
                     mret (int_or gui_end_year EPOCH_END_YEAR)
                else mret (default 0 end_year));
    if end_year <? epoch_year then raise ValueError
    else
      let year_range := seqZ epoch_year (end_year + 1 - epoch_year) in
      mret (Make debug_mode epoch_year end_year year_range
                 (if String.eqb start_of_week "SUN" then WEEKDAYS_SUN0 else WEEKDAYS_MON0)
                 []).

(** [tuple.index(x)] *)
Fixpoint index (x : string) (l : list string) : option Z :=
  match l with
  | [] => None
  | y :: l' => if String.eqb y x then Some 0 else Z.succ <$> index x l'
  end.

(** [max(generator)]; the maximum of nothing is a [ValueError]. *)
Definition max_of (l : list Z) : result Z :=
  match l with
  | [] => Raise ValueError
  | x :: l' => Ok (foldl Z.max x l')
  end.

(** Create a dictionary of Year metadata and write to Redis. *)
Definition build_year (self : t) (year : Z) : io unit :=
  date_start ← lift (new_date year 1 1);
  date_end ← lift (new_date year 12 31);
  let days_in_year := sub_days date_end date_start + 1 in
  let jan_one_dayname := Str.upper (Strftime.fmt_a date_start) in
  let weekday_short_names := name_short <$> weekday_names self in
  jan_one_weekpos ← match index jan_one_dayname weekday_short_names with
                    | Some i => mret (i + 1)
                    | None => raise ValueError
                    end;
  max_week_number ←
    lift (max_of (wk_week_number <$>
                  filter (fun week => wk_year week = year) (week_dicts self)));
  Redis.write_single_year
    (mk_year_dict year (Strftime.fmt_m_d_Y date_start) (Strftime.fmt_m_d_Y date_end)
                  days_in_year jan_one_dayname jan_one_weekpos max_week_number)
    (debug_mode self).

(** Calculate years and write to Redis. *)
Definition build_years (self : t) : io unit :=
  Redis.write_years (years self) (debug_mode self);;
  for_each (years self) (build_year self).

Definition build_days (self : t) : io unit :=
  start_date ← lift (new_date (epoch_year self) 1 1);
  end_date ← lift (new_date (end_year self) 12 31);
  for_each (date_range start_date end_date) (fun next =>
    date_foo ← lift next;
    week_tuple ← lift (Internals.date_to_week_tuple date_foo false);
    Redis.write_single_day
      (mk_day_dict date_foo
                   (Strftime.fmt_Y_m_d date_foo)
                   (Strftime.fmt_A date_foo)
                   (Strftime.fmt_a date_foo)
                   (Strftime.fmt_d date_foo)
                   (Strftime.fmt_m date_foo)
                   (Strftime.fmt_B date_foo)
                   (Datetime.year date_foo)
                   (Strftime.fmt_j date_foo)
                   week_tuple.1
                   week_tuple.2
                   (strftime_w date_foo + 1))).

(** The [while True] loop of [build_weeks].  Every turn that does not leave
    the loop moves [week_start_date] seven days on, and a [date] cannot pass
    [MAXORDINAL]: [fuel] bounds the number of turns. *)
Fixpoint build_weeks_loop (fuel : nat) (self : t) (week_start_date : date)
    (week_number : option Z) : io t :=
  match fuel with
  | O => raise OutOfFuel
  | S fuel' =>
    (* Stop once week_start_date's year exceeds the Maximum Year. *)
    if Datetime.year week_start_date >? end_year self then mret self
    else
      week_end_date ← lift (add_days week_start_date 6);
      week_number ←
        (if (day week_start_date =? 1) && (month week_start_date =? 1)
         then mret 1 (* Sunday is January 1st, it's a new year. *)
         else if Datetime.year week_end_date >? Datetime.year week_start_date
         then mret 1 (* January 1st falls somewhere inside the week *)
         else match week_number with
              | Some n => mret (n + 1)
              | None => raise TypeError
              end);
      tuple_of_dates ← lift (collect (date_range week_start_date week_end_date));
      let week_dict :=
        mk_week_dict (Datetime.year week_end_date) week_number
                     week_start_date week_end_date tuple_of_dates in
      Redis.write_single_week week_dict;;
      let self := Make (debug_mode self) (epoch_year self) (end_year self)
                       (years self) (weekday_names self)
                       (week_dicts self ++ [week_dict]) in
      (* Increment to the Next Week *)
      week_start_date ← lift (add_days week_start_date 7);
      build_weeks_loop fuel' self week_start_date (Some week_number)
  end.

Definition turns_bound (week_start_date : date) : nat :=
  Z.to_nat ((MAXORDINAL - toordinal week_start_date) / 7 + 1).

(** Build all the weeks between Epoch Date and End Date *)
Definition build_weeks (self : t) : io t :=
  (* Begin on January 1st *)
  jan1_date ← lift (new_date (epoch_year self) 1 1);
  let jan1_day_of_week := strftime_w jan1_date in
  (* if January 1st is not Sunday, back up. *)
  week_start_date ← lift (add_days jan1_date (- jan1_day_of_week));
  build_weeks_loop (turns_bound week_start_date) self week_start_date None.

Definition count_build_all : io unit :=
  fun w => (Ok tt, mk_world (db w) (redis w) (S (build_all_calls w))).

(** Rebuild all Temporal cache key-values. *)
Definition build_all (epoch_year end_year : option Z) (start_of_week : string) : io unit :=
  count_build_all;;
  instance ← init epoch_year end_year start_of_week;
  (* must happen first, so we can build years more-easily. *)
  instance ← build_weeks instance;
  build_years instance;;
  build_days instance.

End Builder.

(** ** class [Week] *)

Module Week.

Record t : Type := Make {
  week_year : Z;
  week_number : Z;
  week_number_str : string;
  days : list Datetime.date;
  date_start : Datetime.date;
  date_end : Datetime.date }.

(** [Week(week_year, week_number, set_of_days, date_start, date_end)] *)
Definition init (week_year week_number : Z) (set_of_days : list Datetime.date)
    (date_start date_end : Datetime.date) : t :=
  Make week_year week_number (Str.zfill 2 (Str.str week_number))
       set_of_days date_start date_end.

End Week.

(** ** Public functions *)

(** [not x] for a value that is a record or [None]. *)
Definition py_not {A : Type} (x : option A) : bool :=
  match x with
  | None => true
  | Some _ => false
  end.

(** Returns a class Week. *)
Definition get_week_by_weeknum (year week_number : Z) : io (option Week.t) :=
  week_dict ← Redis.read_single_week year week_number;
  match week_dict with
  | None =>
    Builder.build_all None None "SUN";;
    debug_mode ← Frappe.get_debug_mode;
    if py_not week_dict && debug_mode
    then raise KeyError
    else mret None
  | Some week_dict =>
    mret (Some (Week.init (wk_year week_dict)
                          (wk_week_number week_dict)
                          (wk_week_dates week_dict)
                          (wk_week_start week_dict)
                          (wk_week_end week_dict)))
  end.

(** This function returns a date dictionary from Redis. *)
Definition get_date_metadata (any_date : Datetime.date) : io (option day_dict) :=
  Redis.read_single_day (date_to_datekey any_date).

(** Given a datetime date, returns a class instance 'Week' *)
Definition get_week_by_anydate (any_date : Datetime.date) : io Week.t :=
  date_dict ← get_date_metadata any_date; (* fetch from Redis *)
  date_dict ← match date_dict with
              | Some date_dict => mret date_dict
              | None => (* try to rebuild without throwing an error *)
                Builder.build_all None None "SUN";;
                date_dict ← get_date_metadata any_date; (* 2nd Attempt *)
                match date_dict with
                | Some date_dict => mret date_dict
                | None => raise KeyError
                end
              end;
  result_week ← get_week_by_weeknum (dy_week_year date_dict) (dy_week_number date_dict);
  match result_week with
  | None => raise Exception
  | Some result_week => mret result_week
  end.

(** Given a range of Week numbers, return a List of dictionaries.  The
    arguments are the integers [int(year)], [int(from_week_num)] and
    [int(to_week_num)]. *)
Definition get_weeks_as_dict (year from_week_num to_week_num : Z) : io (list week_dict) :=
  if negb (in_range year MIN_YEAR MAX_YEAR) then raise Exception
  else if negb (in_range from_week_num 1 54) then raise Exception
  else if negb (in_range to_week_num 1 54) then raise Exception
  else
    foldl (fun acc week_num =>
             weeks_list ← acc;
             week_dict ← Redis.read_single_week year week_num;
             match week_dict with
             | Some week_dict => mret (weeks_list ++ [week_dict])
             | None => mret weeks_list
             end)
          (mret []) (seqZ from_week_num (to_week_num + 1 - from_week_num)).

(** ** Generators

    A generator that runs in the world: what it yields, in order, then how it
    ends. *)
Definition gen (Y A : Type) : Type := world -> list Y * (result A * world).

Global Instance gen_ret {Y} : MRet (gen Y) := fun A a w => ([], (Ok a, w)).

Global Instance gen_bind {Y} : MBind (gen Y) := fun A B k m w =>
  match m w with
  | (ys, (Ok a, w')) => let '(ys', r) := k a w' in (ys ++ ys', r)
  | (ys, (Raise e, w')) => (ys, (Raise e, w'))
  end.

Definition yield {Y : Type} (y : Y) : gen Y unit := fun w => ([y], (Ok tt, w)).

Definition run {Y A : Type} (m : io A) : gen Y A := fun w => ([], m w).

Fixpoint gen_for_each {Y A : Type} (l : list A) (body : A -> gen Y unit) : gen Y unit :=
  match l with
  | [] => mret tt
  | x :: l' => body x;; gen_for_each l' body
  end.

(** Return a Python Generator for all the weeks in a date range. *)
Definition week_generator (from_date to_date : Datetime.date) : gen (option Week.t) unit :=
  (if Datetime.date_ltb to_date from_date then run (raise ValueError) else mret tt);;
  (* If dates are the same, simply return the 1 week. *)
  (if Datetime.date_eqb from_date to_date
   then w ← run (get_week_by_anydate from_date); yield (Some w)
   else mret tt);;
  from_week ← run (get_week_by_anydate from_date);
  to_week ← run (get_week_by_anydate to_date);
  (* Determine which Week Numbers are missing. *)
  gen_for_each
    (seqZ (Week.week_year from_week)
          (Week.week_year to_week + 1 - Week.week_year from_week))
    (fun year =>
       year_dict ← run (Redis.read_single_year year);
       let start_index :=
         if year =? Week.week_year from_week then Week.week_number from_week else 1 in
       end_index ←
         (if year =? Week.week_year to_week then mret (Week.week_number to_week)
          else match year_dict with
               | Some yd => mret (yr_max_week_number yd)
               | None => run (raise TypeError)
               end);
       gen_for_each (seqZ start_index (end_index + 1 - start_index))
         (fun week_num =>
            w ← run (get_week_by_weeknum year week_num);
            yield w)).

(** ** Definitions used in the statements *)

(** The ordinal of January 1st of a year. *)
Definition jan1_ordinal (y : Z) : Z := Datetime.days_before_year y + 1.

(** The ordinal of the Sunday on or before the day of ordinal [n]
    (ordinal 7, 0001-01-07, is a Sunday). *)
Definition sunday_on_or_before (n : Z) : Z := n - n mod 7.

(** The week of a day of ordinal [n] in calendar year [y], counted in whole
    Sunday-to-Saturday weeks from the week that holds January 1st. *)
Definition week_tuple_of_ordinal (y n : Z) : Z * Z :=
  if sunday_on_or_before (jan1_ordinal (y + 1)) <=? n then (y + 1, 1)
  else (y, (sunday_on_or_before n - sunday_on_or_before (jan1_ordinal y)) / 7 + 1).

(** The calendar year of the day of ordinal [n]. *)
Definition year_of (n : Z) : Z := Datetime.year (Datetime.fromordinal n).

(** The number of the week that starts on the Sunday of ordinal [s]: its
    position among the weeks of the year its Saturday lies in. *)
Definition week_number_of_sunday (s : Z) : Z :=
  (s - sunday_on_or_before (jan1_ordinal (year_of (s + 6)))) / 7 + 1.

(** The Week record of the week that starts on the Sunday of ordinal [s]. *)
Definition week_of_sunday (s : Z) : week_dict :=
  mk_week_dict (year_of (s + 6)) (week_number_of_sunday s)
               (Datetime.fromordinal s) (Datetime.fromordinal (s + 6))
               (Datetime.fromordinal <$> seqZ s 7).

(** The Week records of [k] consecutive weeks, the first starting on the
    Sunday of ordinal [s]. *)
Definition weeks_from (s : Z) (k : nat) : list week_dict :=
  (fun i => week_of_sunday (s + 7 * Z.of_nat i)) <$> seq 0%nat k.

(** The week starting on the Sunday of ordinal [s] holds a January 1st. *)
Definition new_year_week (s : Z) : Prop :=
  s = jan1_ordinal (year_of s) \/ year_of s < year_of (s + 6).

(** What [build_weeks] knows of the previous week when it reaches the week
    starting on the Sunday of ordinal [s]. *)
Definition week_number_state (s : Z) (week_number : option Z) : Prop :=
  new_year_week s \/ week_number = Some (week_number_of_sunday (s - 7)).

(** The cache after the Week records [l] were written, in order. *)
Definition write_weeks (l : list week_dict) (w : world) : world :=
  mk_world (db w)
           (mk_cache (days (redis w))
                     (foldl (fun m wk => <[ (wk_year wk, wk_week_number wk) := wk ]> m)
                            (weeks (redis w)) l)
                     (years (redis w)) (all_years (redis w)))
           (build_all_calls w).

(** The Builder after the Week records [l] were appended to [week_dicts]. *)
Definition append_weeks (self : Builder.t) (l : list week_dict) : Builder.t :=
  Builder.Make (Builder.debug_mode self) (Builder.epoch_year self) (Builder.end_year self)
               (Builder.years self) (Builder.weekday_names self)
               (Builder.week_dicts self ++ l).

(** A date lies in the span the built weeks cover: from the start of the
    first built week through the end of the last one. *)
Definition covered_by (l : list week_dict) (d : Datetime.date) : Prop :=
  exists first_week last_week,
    head l = Some first_week /\ last l = Some last_week
    /\ Datetime.date_leb (wk_week_start first_week) d = true
    /\ Datetime.date_leb d (wk_week_end last_week) = true.

(** The cache that holds the records of [a] and, under the keys [a] does not
    hold, the records of [b]. *)
Definition cache_union (a b : cache) : cache :=
  mk_cache (days a ∪ days b) (weeks a ∪ weeks b) (years a ∪ years b)
           (all_years a ∪ all_years b).

Definition empty_cache : cache := mk_cache ∅ ∅ ∅ None.

(** A computation that never reads the cache: what it returns, the records
    it writes and the number of builds it starts depend on the settings
    only. *)
Definition cache_writer {A : Type} (m : io A) : Prop :=
  forall settings : temporal_manager,
  exists (r : result A) (c : cache) (n : nat),
  forall w, db w = settings ->
    m w = (r, mk_world settings (cache_union c (redis w)) (n + build_all_calls w)).

(** The weekday position of a date in the week, Sunday = 1 .. Saturday = 7:
    [TDate(d).day_of_week_int()]. *)
Definition weekday_position (d : Datetime.date) : Z :=
  TDate.day_of_week_int (TDate.Make d) false.

(** The three boundary cases of the week-number rule, in the words of the
    specification. *)
Definition is_january_first (d : Datetime.date) : Prop :=
  Datetime.day d = 1 /\ Datetime.month d = 1.

Definition early_january_case (d : Datetime.date) : Prop :=
  let jan1 := Datetime.mkdate (Datetime.year d) 1 1 in
  weekday_position d > weekday_position jan1
  /\ 1 <= Datetime.sub_days d jan1 <= 6.

Definition late_december_case (d : Datetime.date) : Prop :=
  let jan1_next := Datetime.mkdate (Datetime.year d + 1) 1 1 in
  weekday_position d < weekday_position jan1_next
  /\ 1 <= Datetime.sub_days jan1_next d <= 6.

(** The first Sunday of a calendar year. *)
Definition first_sunday_of_year (y : Z) (s : Datetime.date) : Prop :=
  Datetime.valid_date s /\ Datetime.year s = y /\ Datetime.weekday s = 6
  /\ forall d, Datetime.valid_date d -> Datetime.year d = y ->
               Datetime.weekday d = 6 -> Datetime.yday s <= Datetime.yday d.

(** A computation keeps the relation [R] between the world it starts in and
    the world it ends in. *)
Definition keeps {A : Type} (R : world -> world -> Prop) (m : io A) : Prop :=
  forall w, R w (m w).2.

(** What the three build phases leave alone. *)
Definition same_settings (w w' : world) : Prop :=
  db w' = db w /\ build_all_calls w' = build_all_calls w.

Definition only_weeks (w w' : world) : Prop :=
  same_settings w w' /\ days (redis w') = days (redis w)
  /\ years (redis w') = years (redis w) /\ all_years (redis w') = all_years (redis w).

Definition only_years (w w' : world) : Prop :=
  same_settings w w' /\ days (redis w') = days (redis w)
  /\ weeks (redis w') = weeks (redis w).

Definition only_days (w w' : world) : Prop :=
  same_settings w w' /\ weeks (redis w') = weeks (redis w)
  /\ years (redis w') = years (redis w) /\ all_years (redis w') = all_years (redis w).

(** Every Week record of the cache is stored under its own
    (year, week_number): what [write_single_week] maintains. *)
Definition well_keyed (c : cache) : Prop :=
  forall y n wd, weeks c !! (y, n) = Some wd -> wk_year wd = y /\ wk_week_number wd = n.

(** Two-digit fields of a day key, and the check, run over every month and
    day number, that they have two characters and tell the numbers apart. *)
Definition two_digits (n : Z) : string := Str.zfill 2 (Str.str n).

Definition two_digits_ok (n : Z) : bool :=
  (String.length (two_digits n) =? 2)%nat
  && forallb (fun i => implb (String.eqb (two_digits n) (two_digits (Z.of_nat i)))
                             (n =? Z.of_nat i))
             (seq 0%nat 32%nat).

(** The Day record [build_days] writes for a date, given its week tuple. *)
Definition day_dict_of (d : Datetime.date) (week_tuple : Z * Z) : day_dict :=
  mk_day_dict d
              (Strftime.fmt_Y_m_d d)
              (Strftime.fmt_A d)
              (Strftime.fmt_a d)
              (Strftime.fmt_d d)
              (Strftime.fmt_m d)
              (Strftime.fmt_B d)
              (Datetime.year d)
              (Strftime.fmt_j d)
              week_tuple.1
              week_tuple.2
              (Datetime.strftime_w d + 1).

(** The body of the loop of [build_days]. *)
Definition build_day (next : result Datetime.date) : io unit :=
  date_foo ← lift next;
  week_tuple ← lift (Internals.date_to_week_tuple date_foo false);
  Redis.write_single_day (day_dict_of date_foo week_tuple).

(** The cache resolves a date to a Day record that carries the date's week
    tuple. *)
Definition day_resolved (d : Datetime.date) (w : world) : Prop :=
  exists dd,
    days (redis w) !! date_to_datekey d = Some dd
    /\ dy_date dd = d
    /\ Internals.date_to_week_tuple d false = Ok (dy_week_year dd, dy_week_number dd).

(** A write keeps the Week records under their own keys. *)
Definition keeps_keying (w w' : world) : Prop :=
  well_keyed (redis w) -> well_keyed (redis w').

(** ** Concrete worlds, for the examples *)

(** An empty cache, debug_mode off, and an epoch of the single year [y]. *)
Definition one_year_world (y : Z) : world :=
  mk_world (mk_temporal_manager false (Some y) (Some y)) empty_cache 0.

(** The Builder of that epoch, as [Builder(y, y)] makes it. *)
Definition one_year_builder (y : Z) : Builder.t :=
  Builder.Make false y y [y] WEEKDAYS_SUN0 [].

(** The Builder [build_weeks] returns, when it returns. *)
Definition builder_after (run : result Builder.t * world) (otherwise : Builder.t) : Builder.t :=
  match run.1 with
  | Ok self => self
  | Raise _ => otherwise
  end.

(** The number of weeks of year [y]: the Sunday weeks from the one that
    holds January 1st to the last one whose Saturday is still in [y]. *)
Definition week_count_of_year (y : Z) : Z :=
  (Datetime.days_before_year (y + 1) - 6 - sunday_on_or_before (jan1_ordinal y)) / 7 + 1.

(** The week numbers of the records of year [y], as [build_year] collects
    them. *)
Definition week_numbers_of_year (y : Z) (l : list week_dict) : list Z :=
  wk_week_number <$> filter (fun wk => wk_year wk = y) l.

Definition is_ok {A : Type} (r : result A) : bool :=
  match r with
  | Ok _ => true
  | Raise _ => false
  end.

(** * Proofs *)

Import Datetime.

Lemma days_before_year_succ y :
  days_before_year (y + 1) = days_before_year y + 365 + (if is_leap y then 1 else 0).
Proof.
  unfold days_before_year, is_leap.
  replace (y + 1 - 1) with y by lia.
  destruct (y mod 4 =? 0) eqn:E4; destruct (y mod 100 =? 0) eqn:E100;
    destruct (y mod 400 =? 0) eqn:E400; simpl;
    rewrite ?Z.eqb_eq, ?Z.eqb_neq in *;
    Z.to_euclidean_division_equations; lia.
Qed.

Lemma days_before_year_decomp q n100 n4 n1 :
  0 <= n100 <= 3 -> 0 <= n4 <= 24 -> 0 <= n1 <= 3 ->
  days_before_year (400 * q + 100 * n100 + 4 * n4 + n1 + 1)
  = 146097 * q + 36524 * n100 + 1461 * n4 + 365 * n1.
Proof.
  intros. unfold days_before_year.
  Z.to_euclidean_division_equations; lia.
Qed.

Lemma is_leap_decomp q n100 n4 n1 :
  0 <= n100 <= 3 -> 0 <= n4 <= 24 -> 0 <= n1 <= 3 ->
  is_leap (400 * q + 100 * n100 + 4 * n4 + n1 + 1)
  = (n1 =? 3) && (negb (n4 =? 24) || (n100 =? 3)).
Proof.
  intros. unfold is_leap.
  destruct (n1 =? 3) eqn:E1; destruct (n4 =? 24) eqn:E4; destruct (n100 =? 3) eqn:E100;
  simpl; rewrite ?Z.eqb_eq, ?Z.eqb_neq in *;
  repeat match goal with
  | |- context [?a =? ?b] => destruct (Z.eqb_spec a b)
  end; simpl; try reflexivity; exfalso;
  Z.to_euclidean_division_equations; lia.
Qed.

Lemma Z_range_forallb (P : Z -> bool) (k : nat) :
  forallb (fun i => P (Z.of_nat i)) (seq 0%nat k) = true ->
  forall n, 0 <= n < Z.of_nat k -> P n = true.
Proof.
  intros H n Hn. rewrite forallb_forall in H.
  specialize (H (Z.to_nat n)). rewrite Z2Nat.id in H by lia.
  apply H, in_seq. lia.
Qed.

Lemma month_day_ok_all (leap : bool) n :
  0 <= n < 365 + (if leap then 1 else 0) -> month_day_ok leap n = true.
Proof.
  intros Hn. destruct leap.
  - apply (Z_range_forallb (month_day_ok true) 366%nat); [vm_compute; reflexivity | lia].
  - apply (Z_range_forallb (month_day_ok false) 365%nat); [vm_compute; reflexivity | lia].
Qed.

Lemma month_day_of_spec (leap : bool) n m d :
  0 <= n < 365 + (if leap then 1 else 0) ->
  month_day_of leap n = (m, d) ->
  1 <= m <= 12 /\ 1 <= d
  /\ d <= DAYS_IN_MONTH m + (if (m =? 2) && leap then 1 else 0)
  /\ DAYS_BEFORE_MONTH m + (if (m >? 2) && leap then 1 else 0) + d = n + 1.
Proof.
  intros Hn Hmd. pose proof (month_day_ok_all leap n Hn) as Hok.
  unfold month_day_ok in Hok. rewrite Hmd in Hok.
  repeat (apply andb_prop in Hok; destruct Hok as [Hok ?]).
  lia.
Qed.

Lemma ord2ymd_unfold n :
  ord2ymd n =
  let n0 := n - 1 in
  let n400 := n0 / 146097 in
  let r := n0 mod 146097 in
  let n100 := r / 36524 in
  let r' := r mod 36524 in
  let n4 := r' / 1461 in
  let r'' := r' mod 1461 in
  let n1 := r'' / 365 in
  let r3 := r'' mod 365 in
  let year := n400 * 400 + 1 + n100 * 100 + n4 * 4 + n1 in
  if (n1 =? 4) || (n100 =? 4) then (year - 1, 12, 31)
  else
    let '(m, d) := month_day_of ((n1 =? 3) && (negb (n4 =? 24) || (n100 =? 3))) r3 in
    (year, m, d).
Proof.
  unfold ord2ymd, month_day_of, DI400Y, DI100Y, DI4Y. cbv zeta.
  destruct (_ || _); [reflexivity|].
  destruct (_ >? _); reflexivity.
Qed.

Lemma ord2ymd_spec n y m d :
  1 <= n -> ord2ymd n = (y, m, d) ->
  1 <= y /\ 1 <= m <= 12 /\ 1 <= d <= days_in_month y m /\ ymd2ord y m d = n.
Proof.
  intros Hn. rewrite ord2ymd_unfold. cbv zeta.
  set (n0 := n - 1).
  set (q := n0 / 146097). set (r := n0 mod 146097).
  set (n100 := r / 36524). set (r' := r mod 36524).
  set (n4 := r' / 1461). set (r'' := r' mod 1461).
  set (n1 := r'' / 365). set (r3 := r'' mod 365).
  assert (Hq : n0 = 146097 * q + r /\ 0 <= r < 146097 /\ 0 <= q).
  { subst q r. Z.to_euclidean_division_equations. lia. }
  assert (H100 : r = 36524 * n100 + r' /\ 0 <= r' < 36524 /\ 0 <= n100 <= 4).
  { subst n100 r'. Z.to_euclidean_division_equations. lia. }
  assert (H4 : r' = 1461 * n4 + r'' /\ 0 <= r'' < 1461 /\ 0 <= n4 <= 24).
  { subst n4 r''. Z.to_euclidean_division_equations. lia. }
  assert (H1 : r'' = 365 * n1 + r3 /\ 0 <= r3 < 365 /\ 0 <= n1 <= 4).
  { subst n1 r3. Z.to_euclidean_division_equations. lia. }
  clearbody q r n100 r' n4 r'' n1 r3.
  destruct ((n1 =? 4) || (n100 =? 4)) eqn:Eend.
  - intros [= <- <- <-].
    apply orb_true_iff in Eend. rewrite !Z.eqb_eq in Eend.
    unfold ymd2ord, days_in_month, days_before_month. simpl.
    destruct Eend as [E|E]; subst.
    + assert (n100 <= 3) by lia. assert (n4 <= 23) by lia.
      replace (q * 400 + 1 + n100 * 100 + n4 * 4 + 4 - 1)
        with (400 * q + 100 * n100 + 4 * n4 + 3 + 1) by lia.
      rewrite days_before_year_decomp, is_leap_decomp by lia.
      replace (n4 =? 24) with false by (symmetry; apply Z.eqb_neq; lia).
      simpl. lia.
    + assert (r' = 0) by lia. assert (n4 = 0) by lia. assert (n1 = 0) by lia. subst.
      replace (q * 400 + 1 + 4 * 100 + 0 * 4 + 0 - 1)
        with (400 * q + 100 * 3 + 4 * 24 + 3 + 1) by lia.
      rewrite days_before_year_decomp, is_leap_decomp by lia.
      simpl. lia.
  - apply orb_false_iff in Eend. rewrite !Z.eqb_neq in Eend.
    destruct (month_day_of _ r3) as [m' d'] eqn:Emd.
    intros [= <- <- <-].
    replace (q * 400 + 1 + n100 * 100 + n4 * 4 + n1)
      with (400 * q + 100 * n100 + 4 * n4 + n1 + 1) by lia.
    unfold ymd2ord, days_in_month, days_before_month.
    rewrite days_before_year_decomp, is_leap_decomp by lia.
    set (leap := (n1 =? 3) && (negb (n4 =? 24) || (n100 =? 3))) in *.
    assert (Hr3 : 0 <= r3 < 365 + (if leap then 1 else 0)).
    { destruct leap; lia. }
    destruct (month_day_of_spec leap r3 m' d' Hr3 Emd) as (Hm & Hd1 & Hd2 & Hsum).
    split; [lia|]. split; [lia|]. split.
    + destruct (Z.eqb_spec m' 2) as [->|]; simpl in *; [destruct leap|]; simpl in *; lia.
    + lia.
Qed.

Lemma days_before_year_mono a b : a <= b -> days_before_year a <= days_before_year b.
Proof.
  intros H. unfold days_before_year. Z.to_euclidean_division_equations. lia.
Qed.

Lemma days_before_year_lt a b : a < b -> days_before_year (a + 1) <= days_before_year b.
Proof. intros H. apply days_before_year_mono. lia. Qed.

Lemma year_length_pos y : days_before_year y < days_before_year (y + 1).
Proof. rewrite days_before_year_succ. destruct (is_leap y); lia. Qed.

Lemma year_of_ordinal_unique n y y' :
  days_before_year y < n <= days_before_year (y + 1) ->
  days_before_year y' < n <= days_before_year (y' + 1) ->
  y = y'.
Proof.
  intros H H'.
  destruct (Z.lt_trichotomy y y') as [Hlt|[Heq|Hgt]]; [|assumption|].
  - pose proof (days_before_year_lt _ _ Hlt). lia.
  - pose proof (days_before_year_lt _ _ Hgt). lia.
Qed.

Lemma month_cases m : 1 <= m <= 12 ->
  m = 1 \/ m = 2 \/ m = 3 \/ m = 4 \/ m = 5 \/ m = 6 \/
  m = 7 \/ m = 8 \/ m = 9 \/ m = 10 \/ m = 11 \/ m = 12.
Proof. lia. Qed.

Ltac month_split H :=
  apply month_cases in H;
  repeat (destruct H as [H|H]); subst.

Lemma month_day_bounds y m d :
  1 <= m <= 12 -> 1 <= d <= days_in_month y m ->
  1 <= days_before_month y m + d <= 365 + (if is_leap y then 1 else 0).
Proof.
  intros Hm Hd. unfold days_in_month, days_before_month in *.
  month_split Hm; destruct (is_leap y); simpl in *; lia.
Qed.

Lemma month_day_inj y m d m' d' :
  1 <= m <= 12 -> 1 <= d <= days_in_month y m ->
  1 <= m' <= 12 -> 1 <= d' <= days_in_month y m' ->
  days_before_month y m + d = days_before_month y m' + d' ->
  m = m' /\ d = d'.
Proof.
  intros Hm Hd Hm' Hd'. unfold days_in_month, days_before_month in *.
  month_split Hm; month_split Hm'; destruct (is_leap y); simpl in *; lia.
Qed.

Lemma day_one_iff y m d :
  1 <= m <= 12 -> 1 <= d <= days_in_month y m ->
  (d = 1 /\ m = 1) <-> days_before_month y m + d = 1.
Proof.
  intros Hm Hd. unfold days_in_month, days_before_month in *.
  month_split Hm; destruct (is_leap y); simpl in *; lia.
Qed.

Lemma ymd2ord_bounds y m d :
  1 <= m <= 12 -> 1 <= d <= days_in_month y m ->
  days_before_year y < ymd2ord y m d <= days_before_year (y + 1).
Proof.
  intros Hm Hd. pose proof (month_day_bounds y m d Hm Hd).
  unfold ymd2ord. rewrite days_before_year_succ. lia.
Qed.

Lemma ymd2ord_inj y m d y' m' d' :
  1 <= m <= 12 -> 1 <= d <= days_in_month y m ->
  1 <= m' <= 12 -> 1 <= d' <= days_in_month y' m' ->
  ymd2ord y m d = ymd2ord y' m' d' ->
  y = y' /\ m = m' /\ d = d'.
Proof.
  intros Hm Hd Hm' Hd' E.
  pose proof (ymd2ord_bounds y m d Hm Hd) as B.
  pose proof (ymd2ord_bounds y' m' d' Hm' Hd') as B'.
  rewrite E in B. pose proof (year_of_ordinal_unique _ _ _ B B') as ->.
  split; [reflexivity|].
  apply (month_day_inj y'); try assumption. unfold ymd2ord in E. lia.
Qed.

Lemma valid_date_iff d :
  valid_date d <->
  1 <= year d <= 9999 /\ 1 <= month d <= 12 /\ 1 <= day d <= days_in_month (year d) (month d).
Proof.
  unfold valid_date, check_date_fields, MINYEAR, MAXYEAR.
  rewrite !andb_true_iff, !Z.leb_le. lia.
Qed.

Lemma MAXORDINAL_eq : MAXORDINAL = days_before_year 10000.
Proof. reflexivity. Qed.

(** Every ordinal in range is the ordinal of the valid date [fromordinal]
    builds. *)
Lemma fromordinal_valid n :
  1 <= n <= MAXORDINAL ->
  valid_date (fromordinal n) /\ toordinal (fromordinal n) = n.
Proof.
  intros [Hlo Hhi]. unfold fromordinal, toordinal.
  destruct (ord2ymd n) as [[y m] d] eqn:E. simpl.
  destruct (ord2ymd_spec n y m d Hlo E) as (Hy & Hm & Hd & Hn).
  split; [|assumption].
  apply valid_date_iff. simpl. repeat split; try lia.
  pose proof (ymd2ord_bounds y m d Hm Hd) as B.
  destruct (Z_lt_le_dec y 10000) as [?|Hge]; [lia|].
  pose proof (days_before_year_mono _ _ Hge). rewrite MAXORDINAL_eq in Hhi. lia.
Qed.

Lemma toordinal_range d :
  valid_date d -> 1 <= toordinal d <= MAXORDINAL.
Proof.
  intros H. apply valid_date_iff in H. destruct H as (Hy & Hm & Hd).
  pose proof (ymd2ord_bounds _ _ _ Hm Hd) as B. fold (toordinal d) in B.
  assert (0 <= days_before_year (year d)).
  { change 0 with (days_before_year 1). apply days_before_year_mono. lia. }
  assert (days_before_year (year d + 1) <= days_before_year 10000).
  { apply days_before_year_mono. lia. }
  rewrite MAXORDINAL_eq. lia.
Qed.

Lemma fromordinal_toordinal d :
  valid_date d -> fromordinal (toordinal d) = d.
Proof.
  intros H. pose proof (toordinal_range d H) as R.
  destruct (fromordinal_valid _ R) as [V E].
  apply valid_date_iff in H, V.
  destruct (fromordinal (toordinal d)) as [y' m' d'], d as [y m dd]. simpl in *.
  unfold toordinal in E. simpl in E.
  destruct (ymd2ord_inj y' m' d' y m dd) as (-> & -> & ->); tauto.
Qed.

Lemma toordinal_inj a b :
  valid_date a -> valid_date b -> toordinal a = toordinal b -> a = b.
Proof.
  intros Ha Hb E. rewrite <- (fromordinal_toordinal a Ha), <- (fromordinal_toordinal b Hb).
  now rewrite E.
Qed.

Lemma new_date_ok y m d :
  check_date_fields y m d = true -> new_date y m d = Ok (mkdate y m d).
Proof. intros H. unfold new_date. now rewrite H. Qed.

Lemma jan1_fields_ok y : 1 <= y <= 9999 -> check_date_fields y 1 1 = true.
Proof.
  intros H. unfold check_date_fields, MINYEAR, MAXYEAR, days_in_month. simpl.
  rewrite !andb_true_iff, !Z.leb_le. lia.
Qed.

Lemma dec31_fields_ok y : 1 <= y <= 9999 -> check_date_fields y 12 31 = true.
Proof.
  intros H. unfold check_date_fields, MINYEAR, MAXYEAR, days_in_month. simpl.
  rewrite !andb_true_iff, !Z.leb_le. lia.
Qed.

Lemma toordinal_jan1 y : toordinal (mkdate y 1 1) = days_before_year y + 1.
Proof. unfold toordinal, ymd2ord, days_before_month. simpl. lia. Qed.

Lemma toordinal_dec31 y : toordinal (mkdate y 12 31) = days_before_year (y + 1).
Proof.
  unfold toordinal, ymd2ord, days_before_month. simpl.
  rewrite days_before_year_succ. destruct (is_leap y); simpl; lia.
Qed.

Lemma valid_year d : valid_date d -> 1 <= year d <= 9999.
Proof. intros H. apply valid_date_iff in H. lia. Qed.

Lemma toordinal_year_bounds d :
  valid_date d ->
  days_before_year (year d) < toordinal d <= days_before_year (year d + 1).
Proof.
  intros H. apply valid_date_iff in H. destruct H as (_ & Hm & Hd).
  apply ymd2ord_bounds; assumption.
Qed.

Lemma yday_toordinal d : yday d = toordinal d - days_before_year (year d).
Proof. unfold yday, toordinal, ymd2ord. lia. Qed.

Lemma jan1_iff d :
  valid_date d ->
  ((day d =? 1) && (month d =? 1) = true <-> toordinal d = days_before_year (year d) + 1).
Proof.
  intros H. apply valid_date_iff in H. destruct H as (_ & Hm & Hd).
  rewrite andb_true_iff, !Z.eqb_eq.
  rewrite (day_one_iff (year d) (month d) (day d) Hm Hd).
  unfold toordinal, ymd2ord. lia.
Qed.

(** The year of an ordinal is the year whose days contain it. *)
Lemma year_fromordinal n y :
  1 <= y <= 9999 ->
  days_before_year y < n <= days_before_year (y + 1) ->
  year (fromordinal n) = y.
Proof.
  intros Hy Hn.
  assert (R : 1 <= n <= MAXORDINAL).
  { rewrite MAXORDINAL_eq.
    assert (0 <= days_before_year y).
    { change 0 with (days_before_year 1). apply days_before_year_mono. lia. }
    assert (days_before_year (y + 1) <= days_before_year 10000).
    { apply days_before_year_mono. lia. }
    lia. }
  destruct (fromordinal_valid n R) as [V E].
  pose proof (toordinal_year_bounds _ V) as B. rewrite E in B.
  exact (year_of_ordinal_unique n _ _ B Hn).
Qed.

Lemma days_before_year_nonneg y : 1 <= y -> 0 <= days_before_year y.
Proof.
  intros H. change 0 with (days_before_year 1). apply days_before_year_mono. lia.
Qed.

Lemma days_before_year_max y : y <= 10000 -> days_before_year y <= MAXORDINAL.
Proof. intros H. rewrite MAXORDINAL_eq. apply days_before_year_mono. lia. Qed.

Lemma add_days_ok d k :
  valid_date d -> 1 <= toordinal d + k <= MAXORDINAL ->
  add_days d k = Ok (fromordinal (toordinal d + k)).
Proof.
  intros V H. unfold add_days.
  replace ((0 <? toordinal d + k) && (toordinal d + k <=? MAXORDINAL)) with true; [reflexivity|].
  symmetry. rewrite andb_true_iff, Z.ltb_lt, Z.leb_le. lia.
Qed.

Lemma add_days_0 d : valid_date d -> add_days d 0 = Ok d.
Proof.
  intros V. rewrite add_days_ok; [|assumption|pose proof (toordinal_range d V); lia].
  rewrite Z.add_0_r, fromordinal_toordinal; auto.
Qed.

Lemma add_days_inv d k d' :
  valid_date d -> add_days d k = Ok d' ->
  1 <= toordinal d + k <= MAXORDINAL /\ d' = fromordinal (toordinal d + k)
  /\ valid_date d' /\ toordinal d' = toordinal d + k.
Proof.
  intros V. unfold add_days.
  destruct ((0 <? toordinal d + k) && (toordinal d + k <=? MAXORDINAL)) eqn:E; [|discriminate].
  intros [= <-]. apply andb_true_iff in E. rewrite Z.ltb_lt, Z.leb_le in E.
  assert (R : 1 <= toordinal d + k <= MAXORDINAL) by lia.
  destruct (fromordinal_valid _ R). auto.
Qed.

(** Equations of the definitions used in the statements. *)
Lemma jan1_ordinal_eq y : jan1_ordinal y = days_before_year y + 1.
Proof. reflexivity. Qed.

Lemma sunday_on_or_before_eq n : sunday_on_or_before n = n - n mod 7.
Proof. reflexivity. Qed.

Lemma week_number_of_sunday_eq s :
  week_number_of_sunday s
  = (s - sunday_on_or_before (jan1_ordinal (year_of (s + 6)))) / 7 + 1.
Proof. reflexivity. Qed.

Lemma year_of_toordinal d : valid_date d -> year_of (toordinal d) = year d.
Proof. intros V. unfold year_of. now rewrite fromordinal_toordinal. Qed.

Lemma MAXYEAR_eq : MAXYEAR = 9999.
Proof. reflexivity. Qed.

Lemma first_sunday_ok y :
  1 <= y <= 9999 ->
  let j := jan1_ordinal y in
  let s := j + (- j) mod 7 in
  Dateutil.add_relativedelta_weekday (mkdate y 1 1) Dateutil.SU = Ok (fromordinal s)
  /\ valid_date (fromordinal s) /\ toordinal (fromordinal s) = s
  /\ year (fromordinal s) = y.
Proof.
  intros Hy j s.
  assert (V : valid_date (mkdate y 1 1)) by (apply jan1_fields_ok; simpl; lia).
  pose proof (toordinal_jan1 y) as Hj. fold (jan1_ordinal y) in Hj. fold j in Hj.
  pose proof (days_before_year_nonneg y ltac:(lia)).
  pose proof (days_before_year_max (y + 1) ltac:(lia)) as Hmax.
  pose proof (days_before_year_succ y) as Hs.
  assert (Hlen : j + 6 <= days_before_year (y + 1)).
  { unfold j, jan1_ordinal. destruct (is_leap y); lia. }
  assert (Hs7 : 0 <= (- j) mod 7 < 7) by (apply Z.mod_pos_bound; lia).
  assert (R : 1 <= s <= MAXORDINAL) by (unfold s, j, jan1_ordinal in *; lia).
  unfold Dateutil.add_relativedelta_weekday.
  rewrite add_days_0 by assumption. simpl.
  unfold weekday, Dateutil.SU. rewrite Hj.
  replace ((7 - (j + 6) mod 7 + 6) mod 7) with ((- j) mod 7)
    by (Z.to_euclidean_division_equations; lia).
  rewrite add_days_ok by (rewrite ?Hj; auto). rewrite Hj. fold s.
  destruct (fromordinal_valid s R) as [Vs Es].
  repeat split; auto.
  apply year_fromordinal; [lia|]. unfold s, j, jan1_ordinal in *. lia.
Qed.

Lemma date_to_week_tuple_unfold d v :
  valid_date d -> year d < MAXYEAR ->
  let y := year d in
  let n := toordinal d in
  let j := jan1_ordinal y in
  let j' := jan1_ordinal (y + 1) in
  let s := j + (- j) mod 7 in
  Internals.date_to_week_tuple d v =
    if (day d =? 1) && (month d =? 1) then Ok (y, 1)
    else if (n mod 7 + 1 >? j mod 7 + 1) && in_range (n - j) 1 7 then Ok (y, 1)
    else if (n mod 7 + 1 <? j' mod 7 + 1) && in_range (j' - n) 1 7 then Ok (y + 1, 1)
    else Ok (y, Z.quot (n - s) 7 + (if s - j + 1 =? 1 then 1 else 2)).
Proof.
  intros V Hy y n j j' s. pose proof (valid_year d V) as Hy1. unfold MAXYEAR in Hy.
  unfold Internals.date_to_week_tuple, TDate.jan1, TDate.jan1_next_year.
  cbn [TDate.as_date TDate.year TDate.day_of_month TDate.month_of_year].
  rewrite !new_date_ok by (apply jan1_fields_ok; lia).
  cbn [mbind result_bind mret result_ret].
  unfold TDate.day_of_week_int, TDate.sub, sub_days, TDate.day_of_year,
    TDate.day_of_month, TDate.month_of_year, TDate.year.
  cbn [TDate.as_date mret result_ret].
  rewrite !toordinal_jan1. fold (jan1_ordinal (year d)) (jan1_ordinal (year d + 1)).
  fold y n j j'.
  destruct ((day d =? 1) && (month d =? 1)); [reflexivity|].
  destruct (_ && _); [reflexivity|].
  destruct (_ && _); [reflexivity|].
  destruct (first_sunday_ok y ltac:(lia)) as (E & Vs & Es & Ys).
  fold j s in E, Vs, Es, Ys. rewrite E.
  cbn [mbind result_bind mret result_ret].
  rewrite !yday_toordinal, Es, Ys. fold n y. cbn [year].
  replace (s - days_before_year y) with (s - j + 1) by (unfold j, jan1_ordinal; lia).
  replace (n - days_before_year y - (s - j + 1)) with (n - s) by (unfold j, jan1_ordinal; lia).
  reflexivity.
Qed.

Lemma date_to_week_tuple_closed d v :
  valid_date d -> year d < MAXYEAR ->
  Internals.date_to_week_tuple d v = Ok (week_tuple_of_ordinal (year d) (toordinal d)).
Proof.
  intros V Hy. rewrite date_to_week_tuple_unfold by assumption. cbv zeta.
  pose proof (toordinal_year_bounds d V) as B.
  pose proof (days_before_year_succ (year d)) as Hs.
  pose proof (jan1_iff d V) as H1.
  unfold week_tuple_of_ordinal, sunday_on_or_before, jan1_ordinal in *.
  set (y := year d) in *. set (n := toordinal d) in *.
  set (j := days_before_year y) in *. set (j' := days_before_year (y + 1)) in *.
  assert (Hlen : j' = j + 365 \/ j' = j + 366) by (destruct (is_leap y); lia).
  clear Hs. clearbody j j' n y.
  destruct ((day d =? 1) && (month d =? 1)) eqn:E1.
  { assert (n = j + 1) by (apply H1; reflexivity). subst n.
    destruct (Z.leb_spec (j' + 1 - (j' + 1) mod 7) (j + 1)).
    - exfalso. Z.to_euclidean_division_equations; lia.
    - do 2 f_equal. Z.to_euclidean_division_equations; lia. }
  assert (Hn : n <> j + 1) by (intros E; apply H1 in E; congruence).
  clear H1 E1. unfold in_range.
  destruct (Z.gtb_spec (n mod 7 + 1) ((j + 1) mod 7 + 1));
  destruct (Z.leb_spec 1 (n - (j + 1))); destruct (Z.ltb_spec (n - (j + 1)) 7);
  destruct (Z.ltb_spec (n mod 7 + 1) ((j' + 1) mod 7 + 1));
  destruct (Z.leb_spec 1 (j' + 1 - n)); destruct (Z.ltb_spec (j' + 1 - n) 7);
  destruct (Z.leb_spec (j' + 1 - (j' + 1) mod 7) n);
  cbn [andb]; try (exfalso; Z.to_euclidean_division_equations; lia);
  try (do 2 f_equal; Z.to_euclidean_division_equations; lia).
  all: f_equal; f_equal;
    (rewrite Z.quot_div_nonneg by (Z.to_euclidean_division_equations; lia));
    destruct (Z.eqb_spec (j + 1 + (- (j + 1)) mod 7 - (j + 1) + 1) 1);
    Z.to_euclidean_division_equations; lia.
Qed.

Lemma year_of_spec n :
  1 <= n <= MAXORDINAL ->
  1 <= year_of n <= 9999
  /\ days_before_year (year_of n) < n <= days_before_year (year_of n + 1).
Proof.
  intros R. destruct (fromordinal_valid n R) as [V E]. unfold year_of.
  split; [apply valid_year; assumption|].
  pose proof (toordinal_year_bounds _ V) as B. now rewrite E in B.
Qed.

Lemma year_of_eq n y :
  1 <= y <= 9999 ->
  days_before_year y < n <= days_before_year (y + 1) ->
  year_of n = y.
Proof. apply year_fromordinal. Qed.

Lemma year_of_mono n m :
  1 <= n -> n <= m -> m <= MAXORDINAL -> year_of n <= year_of m.
Proof.
  intros H1 H2 H3.
  destruct (year_of_spec n ltac:(lia)) as [_ Bn].
  destruct (year_of_spec m ltac:(lia)) as [_ Bm].
  destruct (Z_le_gt_dec (year_of n) (year_of m)) as [?|Hgt]; [assumption|].
  pose proof (days_before_year_lt (year_of m) (year_of n) ltac:(lia)). lia.
Qed.

Lemma year_length y :
  days_before_year (y + 1) = days_before_year y + 365
  \/ days_before_year (y + 1) = days_before_year y + 366.
Proof. rewrite days_before_year_succ. destruct (is_leap y); lia. Qed.

Lemma MAXORDINAL_mod : MAXORDINAL mod 7 = 5.
Proof. reflexivity. Qed.

(** A week that holds a January 1st is week 1. *)
Lemma week_number_new_year s :
  s mod 7 = 0 -> 1 <= s -> s + 6 <= MAXORDINAL ->
  new_year_week s -> week_number_of_sunday s = 1.
Proof.
  intros Hs H1 H6 Hny. rewrite week_number_of_sunday_eq, sunday_on_or_before_eq.
  destruct (year_of_spec s ltac:(lia)) as [Ys Bs].
  destruct (year_of_spec (s + 6) ltac:(lia)) as [Ye Be].
  destruct Hny as [Hj|Hlt].
  - rewrite jan1_ordinal_eq in Hj.
    assert (year_of (s + 6) = year_of s) as ->.
    { apply year_of_eq; [lia|]. destruct (year_length (year_of s)); lia. }
    rewrite jan1_ordinal_eq.
    set (j := days_before_year (year_of s)) in *. clearbody j.
    clear - Hs Hj. Z.to_euclidean_division_equations; lia.
  - pose proof (days_before_year_lt _ _ Hlt) as Hm.
    rewrite jan1_ordinal_eq.
    set (j := days_before_year (year_of (s + 6))) in *.
    set (j' := days_before_year (year_of s + 1)) in *. clearbody j j'.
    clear - Hs Be Bs Hm. Z.to_euclidean_division_equations; lia.
Qed.

(** Any other week follows a week of the same year. *)
Lemma week_number_next s :
  s mod 7 = 0 -> 1 <= s -> s + 6 <= MAXORDINAL ->
  ~ new_year_week s ->
  7 <= s /\ year_of (s - 1) = year_of (s + 6)
  /\ week_number_of_sunday s = week_number_of_sunday (s - 7) + 1.
Proof.
  intros Hs H1 H6 Hny.
  assert (Hn1 : s <> days_before_year (year_of s) + 1).
  { intros E. apply Hny. left. rewrite jan1_ordinal_eq. exact E. }
  assert (Hn2 : ~ year_of s < year_of (s + 6)).
  { intros E. apply Hny. right. exact E. }
  clear Hny.
  destruct (year_of_spec s ltac:(lia)) as [Ys Bs].
  destruct (year_of_spec (s + 6) ltac:(lia)) as [Ye Be].
  pose proof (year_of_mono s (s + 6) ltac:(lia) ltac:(lia) ltac:(lia)).
  assert (E : year_of (s + 6) = year_of s) by lia.
  assert (E1 : year_of (s - 1) = year_of s).
  { apply year_of_eq; lia. }
  pose proof (days_before_year_nonneg (year_of s) ltac:(lia)).
  assert (H7 : 7 <= s) by (clear - Hs H1; Z.to_euclidean_division_equations; lia).
  split; [exact H7|].
  split; [congruence|].
  rewrite !week_number_of_sunday_eq. replace (s - 7 + 6) with (s - 1) by lia.
  rewrite E1, E, !sunday_on_or_before_eq, jan1_ordinal_eq.
  set (j := days_before_year (year_of s)) in *. clearbody j.
  clear - Hs H7 Bs Hn1. Z.to_euclidean_division_equations; lia.
Qed.

Lemma io_bind_run {A B : Type} (m : io A) (k : A -> io B) (w : world) :
  (m ≫= k) w =
  match m w with
  | (Ok a, w') => k a w'
  | (Raise e, w') => (Raise e, w')
  end.
Proof. reflexivity. Qed.

Lemma lift_run {A : Type} (r : result A) (w : world) : lift r w = (r, w).
Proof. reflexivity. Qed.

Lemma io_ret_run {A : Type} (a : A) (w : world) : (mret a : io A) w = (Ok a, w).
Proof. reflexivity. Qed.

Lemma collect_date_range_week s :
  1 <= s -> s + 6 <= MAXORDINAL ->
  collect (date_range (fromordinal s) (fromordinal (s + 6)))
  = Ok (fromordinal <$> seqZ s 7).
Proof.
  intros H1 H6.
  destruct (fromordinal_valid s ltac:(lia)) as [V E].
  destruct (fromordinal_valid (s + 6) ltac:(lia)) as [V6 E6].
  unfold date_range, sub_days. rewrite E, E6.
  replace (s + 6 - s + 1) with 7 by lia.
  change (seqZ 0 7) with [0; 1; 2; 3; 4; 5; 6].
  replace (seqZ s 7) with [s + 0; s + 1; s + 2; s + 3; s + 4; s + 5; s + 6].
  2:{ transitivity (Z.add s <$> seqZ 0 7); [reflexivity|].
      rewrite fmap_add_seqZ. f_equal. lia. }
  cbn [fmap list_fmap collect].
  rewrite !add_days_ok by (rewrite ?E; auto; lia).
  rewrite E. reflexivity.
Qed.

Lemma build_weeks_loop_step fuel self s wn w :
  s mod 7 = 0 -> 1 <= s <= MAXORDINAL -> week_number_state s wn ->
  Builder.build_weeks_loop (S fuel) self (fromordinal s) wn w =
    if year_of s >? Builder.end_year self then (Ok self, w)
    else if s + 6 <=? MAXORDINAL then
      Builder.build_weeks_loop fuel (append_weeks self [week_of_sunday s])
        (fromordinal (s + 7)) (Some (week_number_of_sunday s))
        (write_weeks [week_of_sunday s] w)
    else (Raise OverflowError, w).
Proof.
  intros Hs R Hwn.
  destruct (fromordinal_valid s R) as [V E].
  cbn [Builder.build_weeks_loop]. fold (year_of s).
  destruct (year_of s >? Builder.end_year self); [reflexivity|].
  destruct (Z.leb_spec (s + 6) MAXORDINAL) as [H6|H6].
  2:{ assert (A : add_days (fromordinal s) 6 = Raise OverflowError).
      { unfold add_days. rewrite E.
        replace ((0 <? s + 6) && (s + 6 <=? MAXORDINAL)) with false; [reflexivity|].
        symmetry. apply andb_false_iff. right. apply Z.leb_gt. lia. }
      rewrite A. reflexivity. }
  assert (H7 : s + 7 <= MAXORDINAL).
  { pose proof MAXORDINAL_mod. Z.to_euclidean_division_equations; lia. }
  rewrite !add_days_ok by (rewrite ?E; auto; lia). rewrite E.
  rewrite io_bind_run, lift_run.
  fold (year_of (s + 6)). fold (year_of s).
  assert (Hnum :
    (if (day (fromordinal s) =? 1) && (month (fromordinal s) =? 1)
     then mret 1
     else if year_of (s + 6) >? year_of s then mret 1
          else match wn with
               | Some n => mret (n + 1)
               | None => raise TypeError
               end) w = (Ok (week_number_of_sunday s), w)).
  { pose proof (jan1_iff _ V) as J. rewrite E in J. fold (year_of s) in J.
    destruct ((day (fromordinal s) =? 1) && (month (fromordinal s) =? 1)) eqn:E1.
    - rewrite week_number_new_year; auto; [lia|]. left. unfold jan1_ordinal. now apply J.
    - destruct (Z.gtb_spec (year_of (s + 6)) (year_of s)) as [Hgt|Hle].
      + rewrite week_number_new_year; auto; [lia|]. right. lia.
      + assert (Hn : ~ new_year_week s).
        { intros [Hj|Hlt]; [|lia]. unfold jan1_ordinal in Hj. apply J in Hj. congruence. }
        destruct Hwn as [?| ->]; [contradiction|].
        destruct (week_number_next s Hs ltac:(lia) H6 Hn) as (_ & _ & ->). reflexivity. }
  rewrite io_bind_run, Hnum. clear Hnum.
  rewrite collect_date_range_week by lia.
  rewrite io_bind_run, lift_run, io_bind_run.
  cbn [Redis.write_single_week Redis.update].
  rewrite io_bind_run, lift_run.
  reflexivity.
Qed.

Lemma weeks_from_S s k :
  weeks_from s (S k) = week_of_sunday s :: weeks_from (s + 7) k.
Proof.
  unfold weeks_from. cbn [seq fmap list_fmap]. f_equal.
  - f_equal. lia.
  - rewrite <- seq_shift, <- list_fmap_compose. apply list_fmap_ext.
    intros _ i _. cbn. f_equal. lia.
Qed.

Lemma append_weeks_nil self : append_weeks self [] = self.
Proof. destruct self. unfold append_weeks. cbn. now rewrite app_nil_r. Qed.

Lemma append_weeks_cons self a l :
  append_weeks (append_weeks self [a]) l = append_weeks self (a :: l).
Proof. unfold append_weeks. cbn. now rewrite <- app_assoc. Qed.

Lemma write_weeks_nil w : write_weeks [] w = w.
Proof. destruct w as [? [] ?]. reflexivity. Qed.

Lemma write_weeks_cons a l w :
  write_weeks l (write_weeks [a] w) = write_weeks (a :: l) w.
Proof. reflexivity. Qed.

Lemma build_weeks_loop_spec fuel : forall self s wn w self' w',
  s mod 7 = 0 -> 1 <= s <= MAXORDINAL -> week_number_state s wn ->
  Builder.build_weeks_loop fuel self (fromordinal s) wn w = (Ok self', w') ->
  exists k : nat,
    self' = append_weeks self (weeks_from s k)
    /\ w' = write_weeks (weeks_from s k) w
    /\ (forall i : nat, (i < k)%nat -> year_of (s + 7 * Z.of_nat i) <= Builder.end_year self)
    /\ s + 7 * Z.of_nat k <= MAXORDINAL
    /\ Builder.end_year self < year_of (s + 7 * Z.of_nat k).
Proof.
  induction fuel as [|fuel IH]; intros self s wn w self' w' Hs R Hwn Hrun.
  - discriminate.
  - rewrite build_weeks_loop_step in Hrun by assumption.
    destruct (Z.gtb_spec (year_of s) (Builder.end_year self)) as [Hgt|Hle].
    + injection Hrun as <- <-. exists 0%nat.
      rewrite append_weeks_nil, write_weeks_nil, Z.mul_0_r, Z.add_0_r.
      repeat split; try lia.
    + destruct (Z.leb_spec (s + 6) MAXORDINAL) as [H6|H6]; [|discriminate].
      assert (H7 : s + 7 <= MAXORDINAL).
      { pose proof MAXORDINAL_mod. Z.to_euclidean_division_equations; lia. }
      apply IH in Hrun.
      * destruct Hrun as (k & -> & -> & Hi & Hk & Hend).
        exists (S k). rewrite weeks_from_S, append_weeks_cons, write_weeks_cons.
        split; [reflexivity|]. split; [reflexivity|].
        cbn [Builder.end_year append_weeks] in *.
        replace (s + 7 * Z.of_nat (S k)) with (s + 7 + 7 * Z.of_nat k) by lia.
        repeat split; try assumption.
        intros [|i] Hlt.
        -- now rewrite Z.mul_0_r, Z.add_0_r.
        -- replace (s + 7 * Z.of_nat (S i)) with (s + 7 + 7 * Z.of_nat i) by lia.
           apply Hi. lia.
      * Z.to_euclidean_division_equations; lia.
      * lia.
      * right. do 2 f_equal. lia.
Qed.

(** The loop never runs out of the turns it was given. *)
Lemma add_days_raise d k e : add_days d k = Raise e -> e = OverflowError.
Proof.
  unfold add_days. destruct (_ && _); [discriminate|]. now intros [= <-].
Qed.

Lemma build_weeks_loop_fuel fuel : forall self s wn w,
  s mod 7 = 0 -> 1 <= s <= MAXORDINAL -> week_number_state s wn ->
  (MAXORDINAL - s) / 7 + 1 <= Z.of_nat fuel ->
  (Builder.build_weeks_loop fuel self (fromordinal s) wn w).1 <> Raise OutOfFuel.
Proof.
  induction fuel as [|fuel IH]; intros self s wn w Hs R Hwn Hfuel.
  - exfalso. Z.to_euclidean_division_equations; lia.
  - rewrite build_weeks_loop_step by assumption.
    destruct (year_of s >? Builder.end_year self); [discriminate|].
    destruct (Z.leb_spec (s + 6) MAXORDINAL) as [H6|H6]; [|discriminate].
    assert (H7 : s + 7 <= MAXORDINAL).
    { pose proof MAXORDINAL_mod. Z.to_euclidean_division_equations; lia. }
    apply IH.
    + Z.to_euclidean_division_equations; lia.
    + lia.
    + right. do 2 f_equal. lia.
    + Z.to_euclidean_division_equations; lia.
Qed.

Lemma new_date_inv y m d x :
  new_date y m d = Ok x -> x = mkdate y m d /\ check_date_fields y m d = true.
Proof.
  unfold new_date. destruct (check_date_fields y m d); [|discriminate].
  intros [= <-]. auto.
Qed.

Lemma new_date_raise y m d e : new_date y m d = Raise e -> e = ValueError.
Proof.
  unfold new_date. destruct (check_date_fields y m d); [discriminate|]. now intros [= <-].
Qed.

Lemma jan1_fields_inv y : check_date_fields y 1 1 = true -> 1 <= y <= 9999.
Proof.
  unfold check_date_fields, MINYEAR, MAXYEAR.
  rewrite !andb_true_iff, !Z.leb_le. lia.
Qed.

Lemma strftime_w_mod d : strftime_w d = toordinal d mod 7.
Proof. unfold strftime_w, weekday. Z.to_euclidean_division_equations; lia. Qed.

(** The first week of a build is the week that holds January 1st of the
    epoch year. *)
Lemma first_week_new_year y :
  1 <= y <= 9999 ->
  let s0 := sunday_on_or_before (jan1_ordinal y) in
  1 <= s0 ->
  s0 mod 7 = 0 /\ s0 <= jan1_ordinal y <= s0 + 6 /\ s0 + 6 <= MAXORDINAL
  /\ year_of (s0 + 6) = y /\ new_year_week s0.
Proof.
  intros Hy s0 H1. unfold s0, sunday_on_or_before, jan1_ordinal in *.
  pose proof (days_before_year_nonneg y ltac:(lia)).
  pose proof (days_before_year_max (y + 1) ltac:(lia)).
  pose proof (year_length y) as L.
  set (j := days_before_year y) in *.
  assert (A : (j + 1 - (j + 1) mod 7) mod 7 = 0) by (Z.to_euclidean_division_equations; lia).
  assert (B : 0 <= (j + 1) mod 7 < 7) by (apply Z.mod_pos_bound; lia).
  assert (Y6 : year_of (j + 1 - (j + 1) mod 7 + 6) = y).
  { apply year_of_eq; [lia|]. fold j. lia. }
  repeat split; try lia; try assumption.
  unfold new_year_week, jan1_ordinal.
  destruct (Z.eq_dec ((j + 1) mod 7) 0) as [E0|N0].
  - left. rewrite E0, Z.sub_0_r.
    rewrite (year_of_eq (j + 1) y); fold j; lia.
  - right. rewrite Y6.
    destruct (year_of_spec (j + 1 - (j + 1) mod 7) ltac:(lia)) as [_ Bs].
    destruct (Z_lt_le_dec (year_of (j + 1 - (j + 1) mod 7)) y) as [?|Hge]; [assumption|].
    pose proof (days_before_year_mono _ _ Hge) as Hm. fold j in Hm. lia.
Qed.

Lemma build_weeks_spec self w self' w' :
  Builder.build_weeks self w = (Ok self', w') ->
  let s0 := sunday_on_or_before (jan1_ordinal (Builder.epoch_year self)) in
  1 <= Builder.epoch_year self <= 9999 /\ 1 <= s0 /\
  exists k : nat,
    self' = append_weeks self (weeks_from s0 k)
    /\ w' = write_weeks (weeks_from s0 k) w
    /\ (forall i : nat, (i < k)%nat -> year_of (s0 + 7 * Z.of_nat i) <= Builder.end_year self)
    /\ s0 + 7 * Z.of_nat k <= MAXORDINAL
    /\ Builder.end_year self < year_of (s0 + 7 * Z.of_nat k).
Proof.
  intros Hrun s0. unfold Builder.build_weeks in Hrun.
  rewrite io_bind_run, lift_run in Hrun.
  destruct (new_date (Builder.epoch_year self) 1 1) as [j1|] eqn:Ej; [|discriminate].
  apply new_date_inv in Ej. destruct Ej as [-> Hf].
  pose proof (jan1_fields_inv _ Hf) as Hy.
  rewrite io_bind_run, lift_run, strftime_w_mod in Hrun.
  destruct (add_days _ _) as [ws|] eqn:Ews; [|discriminate].
  apply add_days_inv in Ews; [|exact Hf].
  rewrite toordinal_jan1 in Ews. fold (jan1_ordinal (Builder.epoch_year self)) in Ews.
  destruct Ews as (R & -> & _ & _).
  assert (Es : jan1_ordinal (Builder.epoch_year self)
               + - (jan1_ordinal (Builder.epoch_year self) mod 7) = s0)
    by (unfold s0, sunday_on_or_before; lia).
  rewrite Es in *.
  destruct (first_week_new_year _ Hy ltac:(fold s0; lia)) as (Hm & _ & _ & _ & Hny).
  fold s0 in Hm, Hny.
  split; [assumption|]. split; [lia|].
  apply build_weeks_loop_spec in Hrun; auto.
  left. exact Hny.
Qed.

Lemma build_weeks_fuel self w : (Builder.build_weeks self w).1 <> Raise OutOfFuel.
Proof.
  unfold Builder.build_weeks. rewrite io_bind_run, lift_run.
  destruct (new_date (Builder.epoch_year self) 1 1) as [j1|e] eqn:Ej.
  2:{ apply new_date_raise in Ej. subst. discriminate. }
  apply new_date_inv in Ej. destruct Ej as [-> Hf].
  pose proof (jan1_fields_inv _ Hf) as Hy.
  rewrite io_bind_run, lift_run, strftime_w_mod.
  destruct (add_days _ _) as [ws|e] eqn:Ews.
  2:{ apply add_days_raise in Ews. subst. discriminate. }
  apply add_days_inv in Ews; [|exact Hf].
  rewrite toordinal_jan1 in Ews. fold (jan1_ordinal (Builder.epoch_year self)) in Ews.
  destruct Ews as (R & -> & _ & Et).
  set (s0 := sunday_on_or_before (jan1_ordinal (Builder.epoch_year self))).
  assert (Es : jan1_ordinal (Builder.epoch_year self)
               + - (jan1_ordinal (Builder.epoch_year self) mod 7) = s0)
    by (unfold s0, sunday_on_or_before; lia).
  rewrite Es in *.
  destruct (first_week_new_year _ Hy ltac:(fold s0; lia)) as (Hm & _ & _ & _ & Hny).
  fold s0 in Hm, Hny.
  apply build_weeks_loop_fuel; auto.
  - left. exact Hny.
  - unfold Builder.turns_bound. rewrite Et.
    rewrite Z2Nat.id; [lia|]. Z.to_euclidean_division_equations; lia.
Qed.

Lemma month_day_mono y m d m' d' :
  1 <= m <= 12 -> 1 <= d <= days_in_month y m ->
  1 <= m' <= 12 -> 1 <= d' <= days_in_month y m' ->
  m < m' -> days_before_month y m + d < days_before_month y m' + d'.
Proof.
  intros Hm Hd Hm' Hd'. unfold days_in_month, days_before_month in *.
  month_split Hm; month_split Hm'; destruct (is_leap y); simpl in *; lia.
Qed.

Lemma date_compare_toordinal a b :
  valid_date a -> valid_date b ->
  date_compare a b = (toordinal a ?= toordinal b).
Proof.
  intros Va Vb.
  pose proof (toordinal_year_bounds a Va) as Ba.
  pose proof (toordinal_year_bounds b Vb) as Bb.
  apply valid_date_iff in Va, Vb.
  destruct Va as (_ & Hma & Hda), Vb as (_ & Hmb & Hdb).
  unfold date_compare. symmetry.
  destruct (Z.compare_spec (year a) (year b)) as [Ey|Hlt|Hgt].
  - unfold toordinal, ymd2ord in *. rewrite Ey in *.
    destruct (Z.compare_spec (month a) (month b)) as [Em|Hlt|Hgt].
    + rewrite Em. destruct (Z.compare_spec (day a) (day b)).
      * apply Z.compare_eq_iff. lia.
      * apply Z.compare_lt_iff. lia.
      * apply Z.compare_gt_iff. lia.
    + apply Z.compare_lt_iff.
      pose proof (month_day_mono (year b) _ _ _ _ Hma Hda Hmb Hdb Hlt). lia.
    + apply Z.compare_gt_iff.
      pose proof (month_day_mono (year b) _ _ _ _ Hmb Hdb Hma Hda ltac:(lia)). lia.
  - apply Z.compare_lt_iff. pose proof (days_before_year_lt _ _ Hlt). lia.
  - apply Z.compare_gt_iff. pose proof (days_before_year_lt _ _ Hgt). lia.
Qed.

Lemma date_leb_toordinal a b :
  valid_date a -> valid_date b ->
  (date_leb a b = true <-> toordinal a <= toordinal b).
Proof.
  intros Va Vb. unfold date_leb. rewrite date_compare_toordinal by assumption.
  destruct (Z.compare_spec (toordinal a) (toordinal b)); split; (lia || discriminate || reflexivity).
Qed.

Lemma date_eqb_refl a : date_eqb a a = true.
Proof. unfold date_eqb, date_compare. now rewrite !Z.compare_refl. Qed.

Lemma date_ltb_irrefl a : date_ltb a a = false.
Proof. unfold date_ltb, date_compare. now rewrite !Z.compare_refl. Qed.

(** *** The weeks of a build *)

Lemma elem_of_weeks_from wk s k :
  wk ∈ weeks_from s k <-> exists i : nat, (i < k)%nat /\ wk = week_of_sunday (s + 7 * Z.of_nat i).
Proof.
  unfold weeks_from. rewrite list_elem_of_fmap. split.
  - intros (i & -> & Hi). apply elem_of_seq in Hi. exists i. split; [lia|reflexivity].
  - intros (i & Hi & ->). exists i. split; [reflexivity|]. apply elem_of_seq. lia.
Qed.

Lemma elem_of_week_dates d s :
  d ∈ wk_week_dates (week_of_sunday s) <->
  exists i, 0 <= i <= 6 /\ d = fromordinal (s + i).
Proof.
  cbn [wk_week_dates week_of_sunday]. rewrite list_elem_of_fmap. split.
  - intros (n & -> & Hn). apply elem_of_seqZ in Hn. exists (n - s). split; [lia|]. f_equal. lia.
  - intros (i & Hi & ->). exists (s + i). split; [reflexivity|]. apply elem_of_seqZ. lia.
Qed.

Lemma elem_of_week_dates_ordinal d s :
  1 <= s -> s + 6 <= MAXORDINAL -> valid_date d ->
  (d ∈ wk_week_dates (week_of_sunday s) <-> s <= toordinal d <= s + 6).
Proof.
  intros H1 H6 V. rewrite elem_of_week_dates. split.
  - intros (i & Hi & ->).
    destruct (fromordinal_valid (s + i) ltac:(lia)) as [_ ->]. lia.
  - intros H. exists (toordinal d - s). split; [lia|].
    replace (s + (toordinal d - s)) with (toordinal d) by lia.
    symmetry. now apply fromordinal_toordinal.
Qed.

(** Every date of a built week gets the week's (year, week number). *)
Lemma week_of_sunday_tuple s i v :
  s mod 7 = 0 -> 1 <= s -> s + 6 <= MAXORDINAL -> 0 <= i <= 6 ->
  year_of (s + i) < MAXYEAR ->
  Internals.date_to_week_tuple (fromordinal (s + i)) v
  = Ok (wk_year (week_of_sunday s), wk_week_number (week_of_sunday s)).
Proof.
  intros Hs H1 H6 Hi Hy.
  destruct (fromordinal_valid (s + i) ltac:(lia)) as [V E].
  rewrite date_to_week_tuple_closed by assumption. rewrite E. fold (year_of (s + i)).
  cbn [wk_year wk_week_number week_of_sunday]. f_equal.
  unfold week_tuple_of_ordinal, week_number_of_sunday, sunday_on_or_before, jan1_ordinal.
  destruct (year_of_spec (s + i) ltac:(lia)) as [Yi Bi].
  destruct (year_of_spec (s + 6) ltac:(lia)) as [Y6 B6].
  unfold MAXYEAR in Hy.
  pose proof (year_length (year_of (s + i))) as L.
  set (y := year_of (s + i)) in *.
  destruct (Z.leb_spec (days_before_year (y + 1) + 1 - (days_before_year (y + 1) + 1) mod 7) (s + i)) as [Hle|Hgt].
  - assert (E6 : year_of (s + 6) = y + 1).
    { apply year_of_eq; [lia|]. pose proof (year_length (y + 1)).
      Z.to_euclidean_division_equations; lia. }
    rewrite E6. f_equal. Z.to_euclidean_division_equations; lia.
  - assert (E6 : year_of (s + 6) = y).
    { apply year_of_eq; [lia|]. Z.to_euclidean_division_equations; lia. }
    rewrite E6. f_equal. Z.to_euclidean_division_equations; lia.
Qed.

Lemma lookup_weeks_from s k (i : nat) wk :
  weeks_from s k !! i = Some wk <-> (i < k)%nat /\ wk = week_of_sunday (s + 7 * Z.of_nat i).
Proof.
  unfold weeks_from. rewrite list_lookup_fmap. split.
  - destruct (seq 0 k !! i) as [j|] eqn:E; [|discriminate].
    apply lookup_seq in E. destruct E as [-> ?]. cbn. intros [= <-]. auto.
  - intros [Hi ->]. rewrite (proj2 (lookup_seq 0 k i i)); [reflexivity|lia].
Qed.

Lemma length_weeks_from s k : length (weeks_from s k) = k.
Proof. unfold weeks_from. now rewrite length_fmap, length_seq. Qed.

Lemma covered_by_weeks_from s k d :
  1 <= s -> s + 7 * Z.of_nat k <= MAXORDINAL -> valid_date d ->
  covered_by (weeks_from s k) d ->
  s <= toordinal d < s + 7 * Z.of_nat k.
Proof.
  intros H1 Hk V (wf & wl & Hh & Hl & Hle1 & Hle2).
  rewrite head_lookup in Hh. rewrite last_lookup, length_weeks_from in Hl.
  apply lookup_weeks_from in Hh, Hl. destruct Hh as [Hk0 ->], Hl as [_ ->].
  cbn [wk_week_start wk_week_end week_of_sunday] in *.
  rewrite Z.mul_0_r, Z.add_0_r in Hle1.
  destruct (fromordinal_valid s ltac:(lia)) as [Vs Es].
  destruct (fromordinal_valid (s + 7 * Z.of_nat (Nat.pred k) + 6) ltac:(lia)) as [Ve Ee].
  apply date_leb_toordinal in Hle1, Hle2; auto. lia.
Qed.

Lemma built_weeks_shape (self self' : Builder.t) (w w' : world) :
  Builder.week_dicts self = [] ->
  Builder.build_weeks self w = (Ok self', w') ->
  1 <= Builder.epoch_year self <= 9999
  /\ 1 <= sunday_on_or_before (jan1_ordinal (Builder.epoch_year self))
  /\ sunday_on_or_before (jan1_ordinal (Builder.epoch_year self)) mod 7 = 0
  /\ exists k : nat,
    Builder.week_dicts self'
    = weeks_from (sunday_on_or_before (jan1_ordinal (Builder.epoch_year self))) k
    /\ w' = write_weeks
              (weeks_from (sunday_on_or_before (jan1_ordinal (Builder.epoch_year self))) k) w
    /\ Builder.end_year self' = Builder.end_year self
    /\ Builder.epoch_year self' = Builder.epoch_year self
    /\ Builder.years self' = Builder.years self
    /\ Builder.weekday_names self' = Builder.weekday_names self
    /\ Builder.debug_mode self' = Builder.debug_mode self
    /\ (forall i : nat, (i < k)%nat ->
          year_of (sunday_on_or_before (jan1_ordinal (Builder.epoch_year self))
                   + 7 * Z.of_nat i) <= Builder.end_year self)
    /\ sunday_on_or_before (jan1_ordinal (Builder.epoch_year self)) + 7 * Z.of_nat k
       <= MAXORDINAL
    /\ Builder.end_year self
       < year_of (sunday_on_or_before (jan1_ordinal (Builder.epoch_year self))
                  + 7 * Z.of_nat k).
Proof.
  intros fresh built.
  destruct (build_weeks_spec _ _ _ _ built) as (Hy & H1 & k & -> & -> & Hi & Hk & Hend).
  destruct (first_week_new_year _ Hy H1) as (Hm & _).
  repeat split; try assumption; try lia.
  exists k. cbn. rewrite fresh. repeat split; assumption.
Qed.

Lemma built_week_of_date s k d :
  s mod 7 = 0 -> 1 <= s -> s + 7 * Z.of_nat k <= MAXORDINAL -> valid_date d ->
  s <= toordinal d < s + 7 * Z.of_nat k ->
  exists i : nat, (i < k)%nat
    /\ s + 7 * Z.of_nat i <= toordinal d <= s + 7 * Z.of_nat i + 6
    /\ week_of_sunday (s + 7 * Z.of_nat i) ∈ weeks_from s k
    /\ d ∈ wk_week_dates (week_of_sunday (s + 7 * Z.of_nat i))
    /\ forall wk', wk' ∈ weeks_from s k -> d ∈ wk_week_dates wk' ->
         wk' = week_of_sunday (s + 7 * Z.of_nat i).
Proof.
  intros Hs H1 Hk V Hd.
  set (i := Z.to_nat ((toordinal d - s) / 7)).
  assert (Hi : Z.of_nat i = (toordinal d - s) / 7).
  { unfold i. rewrite Z2Nat.id; [reflexivity|]. Z.to_euclidean_division_equations; lia. }
  assert (Hik : (i < k)%nat) by (Z.to_euclidean_division_equations; lia).
  assert (Hin : s + 7 * Z.of_nat i <= toordinal d <= s + 7 * Z.of_nat i + 6).
  { rewrite Hi. Z.to_euclidean_division_equations; lia. }
  exists i. split; [assumption|]. split; [assumption|].
  split; [apply elem_of_weeks_from; eauto|].
  split; [apply elem_of_week_dates_ordinal; auto; lia|].
  intros wk' Hwk' Hd'. apply elem_of_weeks_from in Hwk'. destruct Hwk' as (i' & Hi' & ->).
  apply elem_of_week_dates_ordinal in Hd'; auto; try lia.
  do 2 f_equal. lia.
Qed.

(** C1 (as amended).  For every calendar date [d] of a year before 9999 that
    a completed [Builder.build_weeks] covers (from the start of the first
    built week, the Sunday on or before January 1st of the epoch year,
    through the end of the last built week), exactly one built Week record
    has [d] among its dates, and [Internals.date_to_week_tuple d] returns the
    (year, week_number) of that record. *)
Theorem date_to_week_tuple_matches_build_weeks
    (self self' : Builder.t) (w w' : world) (d : date) (verbose : bool) :
  Builder.week_dicts self = [] ->
  Builder.build_weeks self w = (Ok self', w') ->
  valid_date d -> year d < MAXYEAR ->
  covered_by (Builder.week_dicts self') d ->
  exists wk,
    wk ∈ Builder.week_dicts self'
    /\ d ∈ wk_week_dates wk
    /\ (forall wk', wk' ∈ Builder.week_dicts self' -> d ∈ wk_week_dates wk' -> wk' = wk)
    /\ Internals.date_to_week_tuple d verbose = Ok (wk_year wk, wk_week_number wk).
Proof.
  intros fresh built V Hy Hcov.
  destruct (built_weeks_shape _ _ _ _ fresh built)
    as (_ & H1 & Hm & k & Hl & _ & _ & _ & _ & _ & _ & _ & Hk & _).
  rewrite Hl in *.
  pose proof (covered_by_weeks_from _ _ _ H1 Hk V Hcov) as Hd.
  destruct (built_week_of_date _ _ _ Hm H1 Hk V Hd) as (i & Hik & Hin & Hwk & Hdin & Huniq).
  exists (week_of_sunday (sunday_on_or_before (jan1_ordinal (Builder.epoch_year self))
                          + 7 * Z.of_nat i)).
  split; [assumption|]. split; [assumption|]. split; [assumption|].
  set (s := sunday_on_or_before (jan1_ordinal (Builder.epoch_year self)) + 7 * Z.of_nat i) in *.
  rewrite <- (fromordinal_toordinal d V).
  replace (toordinal d) with (s + (toordinal d - s)) by lia.
  apply week_of_sunday_tuple; try lia.
  - Z.to_euclidean_division_equations; lia.
  - unfold year_of. replace (s + (toordinal d - s)) with (toordinal d) by lia.
    now rewrite fromordinal_toordinal.
Qed.

(** *** The shape of one built week *)

Lemma week_of_sunday_shape s :
  s mod 7 = 0 -> 1 <= s -> s + 6 <= MAXORDINAL ->
  let wk := week_of_sunday s in
  length (wk_week_dates wk) = 7%nat
  /\ valid_date (wk_week_start wk)
  /\ strftime_w (wk_week_start wk) = 0
  /\ Ok <$> wk_week_dates wk = (fun i => add_days (wk_week_start wk) i) <$> seqZ 0 7
  /\ add_days (wk_week_start wk) 6 = Ok (wk_week_end wk).
Proof.
  intros Hs H1 H6 wk. unfold wk. cbn [wk_week_dates wk_week_start wk_week_end week_of_sunday].
  destruct (fromordinal_valid s ltac:(lia)) as [V E].
  split; [now rewrite length_fmap, length_seqZ|].
  split; [assumption|].
  split; [rewrite strftime_w_mod, E; assumption|].
  split.
  - replace (seqZ s 7) with (Z.add s <$> seqZ 0 7)
      by (rewrite fmap_add_seqZ; f_equal; lia).
    rewrite <- !list_fmap_compose.
    apply list_fmap_ext. intros n i Hi. apply list_elem_of_lookup_2, elem_of_seqZ in Hi.
    cbn. rewrite add_days_ok; rewrite ?E; auto; lia.
  - rewrite add_days_ok; rewrite ?E; auto; lia.
Qed.

(** *** The week numbers of one year *)

(** The weeks of year [y] are the Sunday weeks from the one that holds
    January 1st to the last one whose Saturday is still in [y]. *)
Lemma week_year_iff s y :
  s mod 7 = 0 -> 1 <= s -> s + 6 <= MAXORDINAL -> 1 <= y <= 9999 ->
  (year_of (s + 6) = y <->
   sunday_on_or_before (jan1_ordinal y) <= s /\ s + 6 <= days_before_year (y + 1)).
Proof.
  intros Hs H1 H6 Hy. unfold sunday_on_or_before, jan1_ordinal. split.
  - intros <-. destruct (year_of_spec (s + 6) ltac:(lia)) as [_ B].
    split; [|lia]. Z.to_euclidean_division_equations; lia.
  - intros [Hlo Hhi]. apply year_of_eq; [assumption|].
    split; [|lia]. Z.to_euclidean_division_equations; lia.
Qed.

Lemma week_count_52_53 y : week_count_of_year y = 52 \/ week_count_of_year y = 53.
Proof.
  unfold week_count_of_year, sunday_on_or_before, jan1_ordinal.
  destruct (year_length y) as [-> | ->]; Z.to_euclidean_division_equations; lia.
Qed.

Lemma max_of_spec l m :
  Builder.max_of l = Ok m -> m ∈ l /\ forall x, x ∈ l -> x <= m.
Proof.
  destruct l as [|a l]; [discriminate|]. cbn. intros [= <-].
  revert a. induction l as [|b l IH]; intros a; cbn.
  - split; [apply list_elem_of_here|]. intros x Hx. apply list_elem_of_singleton in Hx. lia.
  - destruct (IH (Z.max a b)) as [Hin Hmax]. split.
    + apply elem_of_cons in Hin. destruct Hin as [Hin|Hin].
      * rewrite Hin. destruct (Z.max_spec a b) as [[_ ->]|[_ ->]].
        -- apply list_elem_of_further, list_elem_of_here.
        -- apply list_elem_of_here.
      * now do 2 apply list_elem_of_further.
    + intros x Hx. apply elem_of_cons in Hx. destruct Hx as [->|Hx].
      * specialize (Hmax (Z.max a b) ltac:(apply list_elem_of_here)). lia.
      * apply elem_of_cons in Hx. destruct Hx as [->|Hx].
        -- specialize (Hmax (Z.max a b) ltac:(apply list_elem_of_here)). lia.
        -- apply Hmax. now apply list_elem_of_further.
Qed.

Lemma max_of_nonempty l x : x ∈ l -> exists m, Builder.max_of l = Ok m.
Proof. destruct l; [intros H; inversion H|]. cbn. eauto. Qed.

Section YearNumbers.

Variables (s0 : Z) (k : nat) (end_year y : Z).
Hypothesis s0_sunday : s0 mod 7 = 0.
Hypothesis s0_pos : 1 <= s0.
Hypothesis in_range_k : s0 + 7 * Z.of_nat k <= MAXORDINAL.
Hypothesis before_end :
  forall i : nat, (i < k)%nat -> year_of (s0 + 7 * Z.of_nat i) <= end_year.
Hypothesis past_end : end_year < year_of (s0 + 7 * Z.of_nat k).
Hypothesis y_from : s0 <= sunday_on_or_before (jan1_ordinal y).
Hypothesis y_pos : 1 <= y.
Hypothesis y_to : y <= end_year.

Lemma end_year_bound : end_year < 9999 /\ 1 <= y <= 9998.
Proof.
  destruct (year_of_spec (s0 + 7 * Z.of_nat k) ltac:(lia)) as [B _]. lia.
Qed.

Lemma numbers_spec n :
  n ∈ week_numbers_of_year y (weeks_from s0 k) <-> 1 <= n <= week_count_of_year y.
Proof.
  destruct end_year_bound as [He Hy].
  pose proof (week_count_52_53 y) as HM.
  pose proof (year_length y) as L.
  pose proof (days_before_year_nonneg y ltac:(lia)) as Hnn.
  pose proof y_from as Hfrom.
  unfold week_numbers_of_year, week_count_of_year in *.
  set (S := sunday_on_or_before (jan1_ordinal y)) in Hfrom, HM |- *.
  assert (HS : S mod 7 = 0).
  { unfold S, sunday_on_or_before. Z.to_euclidean_division_equations; lia. }
  assert (HSj : S <= days_before_year y + 1 <= S + 6).
  { unfold S, sunday_on_or_before, jan1_ordinal. Z.to_euclidean_division_equations; lia. }
  rewrite list_elem_of_fmap. split.
  - intros (wk & -> & Hwk). apply list_elem_of_filter in Hwk. destruct Hwk as [Hyr Hwk].
    apply elem_of_weeks_from in Hwk. destruct Hwk as (i & Hi & ->).
    cbn [wk_year wk_week_number week_of_sunday] in *.
    set (s := s0 + 7 * Z.of_nat i) in *.
    assert (Hs : s mod 7 = 0) by (unfold s; Z.to_euclidean_division_equations; lia).
    assert (Hyr' : S <= s /\ s + 6 <= days_before_year (y + 1)).
    { apply week_year_iff; auto; unfold s; lia. }
    unfold week_number_of_sunday.
    rewrite Hyr. fold S.
    clearbody S. Z.to_euclidean_division_equations; lia.
  - intros Hn.
    set (s := S + 7 * (n - 1)).
    assert (Hs : s mod 7 = 0) by (unfold s; Z.to_euclidean_division_equations; lia).
    assert (Hs6 : s + 6 <= days_before_year (y + 1)).
    { unfold s. clearbody S. Z.to_euclidean_division_equations; lia. }
    pose proof (days_before_year_max (y + 1) ltac:(lia)) as Hmax.
    assert (Hyr : year_of (s + 6) = y).
    { apply week_year_iff; try lia; fold S; unfold s; lia. }
    set (i := Z.to_nat ((s - s0) / 7)).
    assert (Hi : s = s0 + 7 * Z.of_nat i).
    { unfold i. rewrite Z2Nat.id; unfold s in *; clearbody S;
        Z.to_euclidean_division_equations; lia. }
    assert (Hik : (i < k)%nat).
    { destruct (Nat.lt_ge_cases i k) as [?|Hge]; [assumption|exfalso].
      pose proof (year_of_mono (s0 + 7 * Z.of_nat k) (s + 6) ltac:(lia) ltac:(lia) ltac:(lia)).
      lia. }
    exists (week_of_sunday s). split.
    + cbn [wk_week_number week_of_sunday]. unfold week_number_of_sunday.
      rewrite Hyr. fold S. unfold s. clearbody S. Z.to_euclidean_division_equations; lia.
    + apply list_elem_of_filter. split; [exact Hyr|].
      apply elem_of_weeks_from. exists i. split; [assumption|]. now rewrite Hi.
Qed.

Lemma max_week_number_spec :
  exists m, Builder.max_of (week_numbers_of_year y (weeks_from s0 k)) = Ok m
            /\ (m = 52 \/ m = 53)
            /\ forall n, n ∈ week_numbers_of_year y (weeks_from s0 k) <-> 1 <= n <= m.
Proof.
  pose proof (week_count_52_53 y) as HM.
  assert (H1 : 1 ∈ week_numbers_of_year y (weeks_from s0 k)) by (apply numbers_spec; lia).
  destruct (max_of_nonempty _ _ H1) as [m Hm]. exists m.
  destruct (max_of_spec _ _ Hm) as [Hin Hmax].
  apply numbers_spec in Hin.
  assert (HMin : week_count_of_year y ∈ week_numbers_of_year y (weeks_from s0 k))
    by (apply numbers_spec; lia).
  apply Hmax in HMin.
  assert (m = week_count_of_year y) as -> by lia.
  split; [assumption|]. split; [assumption|]. apply numbers_spec.
Qed.

End YearNumbers.

Lemma sunday_of_jan1_mono a b :
  a <= b ->
  sunday_on_or_before (jan1_ordinal a) <= sunday_on_or_before (jan1_ordinal b).
Proof.
  intros H. pose proof (days_before_year_mono a b H).
  unfold sunday_on_or_before, jan1_ordinal. Z.to_euclidean_division_equations; lia.
Qed.

(** C7.  Every Week record [Builder.build_weeks] produces holds exactly 7
    dates, its start date and the six days after it, starts on a Sunday, and
    ends on its start date plus 6 days; and for each year of the built range
    the week numbers of that year's records are exactly 1, 2, ...,
    max_week_number, where max_week_number (the value [build_year] computes
    from the records) is 52 or 53. *)
Theorem build_weeks_week_invariants (self self' : Builder.t) (w w' : world) :
  Builder.week_dicts self = [] ->
  Builder.build_weeks self w = (Ok self', w') ->
  (forall wk, wk ∈ Builder.week_dicts self' ->
     length (wk_week_dates wk) = 7%nat
     /\ valid_date (wk_week_start wk)
     /\ strftime_w (wk_week_start wk) = 0
     /\ Ok <$> wk_week_dates wk = (fun i => add_days (wk_week_start wk) i) <$> seqZ 0 7
     /\ add_days (wk_week_start wk) 6 = Ok (wk_week_end wk))
  /\ (forall y, Builder.epoch_year self <= y <= Builder.end_year self ->
        exists max_week_number,
          Builder.max_of (wk_week_number <$>
                          filter (fun wk => wk_year wk = y) (Builder.week_dicts self'))
          = Ok max_week_number
          /\ (max_week_number = 52 \/ max_week_number = 53)
          /\ forall n,
               n ∈ wk_week_number <$>
                    filter (fun wk => wk_year wk = y) (Builder.week_dicts self')
               <-> 1 <= n <= max_week_number).
Proof.
  intros fresh built.
  destruct (built_weeks_shape _ _ _ _ fresh built)
    as (Hy & H1 & Hm & k & Hl & _ & _ & _ & _ & _ & _ & Hi & Hk & Hend).
  rewrite Hl. split.
  - intros wk Hwk. apply elem_of_weeks_from in Hwk. destruct Hwk as (i & Hik & ->).
    apply week_of_sunday_shape; [Z.to_euclidean_division_equations; lia|lia|lia].
  - intros y Hyr.
    apply (max_week_number_spec _ k (Builder.end_year self) y); auto; try lia.
    apply sunday_of_jan1_mono. lia.
Qed.

(** *** Computations that only write the cache *)

Lemma option_union_assoc {A} (a b c : option A) : a ∪ (b ∪ c) = (a ∪ b) ∪ c.
Proof. destruct a, b, c; reflexivity. Qed.

Lemma option_union_idemp {A} (a : option A) : a ∪ a = a.
Proof. destruct a; reflexivity. Qed.

Lemma cache_union_assoc a b c :
  cache_union a (cache_union b c) = cache_union (cache_union a b) c.
Proof.
  unfold cache_union. cbn.
  f_equal; [apply (assoc_L (∪))..|apply option_union_assoc].
Qed.

Lemma cache_union_idemp a : cache_union a a = a.
Proof.
  destruct a. unfold cache_union. cbn.
  f_equal; [apply (idemp_L (∪))..|apply option_union_idemp].
Qed.

Lemma cache_union_empty_l a : cache_union empty_cache a = a.
Proof.
  destruct a. unfold cache_union, empty_cache. cbn.
  f_equal; apply (left_id_L ∅ (∪)).
Qed.

Lemma cache_union_empty_r a : cache_union a empty_cache = a.
Proof.
  destruct a as [? ? ? o]. unfold cache_union, empty_cache. cbn.
  f_equal; [apply (right_id_L ∅ (∪))..|destruct o; reflexivity].
Qed.

Lemma cache_writer_ret {A} (a : A) : cache_writer (mret a).
Proof.
  intros s. exists (Ok a), empty_cache, 0%nat. intros [d c n] <-. cbn.
  now rewrite cache_union_empty_l.
Qed.

Lemma cache_writer_lift {A} (r : result A) : cache_writer (lift r).
Proof.
  intros s. exists r, empty_cache, 0%nat. intros [d c n] <-. unfold lift. cbn.
  now rewrite cache_union_empty_l.
Qed.

Lemma cache_writer_raise {A} (e : exn) : cache_writer (@raise A e).
Proof. apply (cache_writer_lift (Raise e)). Qed.

Lemma cache_writer_bind {A B} (m : io A) (k : A -> io B) :
  cache_writer m -> (forall a, cache_writer (k a)) -> cache_writer (m ≫= k).
Proof.
  intros Hm Hk s. destruct (Hm s) as (r & c & n & Hrun).
  destruct r as [a|e].
  - destruct (Hk a s) as (r' & c' & n' & Hrun').
    exists r', (cache_union c' c), (n' + n)%nat. intros w Hw.
    rewrite io_bind_run, (Hrun w Hw), Hrun' by reflexivity. cbn.
    now rewrite cache_union_assoc, Nat.add_assoc.
  - exists (Raise e), c, n. intros w Hw.
    now rewrite io_bind_run, (Hrun w Hw).
Qed.

Lemma cache_writer_update (c : cache) (f : cache -> cache) :
  (forall x, f x = cache_union c x) -> cache_writer (Redis.update f).
Proof.
  intros Hf s. exists (Ok tt), c, 0%nat. intros [d x n] <-. unfold Redis.update. cbn.
  now rewrite Hf.
Qed.

Lemma cache_writer_write_single_week wd : cache_writer (Redis.write_single_week wd).
Proof.
  apply (cache_writer_update
           (mk_cache ∅ {[ (wk_year wd, wk_week_number wd) := wd ]} ∅ None)).
  intros []. unfold cache_union. cbn. f_equal; try (symmetry; apply (left_id_L ∅ (∪))).
  apply insert_union_singleton_l.
Qed.

Lemma cache_writer_write_single_day d : cache_writer (Redis.write_single_day d).
Proof.
  apply (cache_writer_update
           (mk_cache {[ ("temporal/day/" +:+ dy_date_as_string d)%string := d ]} ∅ ∅ None)).
  intros []. unfold cache_union. cbn. f_equal; try (symmetry; apply (left_id_L ∅ (∪))).
  apply insert_union_singleton_l.
Qed.

Lemma cache_writer_write_single_year yd b : cache_writer (Redis.write_single_year yd b).
Proof.
  apply (cache_writer_update (mk_cache ∅ ∅ {[ yr_year yd := yd ]} None)).
  intros []. unfold cache_union. cbn. f_equal; try (symmetry; apply (left_id_L ∅ (∪))).
  apply insert_union_singleton_l.
Qed.

Lemma cache_writer_write_years ys b : cache_writer (Redis.write_years ys b).
Proof.
  apply (cache_writer_update (mk_cache ∅ ∅ ∅ (Some ys))).
  intros [? ? ? o]. unfold cache_union. cbn.
  f_equal; try (symmetry; apply (left_id_L ∅ (∪))). now destruct o.
Qed.

Lemma cache_writer_get_debug_mode : cache_writer Frappe.get_debug_mode.
Proof.
  intros s. exists (Ok (tm_debug_mode s)), empty_cache, 0%nat. intros [d c n] <-.
  unfold Frappe.get_debug_mode. cbn. now rewrite cache_union_empty_l.
Qed.

Lemma cache_writer_get_start_year : cache_writer Frappe.get_start_year.
Proof.
  intros s. exists (Ok (tm_start_year s)), empty_cache, 0%nat. intros [d c n] <-.
  unfold Frappe.get_start_year. cbn. now rewrite cache_union_empty_l.
Qed.

Lemma cache_writer_get_end_year : cache_writer Frappe.get_end_year.
Proof.
  intros s. exists (Ok (tm_end_year s)), empty_cache, 0%nat. intros [d c n] <-.
  unfold Frappe.get_end_year. cbn. now rewrite cache_union_empty_l.
Qed.

Lemma cache_writer_count : cache_writer Builder.count_build_all.
Proof.
  intros s. exists (Ok tt), empty_cache, 1%nat. intros [d c n] <-.
  unfold Builder.count_build_all. cbn. now rewrite cache_union_empty_l.
Qed.

Lemma cache_writer_for_each {A} (l : list A) (body : A -> io unit) :
  (forall x, cache_writer (body x)) -> cache_writer (for_each l body).
Proof.
  intros Hb. induction l as [|x l IH]; cbn [for_each].
  - apply cache_writer_ret.
  - apply cache_writer_bind; auto.
Qed.

Create HintDb writer.
#[local] Hint Resolve cache_writer_ret cache_writer_lift cache_writer_raise
  cache_writer_write_single_week cache_writer_write_single_day
  cache_writer_write_single_year cache_writer_write_years
  cache_writer_get_debug_mode cache_writer_get_start_year cache_writer_get_end_year
  cache_writer_count : writer.

Ltac writer :=
  repeat first
    [ apply cache_writer_bind; [|intros ?]
    | apply cache_writer_for_each; intros ?
    | match goal with |- cache_writer (if ?b then _ else _) => destruct b end
    | match goal with |- cache_writer (match ?x with _ => _ end) => destruct x end
    | solve [auto with writer] ].

Lemma cache_writer_init e y sow : cache_writer (Builder.init e y sow).
Proof. unfold Builder.init. writer. Qed.

Lemma cache_writer_build_weeks_loop fuel : forall self ws wn,
  cache_writer (Builder.build_weeks_loop fuel self ws wn).
Proof.
  induction fuel as [|fuel IH]; intros self ws wn; cbn [Builder.build_weeks_loop].
  - auto with writer.
  - writer; apply IH.
Qed.

Lemma cache_writer_build_weeks self : cache_writer (Builder.build_weeks self).
Proof. unfold Builder.build_weeks. writer. apply cache_writer_build_weeks_loop. Qed.

Lemma cache_writer_build_years self : cache_writer (Builder.build_years self).
Proof. unfold Builder.build_years, Builder.build_year. writer. Qed.

Lemma cache_writer_build_days self : cache_writer (Builder.build_days self).
Proof. unfold Builder.build_days. writer. Qed.

Lemma cache_writer_build_all e y sow : cache_writer (Builder.build_all e y sow).
Proof.
  unfold Builder.build_all.
  apply cache_writer_bind; [apply cache_writer_count|intros _].
  apply cache_writer_bind; [apply cache_writer_init|intros instance].
  apply cache_writer_bind; [apply cache_writer_build_weeks|intros instance'].
  apply cache_writer_bind; [apply cache_writer_build_years|intros _].
  apply cache_writer_build_days.
Qed.

(** C9.  [Builder.build_all] never reads the cache: what it returns and the
    records it writes are those of a run on an empty cache with the same
    arguments and settings, laid over the cache it started from.  Hence a
    second run with the same configuration ends the same way and writes the
    same record under every key: the cache after it is the cache after the
    first run. *)
Theorem build_all_idempotent
    (epoch_year end_year : option Z) (start_of_week : string) (w : world) :
  let run1 := Builder.build_all epoch_year end_year start_of_week w in
  let run2 := Builder.build_all epoch_year end_year start_of_week run1.2 in
  let fresh := Builder.build_all epoch_year end_year start_of_week
                 (mk_world (db w) empty_cache 0) in
  run1.1 = fresh.1
  /\ redis run1.2 = cache_union (redis fresh.2) (redis w)
  /\ db run1.2 = db w
  /\ run2.1 = run1.1
  /\ redis run2.2 = redis run1.2.
Proof.
  intros run1 run2 fresh.
  destruct (cache_writer_build_all epoch_year end_year start_of_week (db w))
    as (r & c & n & Hrun).
  assert (E1 : run1 = (r, mk_world (db w) (cache_union c (redis w))
                                   (n + build_all_calls w)))
    by (apply Hrun; reflexivity).
  assert (Ef : fresh = (r, mk_world (db w) (cache_union c empty_cache) (n + 0)))
    by (apply Hrun; reflexivity).
  assert (E2 : run2 = (r, mk_world (db w) (cache_union c (redis run1.2))
                                   (n + build_all_calls run1.2)))
    by (apply Hrun; rewrite E1; reflexivity).
  rewrite E2, E1, Ef. cbn. rewrite cache_union_empty_r.
  repeat split; try reflexivity.
  now rewrite cache_union_assoc, cache_union_idemp.
Qed.

(** C3 (as amended).  2021-01-03 is a Sunday, two days after January 1st
    2021, a Friday.  Its weekday position (1) is not greater than that of
    January 1st (6), so the early-January case does not apply, and
    [Internals.date_to_week_tuple] returns (2021, 2) by the general case. *)
Theorem date_to_week_tuple_2021_01_03 (verbose : bool) :
  weekday_position (mkdate 2021 1 3) = 1
  /\ weekday_position (mkdate 2021 1 1) = 6
  /\ sub_days (mkdate 2021 1 3) (mkdate 2021 1 1) = 2
  /\ ~ early_january_case (mkdate 2021 1 3)
  /\ Internals.date_to_week_tuple (mkdate 2021 1 3) verbose = Ok (2021, 2).
Proof.
  repeat split; try reflexivity.
  intros [H _]. vm_compute in H. discriminate.
Qed.

(** C3, as stated, does not hold: the result is not (2021, 1). *)
Lemma date_to_week_tuple_2021_01_03_not_week_1 :
  Internals.date_to_week_tuple (mkdate 2021 1 3) false <> Ok (2021, 1).
Proof. vm_compute. discriminate. Qed.

Lemma boundary_conditions d :
  valid_date d -> year d < MAXYEAR ->
  let n := toordinal d in
  let j := jan1_ordinal (year d) in
  let j' := jan1_ordinal (year d + 1) in
  (is_january_first d <-> (day d =? 1) && (month d =? 1) = true)
  /\ (early_january_case d <->
      (n mod 7 + 1 >? j mod 7 + 1) && in_range (n - j) 1 7 = true)
  /\ (late_december_case d <->
      (n mod 7 + 1 <? j' mod 7 + 1) && in_range (j' - n) 1 7 = true)
  /\ j <= n < j' /\ (j' = j + 365 \/ j' = j + 366)
  /\ (is_january_first d <-> n = j).
Proof.
  intros V Hy n j j'.
  pose proof (toordinal_year_bounds d V) as B.
  pose proof (year_length (year d)) as L.
  pose proof (jan1_iff d V) as J.
  unfold is_january_first, early_january_case, late_december_case, weekday_position,
    TDate.day_of_week_int, sub_days, in_range.
  cbn [TDate.as_date]. rewrite !toordinal_jan1.
  fold (jan1_ordinal (year d)) (jan1_ordinal (year d + 1)). fold n j j'.
  unfold jan1_ordinal in *. fold n in B, J.
  rewrite !andb_true_iff, !Z.eqb_eq, Z.gtb_ltb, !Z.ltb_lt, !Z.leb_le.
  repeat split; lia.
Qed.

(** C4 (as amended).  For every date of a year before 9999,
    [Internals.date_to_week_tuple] resolves the three boundary cases as
    stated: a January 1st gives (its year, 1); a date whose weekday position
    (Sunday = 1) is greater than that of its own January 1st and that lies 1
    to 6 days after it gives (its year, 1); a date whose weekday position is
    less than that of next January 1st, with next January 1st 1 to 6 days
    after it, gives (its year + 1, 1).  No date meets the third condition
    together with one of the first two, so the order of the tests does not
    change these results. *)
Theorem date_to_week_tuple_boundary_cases (d : date) (verbose : bool) :
  valid_date d -> year d < MAXYEAR ->
  (is_january_first d ->
     Internals.date_to_week_tuple d verbose = Ok (year d, 1))
  /\ (early_january_case d ->
     Internals.date_to_week_tuple d verbose = Ok (year d, 1))
  /\ (late_december_case d ->
     Internals.date_to_week_tuple d verbose = Ok (year d + 1, 1))
  /\ (late_december_case d -> ~ is_january_first d /\ ~ early_january_case d).
Proof.
  intros V Hy.
  destruct (boundary_conditions d V Hy) as (C1 & C2 & C3 & B & L & J). cbv zeta in *.
  rewrite (date_to_week_tuple_unfold d verbose V Hy). cbv zeta.
  assert (X : late_december_case d -> ~ is_january_first d /\ ~ early_january_case d).
  { intros H3. split.
    - intros H1. apply J in H1. destruct H3 as [_ H3].
      unfold sub_days in H3. rewrite toordinal_jan1 in H3. unfold jan1_ordinal in *. lia.
    - intros [_ H2]. destruct H3 as [_ H3].
      unfold sub_days in H2, H3. rewrite toordinal_jan1 in H2, H3.
      unfold jan1_ordinal in *. lia. }
  repeat split.
  - intros H. apply C1 in H. now rewrite H.
  - intros H. apply C2 in H. rewrite H. now destruct (_ && _).
  - intros H. destruct (X H) as [N1 N2]. apply C3 in H. rewrite H.
    destruct ((day d =? 1) && (month d =? 1)) eqn:E1; [exfalso; now apply N1, C1|].
    destruct ((_ >? _) && _) eqn:E2; [exfalso; now apply N2, C2|]. reflexivity.
  - now apply X.
  - now apply X.
Qed.

(** C4, as stated ("for any January 1st"), does not hold for the last year a
    [date] can have: next January 1st cannot be built. *)
Lemma date_to_week_tuple_january_first_9999 :
  valid_date (mkdate 9999 1 1) /\ is_january_first (mkdate 9999 1 1)
  /\ Internals.date_to_week_tuple (mkdate 9999 1 1) false = Raise ValueError.
Proof. repeat split. Qed.

Lemma date_eqb_toordinal a b :
  valid_date a -> valid_date b -> (date_eqb a b = true <-> toordinal a = toordinal b).
Proof.
  intros Va Vb. unfold date_eqb. rewrite date_compare_toordinal by assumption.
  destruct (Z.compare_spec (toordinal a) (toordinal b)); split; (lia || discriminate || reflexivity).
Qed.

(** C5 (as amended).  For every date of a year before 9999 that none of the
    three boundary cases resolves, [Internals.date_to_week_tuple] returns
    the date's own calendar year and the week number
    floor((day-of-year(date) - day-of-year(first Sunday of the year)) / 7)
    + first_full_week, where first_full_week is 1 if the first Sunday of the
    year is January 1st and 2 otherwise. *)
Theorem date_to_week_tuple_general_case (d : date) (verbose : bool) :
  valid_date d -> year d < MAXYEAR ->
  ~ is_january_first d -> ~ early_january_case d -> ~ late_december_case d ->
  exists first_sunday,
    first_sunday_of_year (year d) first_sunday
    /\ let first_full_week :=
         if date_eqb first_sunday (mkdate (year d) 1 1) then 1 else 2 in
       Internals.date_to_week_tuple d verbose
       = Ok (year d, (yday d - yday first_sunday) / 7 + first_full_week).
Proof.
  intros V Hy N1 N2 N3.
  destruct (boundary_conditions d V Hy) as (C1 & C2 & C3 & B & L & J). cbv zeta in *.
  pose proof (valid_year d V) as Hy1. unfold MAXYEAR in Hy.
  destruct (first_sunday_ok (year d) ltac:(lia)) as (_ & Vs & Es & Ys). cbv zeta in *.
  set (j := jan1_ordinal (year d)) in *. set (n := toordinal d) in *.
  set (j' := jan1_ordinal (year d + 1)) in *.
  set (s := j + (- j) mod 7) in *.
  assert (Hs : s mod 7 = 0 /\ j <= s <= j + 6) by (unfold s; Z.to_euclidean_division_equations; lia).
  assert (Vj : valid_date (mkdate (year d) 1 1)) by (apply jan1_fields_ok; simpl; lia).
  exists (fromordinal s). split.
  - split; [assumption|]. split; [assumption|]. split.
    + unfold weekday. rewrite Es. Z.to_euclidean_division_equations; lia.
    + intros d' V' Y' W'. rewrite !yday_toordinal, Es, Ys, Y'.
      pose proof (toordinal_year_bounds d' V') as B'. rewrite Y' in B'.
      unfold weekday in W'. unfold j, jan1_ordinal in Hs.
      Z.to_euclidean_division_equations; lia.
  - cbv zeta. rewrite (date_to_week_tuple_unfold d verbose V ltac:(unfold MAXYEAR; lia)).
    cbv zeta. fold j n j' s.
    destruct ((day d =? 1) && (month d =? 1)) eqn:E1; [exfalso; now apply N1, C1|].
    destruct ((n mod 7 + 1 >? j mod 7 + 1) && in_range (n - j) 1 7) eqn:E2;
      [exfalso; now apply N2, C2|].
    destruct ((n mod 7 + 1 <? j' mod 7 + 1) && in_range (j' - n) 1 7) eqn:E3;
      [exfalso; now apply N3, C3|].
    assert (Hn : s <= n).
    { assert (n <> j) by (intros E; apply N1, J, E).
      apply andb_false_iff in E2. unfold in_range in E2.
      rewrite andb_false_iff, Z.gtb_ltb, !Z.ltb_ge, Z.leb_gt in E2.
      unfold s. Z.to_euclidean_division_equations; lia. }
    rewrite Z.quot_div_nonneg by lia.
    rewrite !yday_toordinal, Es, Ys. fold n.
    replace (n - days_before_year (year d) - (s - days_before_year (year d))) with (n - s) by lia.
    do 3 f_equal.
    destruct (date_eqb (fromordinal s) (mkdate (year d) 1 1)) eqn:Eq.
    + apply date_eqb_toordinal in Eq; auto. rewrite Es, toordinal_jan1 in Eq.
      fold (jan1_ordinal (year d)) in Eq. fold j in Eq.
      replace (s - j + 1 =? 1) with true by (symmetry; apply Z.eqb_eq; lia). reflexivity.
    + destruct (Z.eqb_spec (s - j + 1) 1) as [E|E]; [|reflexivity].
      assert (Eq' : date_eqb (fromordinal s) (mkdate (year d) 1 1) = true).
      { apply date_eqb_toordinal; auto. rewrite Es, toordinal_jan1.
        fold (jan1_ordinal (year d)). fold j. lia. }
      congruence.
Qed.

(** C5, as stated ("for any date not resolved by the three boundary
    cases"), does not hold in the last year a [date] can have. *)
Lemma date_to_week_tuple_general_case_9999 :
  valid_date (mkdate 9999 6 15)
  /\ ~ is_january_first (mkdate 9999 6 15)
  /\ ~ early_january_case (mkdate 9999 6 15)
  /\ ~ late_december_case (mkdate 9999 6 15)
  /\ Internals.date_to_week_tuple (mkdate 9999 6 15) false = Raise ValueError.
Proof.
  split; [reflexivity|]. split; [intros [H _]; discriminate|].
  split; [intros [_ H]; vm_compute in H; destruct H as [_ H]; apply H; reflexivity|].
  split; [intros [_ H]; vm_compute in H; destruct H as [_ H]; apply H; reflexivity|].
  reflexivity.
Qed.

(** *** What a computation leaves alone *)

Section Keeps.

Variable R : world -> world -> Prop.
Hypothesis R_refl : forall w, R w w.
Hypothesis R_trans : forall a b c, R a b -> R b c -> R a c.

Lemma keeps_ret {A} (a : A) : keeps R (mret a).
Proof. intros w. apply R_refl. Qed.

Lemma keeps_lift {A} (r : result A) : keeps R (lift r).
Proof. intros w. apply R_refl. Qed.

Lemma keeps_raise {A} (e : exn) : keeps R (@raise A e).
Proof. intros w. apply R_refl. Qed.

Lemma keeps_bind {A B} (m : io A) (k : A -> io B) :
  keeps R m -> (forall a, keeps R (k a)) -> keeps R (m ≫= k).
Proof.
  intros Hm Hk w. rewrite io_bind_run. specialize (Hm w).
  destruct (m w) as [[a|e] w1]; cbn in *; [|assumption].
  eapply R_trans; [exact Hm|apply Hk].
Qed.

Lemma keeps_for_each {A} (l : list A) (body : A -> io unit) :
  (forall x, keeps R (body x)) -> keeps R (for_each l body).
Proof.
  intros Hb. induction l as [|x l IH]; cbn [for_each].
  - apply keeps_ret.
  - apply keeps_bind; auto.
Qed.

Lemma keeps_get_debug_mode : keeps R Frappe.get_debug_mode.
Proof. intros w. apply R_refl. Qed.

Lemma keeps_get_start_year : keeps R Frappe.get_start_year.
Proof. intros w. apply R_refl. Qed.

Lemma keeps_get_end_year : keeps R Frappe.get_end_year.
Proof. intros w. apply R_refl. Qed.

Lemma keeps_init e y sow : keeps R (Builder.init e y sow).
Proof.
  unfold Builder.init.
  repeat first
    [ apply keeps_bind; [|intros ?]
    | match goal with |- keeps R (if ?b then _ else _) => destruct b end
    | apply keeps_ret | apply keeps_raise
    | apply keeps_get_debug_mode | apply keeps_get_start_year | apply keeps_get_end_year ].
Qed.

End Keeps.

Lemma same_settings_refl w : same_settings w w.
Proof. split; reflexivity. Qed.

Lemma same_settings_trans a b c : same_settings a b -> same_settings b c -> same_settings a c.
Proof. unfold same_settings. intros [] []. split; congruence. Qed.

Lemma only_weeks_refl w : only_weeks w w.
Proof. repeat split; reflexivity. Qed.

Lemma only_weeks_trans a b c : only_weeks a b -> only_weeks b c -> only_weeks a c.
Proof. unfold only_weeks, same_settings. intros [[] (?&?&?)] [[] (?&?&?)]. repeat split; congruence. Qed.

Lemma only_years_refl w : only_years w w.
Proof. repeat split; reflexivity. Qed.

Lemma only_years_trans a b c : only_years a b -> only_years b c -> only_years a c.
Proof. unfold only_years, same_settings. intros [[] (?&?)] [[] (?&?)]. repeat split; congruence. Qed.

Lemma only_days_refl w : only_days w w.
Proof. repeat split; reflexivity. Qed.

Lemma only_days_trans a b c : only_days a b -> only_days b c -> only_days a c.
Proof. unfold only_days, same_settings. intros [[] (?&?&?)] [[] (?&?&?)]. repeat split; congruence. Qed.

Lemma keeps_write_single_week wd : keeps only_weeks (Redis.write_single_week wd).
Proof. intros w. repeat split. Qed.

Lemma keeps_write_single_year yd b : keeps only_years (Redis.write_single_year yd b).
Proof. intros w. repeat split. Qed.

Lemma keeps_write_years ys b : keeps only_years (Redis.write_years ys b).
Proof. intros w. repeat split. Qed.

Lemma keeps_write_single_day d : keeps only_days (Redis.write_single_day d).
Proof. intros w. repeat split. Qed.

(** One tactic for the three phases: [refl] and [trans] are the two facts
    of the relation at hand, [leaf] closes the writes of the phase. *)
Ltac keeps_steps refl trans leaf :=
  repeat first
    [ leaf
    | eapply keeps_bind; [exact trans| |intros ?]
    | eapply keeps_for_each; [exact refl|exact trans|intros ?]
    | match goal with |- keeps _ (if ?b then _ else _) => destruct b end
    | match goal with |- keeps _ (match ?x with _ => _ end) => destruct x end
    | apply keeps_ret; exact refl
    | apply keeps_raise; exact refl
    | apply keeps_lift; exact refl ].

Lemma keeps_build_weeks_loop fuel : forall self ws wn,
  keeps only_weeks (Builder.build_weeks_loop fuel self ws wn).
Proof.
  induction fuel as [|fuel IH]; intros self ws wn; cbn [Builder.build_weeks_loop].
  - apply keeps_raise, only_weeks_refl.
  - keeps_steps only_weeks_refl only_weeks_trans
      ltac:(first [apply keeps_write_single_week | apply IH]).
Qed.

Lemma keeps_build_weeks self : keeps only_weeks (Builder.build_weeks self).
Proof.
  unfold Builder.build_weeks.
  keeps_steps only_weeks_refl only_weeks_trans ltac:(apply keeps_build_weeks_loop).
Qed.

Lemma keeps_build_year self y : keeps only_years (Builder.build_year self y).
Proof.
  unfold Builder.build_year.
  keeps_steps only_years_refl only_years_trans ltac:(apply keeps_write_single_year).
Qed.

Lemma keeps_build_years self : keeps only_years (Builder.build_years self).
Proof.
  unfold Builder.build_years.
  keeps_steps only_years_refl only_years_trans
    ltac:(first [apply keeps_write_years | apply keeps_build_year]).
Qed.

Lemma keeps_build_days self : keeps only_days (Builder.build_days self).
Proof.
  unfold Builder.build_days.
  keeps_steps only_days_refl only_days_trans ltac:(apply keeps_write_single_day).
Qed.

Lemma keeps_weaken {A} (R R' : world -> world -> Prop) (m : io A) :
  (forall a b, R a b -> R' a b) -> keeps R m -> keeps R' m.
Proof. intros H Hm w. apply H, Hm. Qed.

Lemma keeps_settings_build_phases e y sow :
  keeps same_settings
    (instance ← Builder.init e y sow;
     instance ← Builder.build_weeks instance;
     Builder.build_years instance;;
     Builder.build_days instance).
Proof.
  apply keeps_bind; [exact same_settings_trans| |intros self].
  { apply keeps_init; [exact same_settings_refl|exact same_settings_trans]. }
  apply keeps_bind; [exact same_settings_trans| |intros self'].
  { eapply keeps_weaken; [|apply keeps_build_weeks]. now intros a b [H _]. }
  apply keeps_bind; [exact same_settings_trans| |intros _].
  { eapply keeps_weaken; [|apply keeps_build_years]. now intros a b [H _]. }
  eapply keeps_weaken; [|apply keeps_build_days]. now intros a b [H _].
Qed.

(** A build counts as one build and leaves the settings alone, however it
    ends. *)
Lemma build_all_counts e y sow w :
  db (Builder.build_all e y sow w).2 = db w
  /\ build_all_calls (Builder.build_all e y sow w).2 = S (build_all_calls w).
Proof.
  unfold Builder.build_all. rewrite io_bind_run. cbn [Builder.count_build_all].
  pose proof (keeps_settings_build_phases e y sow
                (mk_world (db w) (redis w) (S (build_all_calls w)))) as [H1 H2].
  cbn in H1, H2. split; assumption.
Qed.

(** *** [get_week_by_weeknum] *)

Lemma get_week_by_weeknum_hit year week_number w wd :
  weeks (redis w) !! (year, week_number) = Some wd ->
  get_week_by_weeknum year week_number w
  = (Ok (Some (Week.init (wk_year wd) (wk_week_number wd) (wk_week_dates wd)
                         (wk_week_start wd) (wk_week_end wd))), w).
Proof.
  intros H. unfold get_week_by_weeknum, Redis.read_single_week.
  rewrite io_bind_run, H. reflexivity.
Qed.

Lemma get_week_by_weeknum_miss_run year week_number w :
  weeks (redis w) !! (year, week_number) = None ->
  get_week_by_weeknum year week_number w =
  match Builder.build_all None None "SUN" w with
  | (Ok _, w1) => (if tm_debug_mode (db w1) then Raise KeyError else Ok None, w1)
  | (Raise e, w1) => (Raise e, w1)
  end.
Proof.
  intros H. unfold get_week_by_weeknum, Redis.read_single_week.
  rewrite io_bind_run, H, io_bind_run.
  destruct (Builder.build_all None None "SUN" w) as [[[]|e] w1]; [|reflexivity].
  rewrite io_bind_run. cbn [Frappe.get_debug_mode py_not andb].
  now destruct (tm_debug_mode (db w1)).
Qed.

(** C2 (as amended).  On a cache miss [get_week_by_weeknum] starts exactly
    one full rebuild and ends in the world that rebuild leaves.  If the
    rebuild raises, so does the function.  If the rebuild completes and the
    record is still absent, the function raises [KeyError] when the
    debug_mode setting is on and returns [None], not an error, when it is
    off. *)
Theorem get_week_by_weeknum_miss (year week_number : Z) (w : world) :
  weeks (redis w) !! (year, week_number) = None ->
  let rebuilt := Builder.build_all None None "SUN" w in
  let out := get_week_by_weeknum year week_number w in
  out.2 = rebuilt.2
  /\ build_all_calls out.2 = S (build_all_calls w)
  /\ (forall e, rebuilt.1 = Raise e -> out.1 = Raise e)
  /\ (rebuilt.1 = Ok tt ->
      weeks (redis rebuilt.2) !! (year, week_number) = None ->
      out.1 = if tm_debug_mode (db w) then Raise KeyError else Ok None).
Proof.
  intros Hmiss rebuilt out. unfold out.
  rewrite (get_week_by_weeknum_miss_run _ _ _ Hmiss). fold rebuilt.
  destruct (build_all_counts None None "SUN" w) as [Hdb Hcalls]. fold rebuilt in Hdb, Hcalls.
  destruct rebuilt as [[[]|e] w1]; cbn in *.
  - repeat split; auto; try discriminate. intros _ _. now rewrite Hdb.
  - repeat split; auto; try discriminate. now intros e' [= ->].
Qed.

(** *** [get_weeks_as_dict] *)

Lemma read_weeks_total year (l : list Z) : forall (acc : io (list week_dict)) w,
  (exists x, acc w = (Ok x, w)) ->
  exists x,
    foldl (fun acc week_num =>
             weeks_list ← acc;
             week_dict ← Redis.read_single_week year week_num;
             match week_dict with
             | Some week_dict => mret (weeks_list ++ [week_dict])
             | None => mret weeks_list
             end) acc l w = (Ok x, w).
Proof.
  induction l as [|n l IH]; intros acc w [x Hx]; cbn [foldl].
  - eauto.
  - apply IH. rewrite io_bind_run, Hx, io_bind_run. unfold Redis.read_single_week.
    destruct (weeks (redis w) !! (year, n)); eauto.
Qed.

(** The arguments [get_weeks_as_dict] accepts. *)
Lemma get_weeks_as_dict_accepts year from_week_num to_week_num w :
  (exists l, get_weeks_as_dict year from_week_num to_week_num w = (Ok l, w))
  <-> 2000 <= year <= 2200 /\ 1 <= from_week_num <= 53 /\ 1 <= to_week_num <= 53.
Proof.
  unfold get_weeks_as_dict, in_range, MIN_YEAR, MAX_YEAR.
  destruct (Z.leb_spec 2000 year); destruct (Z.ltb_spec year 2201);
  destruct (Z.leb_spec 1 from_week_num); destruct (Z.ltb_spec from_week_num 54);
  destruct (Z.leb_spec 1 to_week_num); destruct (Z.ltb_spec to_week_num 54);
  cbn [andb negb];
  try (split; [intros [l [=]]|lia]).
  split; [lia|]. intros _. apply read_weeks_total. eauto.
Qed.

(** C8, at the input where the code departs from it: the year 2201 lies in
    the interval from [MIN_YEAR] to [MAX_YEAR], both included, and
    [get_weeks_as_dict] raises for it, with week numbers in range. *)
Theorem get_weeks_as_dict_rejects_max_year (w : world) :
  MIN_YEAR <= 2201 <= MAX_YEAR
  /\ get_weeks_as_dict 2201 1 1 w = (Raise Exception, w).
Proof. split; [unfold MIN_YEAR, MAX_YEAR; lia|reflexivity]. Qed.

(** *** [get_week_by_anydate] *)

Lemma get_week_by_anydate_hit d w dd wd :
  days (redis w) !! date_to_datekey d = Some dd ->
  weeks (redis w) !! (dy_week_year dd, dy_week_number dd) = Some wd ->
  get_week_by_anydate d w
  = (Ok (Week.init (wk_year wd) (wk_week_number wd) (wk_week_dates wd)
                   (wk_week_start wd) (wk_week_end wd)), w).
Proof.
  intros Hd Hw. unfold get_week_by_anydate, get_date_metadata, Redis.read_single_day.
  rewrite io_bind_run, Hd, io_bind_run, io_ret_run, io_bind_run.
  rewrite (get_week_by_weeknum_hit _ _ _ _ Hw). reflexivity.
Qed.

(** When [get_week_by_anydate] returns a Week, the cache it leaves resolves
    the date: it holds the Day record of the date and the Week record the
    Day record names, and the Week returned is made of that record. *)
Lemma get_week_by_anydate_ok d w wk w' :
  get_week_by_anydate d w = (Ok wk, w') ->
  exists dd wd,
    days (redis w') !! date_to_datekey d = Some dd
    /\ weeks (redis w') !! (dy_week_year dd, dy_week_number dd) = Some wd
    /\ wk = Week.init (wk_year wd) (wk_week_number wd) (wk_week_dates wd)
                      (wk_week_start wd) (wk_week_end wd).
Proof.
  unfold get_week_by_anydate, get_date_metadata, Redis.read_single_day.
  rewrite io_bind_run.
  assert (Hweek : forall dd w1,
    days (redis w1) !! date_to_datekey d = Some dd ->
    (result_week ← get_week_by_weeknum (dy_week_year dd) (dy_week_number dd);
     match result_week with
     | Some result_week => mret result_week
     | None => raise Exception
     end) w1 = (Ok wk, w') ->
    exists dd wd,
      days (redis w') !! date_to_datekey d = Some dd
      /\ weeks (redis w') !! (dy_week_year dd, dy_week_number dd) = Some wd
      /\ wk = Week.init (wk_year wd) (wk_week_number wd) (wk_week_dates wd)
                        (wk_week_start wd) (wk_week_end wd)).
  { intros dd w1 Hdd. rewrite io_bind_run.
    destruct (weeks (redis w1) !! (dy_week_year dd, dy_week_number dd)) as [wd|] eqn:Hwd.
    - rewrite (get_week_by_weeknum_hit _ _ _ _ Hwd). intros [= <- <-]. eauto.
    - rewrite (get_week_by_weeknum_miss_run _ _ _ Hwd).
      destruct (Builder.build_all None None "SUN" w1) as [[[]|e] w2]; [|discriminate].
      destruct (tm_debug_mode (db w2)); discriminate. }
  destruct (days (redis w) !! date_to_datekey d) as [dd|] eqn:Hdd.
  - rewrite io_bind_run, io_ret_run. apply Hweek. assumption.
  - rewrite io_bind_run, io_bind_run.
    destruct (Builder.build_all None None "SUN" w) as [[[]|e] w1]; [|discriminate].
    rewrite io_bind_run.
    destruct (days (redis w1) !! date_to_datekey d) as [dd|] eqn:Hdd1; [|discriminate].
    rewrite io_ret_run. apply Hweek. assumption.
Qed.

(** *** [week_generator] *)

Lemma gen_bind_run {Y A B : Type} (m : gen Y A) (k : A -> gen Y B) (w : world) :
  (m ≫= k) w =
  match m w with
  | (ys, (Ok a, w')) => let '(ys', r) := k a w' in (ys ++ ys', r)
  | (ys, (Raise e, w')) => (ys, (Raise e, w'))
  end.
Proof. reflexivity. Qed.

Lemma run_run {Y A : Type} (m : io A) (w : world) : @run Y A m w = ([], m w).
Proof. reflexivity. Qed.

Lemma seqZ_one (n : Z) : seqZ n (n + 1 - n) = [n].
Proof. replace (n + 1 - n) with 1 by lia. reflexivity. Qed.

(** C10.  When [from_date] equals [to_date] and [get_week_by_anydate]
    resolves that date to a Week (in a cache whose Week records sit under
    their own year and number), [week_generator] yields two elements and
    both are that Week: once from the test for equal dates, once more from
    the loop over the weeks, which the test does not skip. *)
Theorem week_generator_same_date (d : date) (w w' : world) (wk : Week.t) :
  get_week_by_anydate d w = (Ok wk, w') ->
  well_keyed (redis w') ->
  week_generator d d w = ([Some wk; Some wk], (Ok tt, w')).
Proof.
  intros Hfirst Hkeyed.
  destruct (get_week_by_anydate_ok _ _ _ _ Hfirst) as (dd & wd & Hd & Hw & Hwk).
  pose proof (get_week_by_anydate_hit d w' dd wd Hd Hw) as Hagain. rewrite <- Hwk in Hagain.
  destruct (Hkeyed _ _ _ Hw) as [Ey En].
  assert (Hnum : get_week_by_weeknum (Week.week_year wk) (Week.week_number wk) w'
                 = (Ok (Some wk), w')).
  { rewrite Hwk at 1 2. cbn [Week.week_year Week.week_number Week.init].
    rewrite Ey, En, (get_week_by_weeknum_hit _ _ _ _ Hw), <- Hwk. reflexivity. }
  unfold week_generator.
  rewrite date_ltb_irrefl, date_eqb_refl.
  rewrite gen_bind_run. cbn [mret gen_ret].
  rewrite gen_bind_run, gen_bind_run, run_run, Hfirst. cbn [yield app].
  rewrite gen_bind_run, run_run, Hagain.
  rewrite gen_bind_run, run_run, Hagain.
  rewrite seqZ_one. cbn [gen_for_each].
  rewrite gen_bind_run, gen_bind_run, run_run. cbn [Redis.read_single_year].
  rewrite Z.eqb_refl.
  rewrite gen_bind_run. cbn [mret gen_ret].
  rewrite seqZ_one. cbn [gen_for_each].
  rewrite gen_bind_run, gen_bind_run, run_run, Hnum. cbn [yield app mret gen_ret].
  reflexivity.
Qed.

(** *** Week records stay under their own keys *)

Lemma keeps_keying_refl w : keeps_keying w w.
Proof. intros H. exact H. Qed.

Lemma keeps_keying_trans a b c : keeps_keying a b -> keeps_keying b c -> keeps_keying a c.
Proof. unfold keeps_keying. auto. Qed.

Lemma same_weeks_keeps_keying a b : weeks (redis b) = weeks (redis a) -> keeps_keying a b.
Proof. intros E H y n wd. rewrite E. apply H. Qed.

Lemma well_keyed_empty : well_keyed empty_cache.
Proof. intros y n wd H. cbn in H. rewrite lookup_empty in H. discriminate. Qed.

Lemma keeps_keying_write_single_week wd : keeps keeps_keying (Redis.write_single_week wd).
Proof.
  intros w H y n wd'. cbn.
  destruct (decide ((wk_year wd, wk_week_number wd) = (y, n))) as [E|N].
  - rewrite E, lookup_insert_eq. intros [= <-]. now injection E.
  - rewrite lookup_insert_ne by assumption. apply H.
Qed.

Lemma keeps_keying_build_weeks_loop fuel : forall self ws wn,
  keeps keeps_keying (Builder.build_weeks_loop fuel self ws wn).
Proof.
  induction fuel as [|fuel IH]; intros self ws wn; cbn [Builder.build_weeks_loop].
  - apply keeps_raise, keeps_keying_refl.
  - keeps_steps keeps_keying_refl keeps_keying_trans
      ltac:(first [apply keeps_keying_write_single_week | apply IH]).
Qed.

Lemma keeps_keying_build_weeks self : keeps keeps_keying (Builder.build_weeks self).
Proof.
  unfold Builder.build_weeks.
  keeps_steps keeps_keying_refl keeps_keying_trans ltac:(apply keeps_keying_build_weeks_loop).
Qed.

(** A build keeps the Week records of the cache under their own keys,
    however it ends. *)
Lemma build_all_keeps_keying e y sow : keeps keeps_keying (Builder.build_all e y sow).
Proof.
  unfold Builder.build_all.
  apply keeps_bind; [exact keeps_keying_trans| |intros _].
  { intros w. now apply same_weeks_keeps_keying. }
  apply keeps_bind; [exact keeps_keying_trans| |intros self].
  { apply keeps_init; [exact keeps_keying_refl|exact keeps_keying_trans]. }
  apply keeps_bind; [exact keeps_keying_trans| |intros self'].
  { apply keeps_keying_build_weeks. }
  apply keeps_bind; [exact keeps_keying_trans| |intros _].
  { eapply keeps_weaken; [|apply keeps_build_years].
    intros a b (_ & _ & E). now apply same_weeks_keeps_keying. }
  eapply keeps_weaken; [|apply keeps_build_days].
  intros a b (_ & E & _). now apply same_weeks_keeps_keying.
Qed.

Lemma ok_run_eta {A : Type} (run : result A * world) (a : A) :
  run.1 = Ok a -> run = (Ok a, run.2).
Proof. destruct run as [r w]. cbn. now intros ->. Qed.

Lemma builder_after_eta (run : result Builder.t * world) (self : Builder.t) :
  is_ok run.1 = true -> run = (Ok (builder_after run self), run.2).
Proof. destruct run as [[a|e] w]; cbn; [reflexivity|discriminate]. Qed.

Lemma unit_run_eta (run : result unit * world) :
  is_ok run.1 = true -> run = (Ok tt, run.2).
Proof. destruct run as [[[]|e] w]; cbn; [reflexivity|discriminate]. Qed.

(** *** Day keys name their date *)

Lemma string_app_length (a b : string) :
  String.length (a +:+ b) = (String.length a + String.length b)%nat.
Proof. induction a as [|c a IH]; simpl; [reflexivity|f_equal; exact IH]. Qed.

Lemma string_app_inj (a b c d : string) :
  String.length c = String.length d -> a +:+ c = b +:+ d -> a = b /\ c = d.
Proof.
  revert b. induction a as [|x a IH]; intros [|y b] Hlen H.
  - auto.
  - exfalso. apply (f_equal String.length) in H.
    rewrite !string_app_length in H. simpl in H. lia.
  - exfalso. apply (f_equal String.length) in H.
    rewrite !string_app_length in H. simpl in H. lia.
  - change (String x (a +:+ c) = String y (b +:+ d)) in H.
    injection H as -> H. destruct (IH b Hlen H) as [-> ->]. auto.
Qed.

Lemma two_digits_ok_all n : 0 <= n < 32 -> two_digits_ok n = true.
Proof.
  intros H. apply (Z_range_forallb two_digits_ok 32%nat); [vm_compute; reflexivity|lia].
Qed.

Lemma two_digits_length n : 0 <= n < 32 -> String.length (two_digits n) = 2%nat.
Proof.
  intros H. pose proof (two_digits_ok_all n H) as Hok.
  apply andb_prop in Hok. destruct Hok as [Hok _]. now apply Nat.eqb_eq.
Qed.

Lemma two_digits_inj n m :
  0 <= n < 32 -> 0 <= m < 32 -> two_digits n = two_digits m -> n = m.
Proof.
  intros Hn Hm E. pose proof (two_digits_ok_all n Hn) as Hok.
  apply andb_prop in Hok. destruct Hok as [_ Hok].
  rewrite forallb_forall in Hok.
  assert (Hin : In (Z.to_nat m) (seq 0%nat 32%nat)) by (apply in_seq; lia).
  specialize (Hok _ Hin).
  rewrite Z2Nat.id in Hok by lia. rewrite <- E, String.eqb_refl in Hok.
  apply Z.eqb_eq. exact Hok.
Qed.

Lemma valid_month_day d :
  valid_date d -> 1 <= month d <= 12 /\ 1 <= day d <= 31.
Proof.
  intros V. apply valid_date_iff in V. destruct d as [y m dd]. cbn in V.
  destruct V as (_ & Hm & Hd). cbn.
  split; [assumption|]. unfold days_in_month in Hd.
  month_split Hm; destruct (is_leap y); cbn in Hd; lia.
Qed.

Lemma string_app_inv_l (p x y : string) : p +:+ x = p +:+ y -> x = y.
Proof.
  induction p as [|c p IH]; intros H; [exact H|].
  change (String c (p +:+ x) = String c (p +:+ y)) in H.
  injection H as H. auto.
Qed.

Lemma key_shape_inj (p y1 m1 d1 y2 m2 d2 : string) :
  String.length m1 = String.length m2 -> String.length d1 = String.length d2 ->
  p +:+ y1 +:+ "-" +:+ m1 +:+ "-" +:+ d1 = p +:+ y2 +:+ "-" +:+ m2 +:+ "-" +:+ d2 ->
  y1 = y2 /\ m1 = m2 /\ d1 = d2.
Proof.
  intros Hm Hd H. apply string_app_inv_l in H.
  apply string_app_inj in H.
  2:{ rewrite !string_app_length. simpl. lia. }
  destruct H as [-> H]. apply string_app_inv_l in H.
  apply string_app_inj in H.
  2:{ rewrite !string_app_length. simpl. lia. }
  destruct H as [-> H]. apply string_app_inv_l in H. auto.
Qed.

Lemma date_to_datekey_inj a b :
  valid_date a -> valid_date b -> date_to_datekey a = date_to_datekey b -> a = b.
Proof.
  intros Va Vb H.
  destruct (valid_month_day a Va) as [Hma Hda], (valid_month_day b Vb) as [Hmb Hdb].
  destruct (key_shape_inj "temporal/day/"
              (pretty (year a)) (two_digits (month a)) (two_digits (day a))
              (pretty (year b)) (two_digits (month b)) (two_digits (day b)))
    as (Hy & Hm & Hd).
  - rewrite !two_digits_length by lia. reflexivity.
  - rewrite !two_digits_length by lia. reflexivity.
  - exact H.
  - apply (inj pretty) in Hy. apply two_digits_inj in Hm, Hd; try lia.
    destruct a, b. cbn in *. congruence.
Qed.

(** *** The Week records in the cache after a build *)

Lemma week_key_inj s s' :
  s mod 7 = 0 -> s' mod 7 = 0 ->
  year_of (s + 6) = year_of (s' + 6) ->
  week_number_of_sunday s = week_number_of_sunday s' ->
  s = s'.
Proof.
  intros Hs Hs' Ey En. rewrite !week_number_of_sunday_eq, Ey in En.
  rewrite !sunday_on_or_before_eq in En.
  generalize dependent (jan1_ordinal (year_of (s' + 6))). clear Ey.
  intros j En. Z.to_euclidean_division_equations; lia.
Qed.

Lemma write_weeks_weeks l w :
  weeks (redis (write_weeks l w))
  = foldl (fun m wk => <[ (wk_year wk, wk_week_number wk) := wk ]> m) (weeks (redis w)) l.
Proof. reflexivity. Qed.

Lemma foldl_insert_lookup (l : list week_dict) : forall (m : gmap (Z * Z) week_dict) wk,
  (forall a b, a ∈ l -> b ∈ l ->
     (wk_year a, wk_week_number a) = (wk_year b, wk_week_number b) -> a = b) ->
  wk ∈ l ->
  foldl (fun m wk => <[ (wk_year wk, wk_week_number wk) := wk ]> m) m l
    !! (wk_year wk, wk_week_number wk) = Some wk.
Proof.
  induction l as [|a l IH] using rev_ind; intros m wk Hinj Hin.
  - inversion Hin.
  - rewrite foldl_app. cbn [foldl].
    destruct (decide ((wk_year a, wk_week_number a) = (wk_year wk, wk_week_number wk))) as [E|N].
    + rewrite E, lookup_insert_eq. f_equal. apply Hinj; auto.
      * apply elem_of_app. right. apply list_elem_of_singleton. reflexivity.
    + rewrite lookup_insert_ne by assumption. apply IH.
      * intros x y Hx Hy. apply Hinj; apply elem_of_app; auto.
      * apply elem_of_app in Hin. destruct Hin as [Hin|Hin]; [assumption|].
        apply list_elem_of_singleton in Hin. subst. contradiction.
Qed.

Lemma weeks_from_lookup s k w (i : nat) :
  s mod 7 = 0 -> (i < k)%nat ->
  weeks (redis (write_weeks (weeks_from s k) w))
    !! (year_of (s + 7 * Z.of_nat i + 6), week_number_of_sunday (s + 7 * Z.of_nat i))
  = Some (week_of_sunday (s + 7 * Z.of_nat i)).
Proof.
  intros Hs Hi. rewrite write_weeks_weeks.
  apply (foldl_insert_lookup (weeks_from s k) _ (week_of_sunday (s + 7 * Z.of_nat i))).
  - intros a b Ha Hb E. apply elem_of_weeks_from in Ha, Hb.
    destruct Ha as (ia & _ & ->), Hb as (ib & _ & ->).
    cbn [wk_year wk_week_number week_of_sunday] in E. injection E as Ey En.
    f_equal. apply week_key_inj; auto; Z.to_euclidean_division_equations; lia.
  - apply elem_of_weeks_from. eauto.
Qed.

(** *** The Day records in the cache after a build *)

Lemma build_day_run d w :
  build_day (Ok d) w =
  match Internals.date_to_week_tuple d false with
  | Ok t => Redis.write_single_day (day_dict_of d t) w
  | Raise e => (Raise e, w)
  end.
Proof.
  unfold build_day. rewrite io_bind_run, lift_run, io_bind_run, lift_run.
  destruct (Internals.date_to_week_tuple d false); reflexivity.
Qed.

Lemma build_day_resolves d w w' :
  valid_date d -> build_day (Ok d) w = (Ok tt, w') ->
  day_resolved d w'
  /\ forall d0, valid_date d0 -> day_resolved d0 w -> day_resolved d0 w'.
Proof.
  intros V. rewrite build_day_run.
  destruct (Internals.date_to_week_tuple d false) as [t|] eqn:Et; [|discriminate].
  intros [= <-].
  assert (Hnew : day_resolved d (Redis.write_single_day (day_dict_of d t) w).2).
  { exists (day_dict_of d t). cbn. split; [apply lookup_insert_eq|].
    split; [reflexivity|]. now destruct t. }
  split; [exact Hnew|].
  intros d0 V0 (dd & Hl & Hd & Ht).
  destruct (decide (date_to_datekey d0 = date_to_datekey d)) as [E|N].
  - apply date_to_datekey_inj in E; auto. subst. exact Hnew.
  - exists dd. cbn. split; [|auto]. rewrite lookup_insert_ne; auto.
Qed.

Lemma for_each_build_day_resolves (rs : list (result date)) : forall w w',
  (forall d, Ok d ∈ rs -> valid_date d) ->
  for_each rs build_day w = (Ok tt, w') ->
  (forall d0, valid_date d0 -> day_resolved d0 w -> day_resolved d0 w')
  /\ (forall d, Ok d ∈ rs -> day_resolved d w').
Proof.
  induction rs as [|r rs IH]; intros w w' Hvalid Hrun; cbn [for_each] in Hrun.
  - injection Hrun as <-. split; [auto|]. intros d Hd. inversion Hd.
  - rewrite io_bind_run in Hrun.
    destruct (build_day r w) as [[[]|e] w1] eqn:Hbody; [|discriminate].
    destruct r as [d|e]; [|discriminate].
    assert (Vd : valid_date d) by (apply Hvalid, list_elem_of_here).
    destruct (build_day_resolves d w w1 Vd Hbody) as [Hd Hkeep].
    destruct (IH w1 w') as [Hkeep' Hall]; auto.
    { intros d' Hd'. apply Hvalid, list_elem_of_further, Hd'. }
    split.
    + intros d0 V0 H0. auto.
    + intros d' Hd'. apply elem_of_cons in Hd'. destruct Hd' as [[= ->]|Hd']; auto.
Qed.

Lemma date_range_valid start_date end_date d :
  valid_date start_date -> Ok d ∈ date_range start_date end_date -> valid_date d.
Proof.
  intros V H. unfold date_range in H. apply list_elem_of_fmap in H.
  destruct H as (i & Hi & _). symmetry in Hi.
  apply add_days_inv in Hi; tauto.
Qed.

Lemma date_range_elem start_date end_date d :
  valid_date start_date -> valid_date end_date -> valid_date d ->
  toordinal start_date <= toordinal d <= toordinal end_date ->
  Ok d ∈ date_range start_date end_date.
Proof.
  intros Vs Ve V H. unfold date_range, sub_days. apply list_elem_of_fmap.
  exists (toordinal d - toordinal start_date). split.
  - rewrite add_days_ok; auto.
    + f_equal. replace (toordinal start_date + (toordinal d - toordinal start_date))
        with (toordinal d) by lia. symmetry. now apply fromordinal_toordinal.
    + pose proof (toordinal_range d V). lia.
  - apply elem_of_seqZ. lia.
Qed.

Lemma build_days_resolves self w w' :
  Builder.build_days self w = (Ok tt, w') ->
  forall d, valid_date d ->
    Builder.epoch_year self <= year d <= Builder.end_year self ->
    day_resolved d w'.
Proof.
  intros Hrun d V Hy. unfold Builder.build_days in Hrun.
  rewrite io_bind_run, lift_run in Hrun.
  destruct (new_date (Builder.epoch_year self) 1 1) as [start_date|] eqn:Es; [|discriminate].
  apply new_date_inv in Es. destruct Es as [-> Vs].
  rewrite io_bind_run, lift_run in Hrun.
  destruct (new_date (Builder.end_year self) 12 31) as [end_date|] eqn:Ee; [|discriminate].
  apply new_date_inv in Ee. destruct Ee as [-> Ve].
  change (for_each (date_range (mkdate (Builder.epoch_year self) 1 1)
                               (mkdate (Builder.end_year self) 12 31))
                   build_day w = (Ok tt, w')) in Hrun.
  apply for_each_build_day_resolves in Hrun.
  - destruct Hrun as [_ Hall]. apply Hall.
    apply date_range_elem; auto.
    rewrite toordinal_jan1, toordinal_dec31.
    pose proof (toordinal_year_bounds d V) as B.
    pose proof (days_before_year_mono (Builder.epoch_year self) (year d) ltac:(lia)).
    pose proof (days_before_year_mono (year d + 1) (Builder.end_year self + 1) ltac:(lia)).
    lia.
  - intros d' Hd'. eapply date_range_valid; [|exact Hd']. exact Vs.
Qed.

Lemma init_inv e y sow w self w' :
  Builder.init e y sow w = (Ok self, w') ->
  w' = w /\ Builder.week_dicts self = []
  /\ Builder.epoch_year self <= Builder.end_year self.
Proof.
  unfold Builder.init. rewrite io_bind_run. cbn [Frappe.get_debug_mode].
  destruct (negb _); [discriminate|].
  destruct (negb _); [discriminate|].
  rewrite io_bind_run.
  set (m1 := if Builder.falsy e then _ else _).
  assert (H1 : exists a, m1 w = (Ok a, w)).
  { unfold m1. destruct (Builder.falsy e); eauto. }
  destruct H1 as [a ->]. rewrite io_bind_run.
  set (m2 := if Builder.falsy y then _ else _).
  assert (H2 : exists b, m2 w = (Ok b, w)).
  { unfold m2. destruct (Builder.falsy y); eauto. }
  destruct H2 as [b ->].
  destruct (Z.ltb_spec b a); [discriminate|].
  intros [= <- <-]. cbn. auto.
Qed.

Lemma init_depends_on_settings e y sow w w' :
  db w = db w' -> (Builder.init e y sow w).1 = (Builder.init e y sow w').1.
Proof.
  intros H. destruct (cache_writer_init e y sow (db w)) as (r & c & n & Hrun).
  rewrite (Hrun w eq_refl), (Hrun w' (eq_sym H)). reflexivity.
Qed.

(** The phases of a completed build. *)
Lemma build_all_phases e y sow w w1 :
  Builder.build_all e y sow w = (Ok tt, w1) ->
  exists self self' wc w3 w4,
    db wc = db w
    /\ Builder.init e y sow wc = (Ok self, wc)
    /\ Builder.build_weeks self wc = (Ok self', w3)
    /\ Builder.build_years self' w3 = (Ok tt, w4)
    /\ Builder.build_days self' w4 = (Ok tt, w1).
Proof.
  unfold Builder.build_all. rewrite io_bind_run. cbn [Builder.count_build_all].
  set (wc := mk_world (db w) (redis w) (S (build_all_calls w))).
  rewrite io_bind_run.
  destruct (Builder.init e y sow wc) as [[self|] w2] eqn:Hinit; [|discriminate].
  destruct (init_inv _ _ _ _ _ _ Hinit) as (-> & _).
  rewrite io_bind_run.
  destruct (Builder.build_weeks self wc) as [[self'|] w3] eqn:Hweeks; [|discriminate].
  rewrite io_bind_run.
  destruct (Builder.build_years self' w3) as [[[]|] w4] eqn:Hyears; [|discriminate].
  intros Hdays. exists self, self', wc, w3, w4. auto.
Qed.

(** The built week of a date of the epoch range, and the week tuple of the
    date. *)
Lemma epoch_date_week (epoch_year end_year : Z) (k : nat) (d : date) :
  1 <= epoch_year ->
  1 <= sunday_on_or_before (jan1_ordinal epoch_year) ->
  sunday_on_or_before (jan1_ordinal epoch_year) mod 7 = 0 ->
  sunday_on_or_before (jan1_ordinal epoch_year) + 7 * Z.of_nat k <= MAXORDINAL ->
  end_year < year_of (sunday_on_or_before (jan1_ordinal epoch_year) + 7 * Z.of_nat k) ->
  valid_date d -> epoch_year <= year d <= end_year ->
  exists i : nat,
    (i < k)%nat
    /\ d ∈ wk_week_dates
            (week_of_sunday (sunday_on_or_before (jan1_ordinal epoch_year) + 7 * Z.of_nat i))
    /\ Internals.date_to_week_tuple d false
       = Ok (year_of (sunday_on_or_before (jan1_ordinal epoch_year) + 7 * Z.of_nat i + 6),
             week_number_of_sunday
               (sunday_on_or_before (jan1_ordinal epoch_year) + 7 * Z.of_nat i)).
Proof.
  intros Hep H1 Hm Hk Hend V Hy.
  assert (Hs0 : sunday_on_or_before (jan1_ordinal epoch_year)
                <= days_before_year epoch_year + 1).
  { rewrite sunday_on_or_before_eq, jan1_ordinal_eq.
    Z.to_euclidean_division_equations; lia. }
  revert H1 Hm Hk Hend Hs0.
  generalize (sunday_on_or_before (jan1_ordinal epoch_year)).
  intros s0 H1 Hm Hk Hend Hs0.
  pose proof (toordinal_year_bounds d V) as B.
  pose proof (toordinal_range d V) as R.
  destruct (year_of_spec (s0 + 7 * Z.of_nat k) ltac:(lia)) as [Yk Bk].
  pose proof (days_before_year_mono epoch_year (year d) ltac:(lia)) as Hmono.
  assert (Hcov : s0 <= toordinal d < s0 + 7 * Z.of_nat k).
  { split; [lia|].
    destruct (Z_lt_le_dec (toordinal d) (s0 + 7 * Z.of_nat k)) as [?|Hge]; [assumption|].
    pose proof (year_of_mono (s0 + 7 * Z.of_nat k) (toordinal d)
                  ltac:(lia) Hge ltac:(lia)) as Hyo.
    rewrite (year_of_toordinal d V) in Hyo. lia. }
  destruct (built_week_of_date _ _ _ Hm H1 Hk V Hcov) as (i & Hik & Hin & _ & Hdin & _).
  exists i. split; [assumption|]. split; [assumption|].
  set (s := s0 + 7 * Z.of_nat i) in *.
  assert (Hs : s mod 7 = 0).
  { unfold s. clear - Hm. Z.to_euclidean_division_equations; lia. }
  assert (Hyd : year_of (s + (toordinal d - s)) < MAXYEAR).
  { replace (s + (toordinal d - s)) with (toordinal d) by lia.
    rewrite (year_of_toordinal d V), MAXYEAR_eq. lia. }
  assert (Hs1 : 1 <= s) by (unfold s; lia).
  assert (Hs6 : s + 6 <= MAXORDINAL) by (unfold s; lia).
  assert (Hi : 0 <= toordinal d - s <= 6) by lia.
  pose proof (week_of_sunday_tuple s (toordinal d - s) false Hs Hs1 Hs6 Hi Hyd) as Ht.
  replace (s + (toordinal d - s)) with (toordinal d) in Ht by lia.
  rewrite fromordinal_toordinal in Ht by assumption. exact Ht.
Qed.

(** After a completed build the cache resolves every date of the epoch
    range to the Week record that holds it. *)
Lemma build_all_resolves e y sow w w1 :
  Builder.build_all e y sow w = (Ok tt, w1) ->
  exists self,
    (Builder.init e y sow w).1 = Ok self
    /\ forall d, valid_date d ->
         Builder.epoch_year self <= year d <= Builder.end_year self ->
         exists dd wd,
           days (redis w1) !! date_to_datekey d = Some dd
           /\ weeks (redis w1) !! (dy_week_year dd, dy_week_number dd) = Some wd
           /\ d ∈ wk_week_dates wd.
Proof.
  intros Hbuild.
  destruct (build_all_phases _ _ _ _ _ Hbuild)
    as (self & self' & wc & w3 & w4 & Hdb & Hinit & Hweeks & Hyears & Hdays).
  clear Hbuild.
  destruct (init_inv _ _ _ _ _ _ Hinit) as (_ & Hfresh & Hle).
  exists self. split.
  { rewrite (init_depends_on_settings e y sow w wc (eq_sym Hdb)), Hinit. reflexivity. }
  intros d V Hy.
  destruct (built_weeks_shape _ _ _ _ Hfresh Hweeks)
    as (Hep & H1 & Hm & k & _ & Hw3 & Eend & Eep & _ & _ & _ & _ & Hk & Hend).
  assert (Kw4 : weeks (redis w4) = weeks (redis w3)).
  { pose proof (keeps_build_years self' w3) as Ky. rewrite Hyears in Ky.
    destruct Ky as (_ & _ & Ky). exact Ky. }
  assert (Kw1 : weeks (redis w1) = weeks (redis w4)).
  { pose proof (keeps_build_days self' w4) as Kd. rewrite Hdays in Kd.
    destruct Kd as (_ & Kd & _). exact Kd. }
  assert (Hyd : Builder.epoch_year self' <= year d <= Builder.end_year self') by lia.
  destruct (build_days_resolves _ _ _ Hdays d V Hyd) as (dd & Hdd & _ & Ht).
  clear Hinit Hweeks Hyears Hdays Hfresh Hyd Eend Eep.
  destruct (epoch_date_week (Builder.epoch_year self) (Builder.end_year self) k d
              ltac:(lia) H1 Hm Hk Hend V Hy) as (i & Hik & Hdin & Htuple).
  rewrite Ht in Htuple. injection Htuple as Ey En.
  exists dd, (week_of_sunday (sunday_on_or_before (jan1_ordinal (Builder.epoch_year self))
                              + 7 * Z.of_nat i)).
  split; [assumption|]. split; [|assumption].
  rewrite Kw1, Kw4, Hw3, Ey, En.
  now apply weeks_from_lookup.
Qed.

Lemma get_week_by_anydate_miss_run d w :
  days (redis w) !! date_to_datekey d = None ->
  get_week_by_anydate d w =
  match Builder.build_all None None "SUN" w with
  | (Ok _, w1) =>
    match days (redis w1) !! date_to_datekey d with
    | Some dd =>
      (result_week ← get_week_by_weeknum (dy_week_year dd) (dy_week_number dd);
       match result_week with
       | Some result_week => mret result_week
       | None => raise Exception
       end) w1
    | None => (Raise KeyError, w1)
    end
  | (Raise e, w1) => (Raise e, w1)
  end.
Proof.
  intros H. unfold get_week_by_anydate, get_date_metadata, Redis.read_single_day.
  rewrite io_bind_run, H, io_bind_run, io_bind_run.
  destruct (Builder.build_all None None "SUN" w) as [[[]|e] w1]; [|reflexivity].
  rewrite io_bind_run.
  destruct (days (redis w1) !! date_to_datekey d); reflexivity.
Qed.

(** C6.  For a date [d]:
    - after a completed build, if [d] lies in the epoch range the build was
      configured with, [get_week_by_anydate d] returns a Week whose days
      hold [d], and leaves the world as it is;
    - if the Day record of [d] is absent, the function starts one rebuild of
      its own; when that rebuild completes and [d] lies in the configured
      epoch range, it returns a Week whose days hold [d], one build having
      run;
    - if the Day record is still absent after that one rebuild, it raises
      [KeyError]. *)
Theorem get_week_by_anydate_after_build (d : date) :
  valid_date d ->
  (forall e y sow w0 w self,
     Builder.build_all e y sow w0 = (Ok tt, w) ->
     (Builder.init e y sow w0).1 = Ok self ->
     Builder.epoch_year self <= year d <= Builder.end_year self ->
     exists wk, get_week_by_anydate d w = (Ok wk, w) /\ d ∈ Week.days wk)
  /\ (forall w w1 self,
        days (redis w) !! date_to_datekey d = None ->
        Builder.build_all None None "SUN" w = (Ok tt, w1) ->
        (Builder.init None None "SUN" w).1 = Ok self ->
        Builder.epoch_year self <= year d <= Builder.end_year self ->
        exists wk,
          get_week_by_anydate d w = (Ok wk, w1) /\ d ∈ Week.days wk
          /\ build_all_calls w1 = S (build_all_calls w))
  /\ (forall w w1,
        days (redis w) !! date_to_datekey d = None ->
        Builder.build_all None None "SUN" w = (Ok tt, w1) ->
        days (redis w1) !! date_to_datekey d = None ->
        get_week_by_anydate d w = (Raise KeyError, w1)).
Proof.
  intros V. split; [|split].
  - intros e y sow w0 w self Hbuild Hinit Hy.
    destruct (build_all_resolves _ _ _ _ _ Hbuild) as (self' & Hinit' & Hres).
    rewrite Hinit in Hinit'. injection Hinit' as <-.
    destruct (Hres d V Hy) as (dd & wd & Hd & Hw & Hin).
    eexists. split; [apply (get_week_by_anydate_hit d w dd wd Hd Hw)|]. exact Hin.
  - intros w w1 self Hmiss Hbuild Hinit Hy.
    destruct (build_all_resolves _ _ _ _ _ Hbuild) as (self' & Hinit' & Hres).
    rewrite Hinit in Hinit'. injection Hinit' as <-.
    destruct (Hres d V Hy) as (dd & wd & Hd & Hw & Hin).
    rewrite (get_week_by_anydate_miss_run d w Hmiss), Hbuild, Hd.
    rewrite io_bind_run, (get_week_by_weeknum_hit _ _ _ _ Hw).
    eexists. split; [reflexivity|]. split; [exact Hin|].
    pose proof (build_all_counts None None "SUN" w) as [_ Hc]. now rewrite Hbuild in Hc.
  - intros w w1 Hmiss Hbuild Hmiss1.
    now rewrite (get_week_by_anydate_miss_run d w Hmiss), Hbuild, Hmiss1.
Qed.

(** *** A build completes

    For an epoch from year 2 to year 9998 at most, no date the Builder
    computes leaves the range of [date], and the build returns. *)

Lemma days_before_year_9999 : days_before_year 9999 + 365 = MAXORDINAL.
Proof. reflexivity. Qed.

Lemma build_weeks_loop_completes fuel : forall self s wn w,
  s mod 7 = 0 -> 1 <= s <= MAXORDINAL -> week_number_state s wn ->
  (MAXORDINAL - s) / 7 + 1 <= Z.of_nat fuel ->
  Builder.end_year self <= 9998 ->
  is_ok (Builder.build_weeks_loop fuel self (fromordinal s) wn w).1 = true.
Proof.
  induction fuel as [|fuel IH]; intros self s wn w Hs R Hwn Hfuel Hend.
  - exfalso. clear - R Hfuel. Z.to_euclidean_division_equations; lia.
  - rewrite build_weeks_loop_step by assumption.
    destruct (Z.gtb_spec (year_of s) (Builder.end_year self)) as [Hgt|Hle]; [reflexivity|].
    destruct (year_of_spec s R) as [_ Bs].
    pose proof (days_before_year_mono (year_of s + 1) 9999 ltac:(lia)) as Hm.
    pose proof days_before_year_9999 as H9.
    destruct (Z.leb_spec (s + 6) MAXORDINAL) as [H6|H6]; [|lia].
    apply IH; auto.
    + clear - Hs. Z.to_euclidean_division_equations; lia.
    + lia.
    + right. do 2 f_equal. lia.
    + clear - Hfuel R H6 Hs. pose proof MAXORDINAL_mod.
      Z.to_euclidean_division_equations; lia.
Qed.

Lemma build_weeks_completes self w :
  2 <= Builder.epoch_year self -> Builder.epoch_year self <= 9999 ->
  Builder.end_year self <= 9998 ->
  is_ok (Builder.build_weeks self w).1 = true.
Proof.
  intros H2 H9 Hend. unfold Builder.build_weeks.
  rewrite io_bind_run, lift_run.
  rewrite new_date_ok by (apply jan1_fields_ok; lia).
  assert (V : valid_date (mkdate (Builder.epoch_year self) 1 1))
    by (apply jan1_fields_ok; simpl; lia).
  rewrite io_bind_run, lift_run, strftime_w_mod, toordinal_jan1.
  pose proof (days_before_year_mono 2 (Builder.epoch_year self) H2) as Hm.
  change (days_before_year 2) with 365 in Hm.
  pose proof (days_before_year_mono (Builder.epoch_year self) 9999 H9) as Hmax.
  pose proof days_before_year_9999 as E9.
  set (j := days_before_year (Builder.epoch_year self)) in *.
  assert (Hmod : 0 <= (j + 1) mod 7 < 7) by (apply Z.mod_pos_bound; lia).
  rewrite add_days_ok; [|assumption|rewrite toordinal_jan1; fold j; lia].
  rewrite toordinal_jan1. fold j.
  replace (j + 1 + - ((j + 1) mod 7)) with (sunday_on_or_before (jan1_ordinal (Builder.epoch_year self)))
    by (rewrite sunday_on_or_before_eq, jan1_ordinal_eq; fold j; lia).
  assert (H1 : 1 <= sunday_on_or_before (jan1_ordinal (Builder.epoch_year self))).
  { rewrite sunday_on_or_before_eq, jan1_ordinal_eq. fold j. lia. }
  destruct (first_week_new_year (Builder.epoch_year self) ltac:(lia) H1)
    as (Hs & Hj & H6 & _ & Hny).
  assert (Ht : toordinal (fromordinal (sunday_on_or_before
                                         (jan1_ordinal (Builder.epoch_year self))))
               = sunday_on_or_before (jan1_ordinal (Builder.epoch_year self))).
  { apply fromordinal_valid. lia. }
  apply build_weeks_loop_completes; auto.
  - lia.
  - left. exact Hny.
  - unfold Builder.turns_bound. rewrite Ht.
    rewrite Z2Nat.id; [lia|].
    generalize dependent (sunday_on_or_before (jan1_ordinal (Builder.epoch_year self))).
    intros s. intros. clear - H6. Z.to_euclidean_division_equations; lia.
Qed.

Lemma for_each_completes {A} (l : list A) (body : A -> io unit) : forall w,
  (forall x w, x ∈ l -> is_ok (body x w).1 = true) ->
  is_ok (for_each l body w).1 = true.
Proof.
  induction l as [|x l IH]; intros w H; cbn [for_each]; [reflexivity|].
  rewrite io_bind_run.
  pose proof (H x w (list_elem_of_here _ _)) as Hx.
  destruct (body x w) as [[[]|e] w1]; [|discriminate].
  apply IH. intros x' w' Hx'. apply H. now apply list_elem_of_further.
Qed.

(** The abbreviated name of every day of the week is in the table of the
    weeks that begin on Sunday. *)
Lemma jan_one_weekpos_found d :
  exists i, Builder.index (Str.upper (Strftime.fmt_a d)) (name_short <$> WEEKDAYS_SUN0)
            = Some i.
Proof.
  unfold Strftime.fmt_a, weekday.
  assert (H : 0 <= (toordinal d + 6) mod 7 < 7) by (apply Z.mod_pos_bound; lia).
  generalize dependent ((toordinal d + 6) mod 7). intros n H.
  assert (C : n = 0 \/ n = 1 \/ n = 2 \/ n = 3 \/ n = 4 \/ n = 5 \/ n = 6) by lia.
  decompose [or] C; subst n; eexists; vm_compute; reflexivity.
Qed.

Lemma build_year_completes self y w :
  1 <= y <= 9999 ->
  Builder.weekday_names self = WEEKDAYS_SUN0 ->
  (exists m, Builder.max_of (week_numbers_of_year y (Builder.week_dicts self)) = Ok m) ->
  is_ok (Builder.build_year self y w).1 = true.
Proof.
  intros Hy Hn [m Hm]. unfold Builder.build_year.
  rewrite io_bind_run, lift_run, new_date_ok by (apply jan1_fields_ok; lia).
  rewrite io_bind_run, lift_run, new_date_ok by (apply dec31_fields_ok; lia).
  rewrite Hn.
  destruct (jan_one_weekpos_found (mkdate y 1 1)) as [i ->].
  rewrite io_bind_run, io_ret_run, io_bind_run, lift_run.
  unfold week_numbers_of_year in Hm. rewrite Hm. reflexivity.
Qed.

Lemma init_fields e y sow w self w' :
  Builder.init e y sow w = (Ok self, w') ->
  Builder.years self
  = seqZ (Builder.epoch_year self) (Builder.end_year self + 1 - Builder.epoch_year self)
  /\ Builder.weekday_names self = WEEKDAYS_SUN0.
Proof.
  unfold Builder.init. rewrite io_bind_run. cbn [Frappe.get_debug_mode].
  destruct (negb _); [discriminate|].
  destruct (String.eqb sow "SUN") eqn:Esun; [|discriminate]. cbn [negb].
  rewrite io_bind_run.
  set (m1 := if Builder.falsy e then _ else _).
  assert (H1 : exists a, m1 w = (Ok a, w)).
  { unfold m1. destruct (Builder.falsy e); eauto. }
  destruct H1 as [a ->]. rewrite io_bind_run.
  set (m2 := if Builder.falsy y then _ else _).
  assert (H2 : exists b, m2 w = (Ok b, w)).
  { unfold m2. destruct (Builder.falsy y); eauto. }
  destruct H2 as [b ->].
  destruct (Z.ltb_spec b a); [discriminate|].
  intros [= <- <-]. cbn. auto.
Qed.

Lemma build_years_completes self self' w w' :
  Builder.week_dicts self = [] ->
  Builder.years self
  = seqZ (Builder.epoch_year self) (Builder.end_year self + 1 - Builder.epoch_year self) ->
  Builder.weekday_names self = WEEKDAYS_SUN0 ->
  Builder.build_weeks self w = (Ok self', w') ->
  forall w0, is_ok (Builder.build_years self' w0).1 = true.
Proof.
  intros Hfresh Hyears Hnames Hweeks w0.
  destruct (built_weeks_shape _ _ _ _ Hfresh Hweeks)
    as (Hep & H1 & Hm & k & Hdicts & _ & Eend & Eep & Ey & En & _ & Hbefore & Hk & Hend).
  unfold Builder.build_years. rewrite io_bind_run. cbn [Redis.write_years].
  apply for_each_completes. intros y w1 Hin.
  rewrite Ey, Hyears in Hin. apply elem_of_seqZ in Hin.
  destruct (end_year_bound _ k (Builder.end_year self) y H1 Hk Hend ltac:(lia) ltac:(lia))
    as [_ Hy9].
  apply build_year_completes.
  - lia.
  - now rewrite En.
  - rewrite Hdicts.
    destruct (max_week_number_spec _ k (Builder.end_year self) y Hm H1 Hk Hend
                (sunday_of_jan1_mono (Builder.epoch_year self) y ltac:(lia)) ltac:(lia) ltac:(lia)) as (m & Hmax & _).
    eauto.
Qed.

Lemma build_days_completes self w :
  1 <= Builder.epoch_year self <= 9999 -> 1 <= Builder.end_year self <= 9998 ->
  is_ok (Builder.build_days self w).1 = true.
Proof.
  intros Hep Hend. unfold Builder.build_days.
  rewrite io_bind_run, lift_run, new_date_ok by (apply jan1_fields_ok; lia).
  rewrite io_bind_run, lift_run, new_date_ok by (apply dec31_fields_ok; lia).
  assert (Vs : valid_date (mkdate (Builder.epoch_year self) 1 1))
    by (apply jan1_fields_ok; simpl; lia).
  change (is_ok (for_each (date_range (mkdate (Builder.epoch_year self) 1 1)
                                      (mkdate (Builder.end_year self) 12 31))
                          build_day w).1 = true).
  apply for_each_completes. intros r w1 Hin.
  unfold date_range, sub_days in Hin. apply list_elem_of_fmap in Hin.
  destruct Hin as (i & -> & Hi). apply elem_of_seqZ in Hi.
  rewrite toordinal_jan1, toordinal_dec31 in Hi.
  pose proof (days_before_year_nonneg (Builder.epoch_year self) ltac:(lia)) as Hnn.
  pose proof (days_before_year_mono (Builder.end_year self + 1) 9999 ltac:(lia)) as Hmax.
  pose proof days_before_year_9999 as E9.
  assert (R : 1 <= days_before_year (Builder.epoch_year self) + 1 + i <= MAXORDINAL) by lia.
  rewrite add_days_ok, toordinal_jan1 by (rewrite ?toordinal_jan1; auto).
  rewrite build_day_run.
  pose proof (fromordinal_valid _ R) as [V Ht].
  rewrite date_to_week_tuple_closed; [reflexivity|exact V|].
  rewrite <- (year_of_toordinal _ V), Ht, MAXYEAR_eq.
  destruct (year_of_spec _ R) as [_ [B _]].
  destruct (Z_lt_le_dec (year_of (days_before_year (Builder.epoch_year self) + 1 + i)) 9999)
    as [?|Hge]; [assumption|exfalso].
  pose proof (days_before_year_mono _ _ Hge). lia.
Qed.

(** The build returns for every epoch from year 2 to year 9998 at most. *)
Lemma build_all_completes e y sow w self :
  (Builder.init e y sow w).1 = Ok self ->
  2 <= Builder.epoch_year self -> Builder.end_year self <= 9998 ->
  (Builder.build_all e y sow w).1 = Ok tt.
Proof.
  intros Hinit H2 H9.
  unfold Builder.build_all. rewrite io_bind_run. cbn [Builder.count_build_all].
  set (wc := mk_world (db w) (redis w) (S (build_all_calls w))).
  rewrite io_bind_run.
  rewrite (init_depends_on_settings e y sow w wc eq_refl) in Hinit.
  destruct (Builder.init e y sow wc) as [[self0|] w2] eqn:Hrun; [|discriminate].
  cbn in Hinit. injection Hinit as ->.
  destruct (init_inv _ _ _ _ _ _ Hrun) as (-> & Hfresh & Hle).
  destruct (init_fields _ _ _ _ _ _ Hrun) as (Hyears & Hnames).
  rewrite io_bind_run.
  pose proof (build_weeks_completes self wc H2 ltac:(lia) H9) as Hw.
  destruct (Builder.build_weeks self wc) as [[self'|] w3] eqn:Hweeks; [|discriminate].
  rewrite io_bind_run.
  pose proof (build_years_completes _ _ _ _ Hfresh Hyears Hnames Hweeks w3) as Hy.
  destruct (Builder.build_years self' w3) as [[[]|] w4]; [|discriminate].
  destruct (built_weeks_shape _ _ _ _ Hfresh Hweeks)
    as (_ & _ & _ & k & _ & _ & Eend & Eep & _).
  pose proof (build_days_completes self' w4 ltac:(lia) ltac:(lia)) as Hd.
  destruct (Builder.build_days self' w4) as [[[]|] w1]; [reflexivity|discriminate].
Qed.

(** C1, as stated, does not hold at the end of the range of [date]: the
    build of the epoch 9998..9998 completes, its last Week record is week 1
    of 9999 and holds 9999-01-01, and [Internals.date_to_week_tuple] raises
    for that date. *)
Lemma date_to_week_tuple_raises_in_built_week_9999 :
  let self := one_year_builder 9998 in
  let run := Builder.build_weeks self (one_year_world 9998) in
  let self' := builder_after run self in
  let wk := week_of_sunday 3651690 in
  (Builder.build_all None None "SUN" (one_year_world 9998)).1 = Ok tt
  /\ run = (Ok self', run.2)
  /\ wk ∈ Builder.week_dicts self'
  /\ (wk_year wk, wk_week_number wk) = (9999, 1)
  /\ valid_date (mkdate 9999 1 1)
  /\ mkdate 9999 1 1 ∈ wk_week_dates wk
  /\ covered_by (Builder.week_dicts self') (mkdate 9999 1 1)
  /\ Internals.date_to_week_tuple (mkdate 9999 1 1) false = Raise ValueError.
Proof.
  cbv zeta.
  split; [vm_compute; reflexivity|].
  split; [apply builder_after_eta; vm_compute; reflexivity|].
  split.
  { apply list_elem_of_In. vm_compute. tauto. }
  split; [vm_compute; reflexivity|].
  split; [reflexivity|].
  split.
  { apply list_elem_of_In. vm_compute. tauto. }
  split.
  { exists (week_of_sunday 3651326), (week_of_sunday 3651690).
    split; [vm_compute; reflexivity|].
    split; [vm_compute; reflexivity|].
    split; vm_compute; reflexivity. }
  reflexivity.
Qed.

(** *** The theorems at concrete inputs *)

(** C1 at the epoch 2021..2021 and the date 2021-06-15. *)
Lemma date_to_week_tuple_matches_build_weeks_2021 :
  let self := one_year_builder 2021 in
  let run := Builder.build_weeks self (one_year_world 2021) in
  let self' := builder_after run self in
  let d := mkdate 2021 6 15 in
  Builder.week_dicts self = []
  /\ run = (Ok self', run.2)
  /\ valid_date d /\ year d < MAXYEAR
  /\ covered_by (Builder.week_dicts self') d
  /\ exists wk,
       wk ∈ Builder.week_dicts self'
       /\ d ∈ wk_week_dates wk
       /\ (forall wk', wk' ∈ Builder.week_dicts self' -> d ∈ wk_week_dates wk' -> wk' = wk)
       /\ Internals.date_to_week_tuple d false = Ok (wk_year wk, wk_week_number wk).
Proof.
  cbv zeta.
  assert (H1 : Builder.week_dicts (one_year_builder 2021) = []) by reflexivity.
  assert (H2 : Builder.build_weeks (one_year_builder 2021) (one_year_world 2021)
               = (Ok (builder_after (Builder.build_weeks (one_year_builder 2021)
                                                         (one_year_world 2021))
                                    (one_year_builder 2021)),
                  (Builder.build_weeks (one_year_builder 2021) (one_year_world 2021)).2))
    by (apply builder_after_eta; vm_compute; reflexivity).
  assert (H3 : valid_date (mkdate 2021 6 15)) by reflexivity.
  assert (H4 : year (mkdate 2021 6 15) < MAXYEAR) by reflexivity.
  assert (H5 : covered_by
                 (Builder.week_dicts
                    (builder_after (Builder.build_weeks (one_year_builder 2021)
                                                        (one_year_world 2021))
                                   (one_year_builder 2021)))
                 (mkdate 2021 6 15)).
  { exists (week_of_sunday 737786), (week_of_sunday 738150).
    split; [vm_compute; reflexivity|].
    split; [vm_compute; reflexivity|].
    split; vm_compute; reflexivity. }
  repeat (split; [assumption|]).
  exact (date_to_week_tuple_matches_build_weeks _ _ _ _ _ false H1 H2 H3 H4 H5).
Defined.

(** C7 at the epoch 2021..2021. *)
Lemma build_weeks_week_invariants_2021 :
  let self := one_year_builder 2021 in
  let run := Builder.build_weeks self (one_year_world 2021) in
  let self' := builder_after run self in
  Builder.week_dicts self = []
  /\ run = (Ok self', run.2)
  /\ (forall wk, wk ∈ Builder.week_dicts self' ->
        length (wk_week_dates wk) = 7%nat
        /\ valid_date (wk_week_start wk)
        /\ strftime_w (wk_week_start wk) = 0
        /\ Ok <$> wk_week_dates wk = (fun i => add_days (wk_week_start wk) i) <$> seqZ 0 7
        /\ add_days (wk_week_start wk) 6 = Ok (wk_week_end wk))
  /\ (forall y, 2021 <= y <= 2021 ->
        exists max_week_number,
          Builder.max_of (wk_week_number <$>
                          filter (fun wk => wk_year wk = y) (Builder.week_dicts self'))
          = Ok max_week_number
          /\ (max_week_number = 52 \/ max_week_number = 53)
          /\ forall n,
               n ∈ wk_week_number <$>
                    filter (fun wk => wk_year wk = y) (Builder.week_dicts self')
               <-> 1 <= n <= max_week_number).
Proof.
  cbv zeta.
  assert (H1 : Builder.week_dicts (one_year_builder 2021) = []) by reflexivity.
  assert (H2 : Builder.build_weeks (one_year_builder 2021) (one_year_world 2021)
               = (Ok (builder_after (Builder.build_weeks (one_year_builder 2021)
                                                         (one_year_world 2021))
                                    (one_year_builder 2021)),
                  (Builder.build_weeks (one_year_builder 2021) (one_year_world 2021)).2))
    by (apply builder_after_eta; vm_compute; reflexivity).
  split; [assumption|]. split; [assumption|].
  exact (build_weeks_week_invariants _ _ _ _ H1 H2).
Defined.

(** C2 at a week no build of the epoch 2021..2021 writes. *)
Lemma get_week_by_weeknum_miss_1999 :
  let w := one_year_world 2021 in
  let rebuilt := Builder.build_all None None "SUN" w in
  let out := get_week_by_weeknum 1999 5 w in
  weeks (redis w) !! (1999, 5) = None
  /\ out.2 = rebuilt.2
  /\ build_all_calls out.2 = 1%nat
  /\ (forall e, rebuilt.1 = Raise e -> out.1 = Raise e)
  /\ (rebuilt.1 = Ok tt ->
      weeks (redis rebuilt.2) !! (1999, 5) = None ->
      out.1 = Ok None).
Proof.
  cbv zeta.
  assert (H : weeks (redis (one_year_world 2021)) !! (1999, 5) = None) by reflexivity.
  split; [assumption|].
  exact (get_week_by_weeknum_miss 1999 5 (one_year_world 2021) H).
Defined.

(** C2, as stated, does not hold: with debug_mode off, a record that is
    still absent after the rebuild gives [None], not an error. *)
Lemma get_week_by_weeknum_returns_none :
  let w := one_year_world 2021 in
  let rebuilt := Builder.build_all None None "SUN" w in
  weeks (redis w) !! (1999, 5) = None
  /\ rebuilt.1 = Ok tt
  /\ weeks (redis rebuilt.2) !! (1999, 5) = None
  /\ (get_week_by_weeknum 1999 5 w).1 = Ok None.
Proof.
  cbv zeta.
  split; [reflexivity|].
  split; [vm_compute; reflexivity|].
  split; [vm_compute; reflexivity|].
  vm_compute. reflexivity.
Qed.

(** C4 at 2021-01-02, the Saturday after Friday, January 1st 2021. *)
Lemma date_to_week_tuple_boundary_cases_2021 :
  let d := mkdate 2021 1 2 in
  valid_date d /\ year d < MAXYEAR
  /\ (is_january_first d -> Internals.date_to_week_tuple d false = Ok (year d, 1))
  /\ (early_january_case d -> Internals.date_to_week_tuple d false = Ok (year d, 1))
  /\ (late_december_case d -> Internals.date_to_week_tuple d false = Ok (year d + 1, 1))
  /\ (late_december_case d -> ~ is_january_first d /\ ~ early_january_case d).
Proof.
  cbv zeta.
  assert (H1 : valid_date (mkdate 2021 1 2)) by reflexivity.
  assert (H2 : year (mkdate 2021 1 2) < MAXYEAR) by reflexivity.
  split; [assumption|]. split; [assumption|].
  exact (date_to_week_tuple_boundary_cases (mkdate 2021 1 2) false H1 H2).
Defined.

(** C5 at 2021-06-15. *)
Lemma date_to_week_tuple_general_case_2021 :
  let d := mkdate 2021 6 15 in
  valid_date d /\ year d < MAXYEAR
  /\ ~ is_january_first d /\ ~ early_january_case d /\ ~ late_december_case d
  /\ exists first_sunday,
       first_sunday_of_year (year d) first_sunday
       /\ let first_full_week :=
            if date_eqb first_sunday (mkdate (year d) 1 1) then 1 else 2 in
          Internals.date_to_week_tuple d false
          = Ok (year d, (yday d - yday first_sunday) / 7 + first_full_week).
Proof.
  cbv zeta.
  assert (H1 : valid_date (mkdate 2021 6 15)) by reflexivity.
  assert (H2 : year (mkdate 2021 6 15) < MAXYEAR) by reflexivity.
  assert (H3 : ~ is_january_first (mkdate 2021 6 15)).
  { intros [H _]. discriminate. }
  assert (H4 : ~ early_january_case (mkdate 2021 6 15)).
  { intros [_ H]. vm_compute in H. destruct H as [_ H]. apply H. reflexivity. }
  assert (H5 : ~ late_december_case (mkdate 2021 6 15)).
  { intros [_ H]. vm_compute in H. destruct H as [_ H]. apply H. reflexivity. }
  repeat (split; [assumption|]).
  exact (date_to_week_tuple_general_case (mkdate 2021 6 15) false H1 H2 H3 H4 H5).
Defined.

(** C6 at 2030-06-15, from an empty cache: the function rebuilds the epoch
    2030..2030 itself and returns the Week of the date. *)
Lemma get_week_by_anydate_self_heal_2030 :
  let d := mkdate 2030 6 15 in
  let w := one_year_world 2030 in
  let w1 := (Builder.build_all None None "SUN" w).2 in
  valid_date d
  /\ exists wk,
       get_week_by_anydate d w = (Ok wk, w1) /\ d ∈ Week.days wk
       /\ build_all_calls w1 = S (build_all_calls w).
Proof.
  cbv zeta.
  assert (V : valid_date (mkdate 2030 6 15)) by reflexivity.
  split; [assumption|].
  destruct (get_week_by_anydate_after_build (mkdate 2030 6 15) V) as (_ & H & _).
  apply (H (one_year_world 2030) _ (one_year_builder 2030)).
  - reflexivity.
  - apply unit_run_eta. vm_compute. reflexivity.
  - vm_compute. reflexivity.
  - cbn. lia.
Defined.

(** C10 at 2021-06-15, in the cache a build of the epoch 2021..2021 leaves. *)
Lemma week_generator_same_date_2021 :
  let d := mkdate 2021 6 15 in
  let w := (Builder.build_all None None "SUN" (one_year_world 2021)).2 in
  let wd := week_of_sunday 737954 in
  let wk := Week.init (wk_year wd) (wk_week_number wd) (wk_week_dates wd)
                      (wk_week_start wd) (wk_week_end wd) in
  get_week_by_anydate d w = (Ok wk, w)
  /\ well_keyed (redis w)
  /\ (Week.week_year wk, Week.week_number wk) = (2021, 25)
  /\ d ∈ Week.days wk
  /\ week_generator d d w = ([Some wk; Some wk], (Ok tt, w)).
Proof.
  cbv zeta.
  assert (H1 : get_week_by_anydate (mkdate 2021 6 15)
                 (Builder.build_all None None "SUN" (one_year_world 2021)).2
               = (Ok (Week.init (wk_year (week_of_sunday 737954))
                                (wk_week_number (week_of_sunday 737954))
                                (wk_week_dates (week_of_sunday 737954))
                                (wk_week_start (week_of_sunday 737954))
                                (wk_week_end (week_of_sunday 737954))),
                  (Builder.build_all None None "SUN" (one_year_world 2021)).2)).
  { apply (get_week_by_anydate_hit _ _ (day_dict_of (mkdate 2021 6 15) (2021, 25))).
    - vm_compute. reflexivity.
    - vm_compute. reflexivity. }
  assert (H2 : well_keyed (redis (Builder.build_all None None "SUN" (one_year_world 2021)).2)).
  { apply build_all_keeps_keying, well_keyed_empty. }
  split; [assumption|]. split; [assumption|].
  split; [vm_compute; reflexivity|].
  split; [apply list_elem_of_In; vm_compute; tauto|].
  exact (week_generator_same_date _ _ _ _ H1 H2).
Defined.
